(** * Call-centre dashboard: aggregation and broadcast engine

    A shallow embedding of the classes [WebSocketHandler] and
    [FreePBXService] and of the server set-up and routes that drive them
    (all three in [server/services/websocketHandler.js]), followed by the
    properties of the engine.

    Conventions of the embedding.
    - A field that the code compares with [===] or prints in a template
      literal is a [JS.value]: a string, [undefined] (a key that is not
      there) or [null].  A field that the code only tests for truthiness,
      defaults with [||] or passes on is an [option], and [None] stands
      for either missing value.  Where a value is expected, an [option]
      is read as a string or [undefined].
    - Counters and durations in seconds are [Z]; the results of
      [Math.random()], percentages and averages are exact rationals [Q].
      A quotient is a [JS.number], which is finite, infinite or [NaN].
    - A listing answered by the connector is an array of objects whose
      fields have the types of the payload records, and short enough to
      be spread into one call.  On a longer array [Math.max(...)] in
      [getCallCenterStats] raises a [RangeError], and on a [departments]
      field that is not an array the recount raises a [TypeError]; the
      model does not cover such answers.
    - A [Date] is its epoch time in milliseconds, a [Z].  An ISO string
      produced by [toISOString()] and read back by [new Date(...)] denotes
      the same millisecond, so such a string is kept as that [Z].
    - A JavaScript [Map] is an association list in insertion order with
      pairwise distinct keys.
    - Objects built by the fetch functions are fresh on every call, so a
      list of records stands for an array of them; the registry is the one
      object shared between the two classes and lives in the state [Sys].
    - Within one handler or one tick the clock is read once, and awaited
      calls complete in the order in which they are written; a call that
      is started without being awaited ([broadcastCallUpdate] from the
      event handlers, [broadcastUpdates] from [startPolling]) is run to
      its end at the place where it is started.
    - [console.log] and [console.error] are not part of the model. *)

From Stdlib Require Import ZArith QArith Qround List String Ascii Bool Lia.
From stdpp Require Import base gmap strings pretty.
Import ListNotations.

Open Scope string_scope.
Open Scope Z_scope.

(** ** JavaScript operators used by the source *)

Module JS.

(** A value that is a string, [undefined] or [null]. *)
Inductive value : Type :=
| Undefined
| Null
| Str (s : string).

(** A string-or-undefined as a value. *)
Definition of_option (o : option string) : value :=
  match o with
  | Some s => Str s
  | None => Undefined
  end.

(** The string of a value, if it is one. *)
Definition opt (v : value) : option string :=
  match v with
  | Str s => Some s
  | Undefined | Null => None
  end.

(** Truthiness: [undefined], [null] and the empty string are falsy. *)
Definition truthy (v : value) : bool :=
  match v with
  | Str s => negb (String.eqb s "")
  | Undefined | Null => false
  end.

(** [a || 'literal'] *)
Definition or_str (v : value) (d : string) : string :=
  match v with
  | Str s => if String.eqb s "" then d else s
  | Undefined | Null => d
  end.

(** [a || b], for a result that is only passed on. *)
Definition or_opt (a b : value) : option string :=
  if truthy a then opt a else opt b.

(** [a || null] *)
Definition or_null (a : value) : option string :=
  if truthy a then opt a else None.

(** [n || d] on a number-or-undefined: [0] is falsy. *)
Definition or_num (o : option Z) (d : Z) : Z :=
  match o with
  | Some n => if n =? 0 then d else n
  | None => d
  end.

(** [a === b]: [undefined] and [null] are equal to themselves only. *)
Definition seq (a b : value) : bool :=
  match a, b with
  | Str x, Str y => String.eqb x y
  | Undefined, Undefined => true
  | Null, Null => true
  | _, _ => false
  end.

(** A value inside a template literal. *)
Definition show (v : value) : string :=
  match v with
  | Str s => s
  | Undefined => "undefined"
  | Null => "null"
  end.

(** [String(n)] for an integer. *)
Definition show_num (n : Z) : string := pretty n.

Definition lower_ascii (c : ascii) : ascii :=
  let n := nat_of_ascii c in
  if (Nat.leb 65 n && Nat.leb n 90)%bool then ascii_of_nat (n + 32) else c.

Fixpoint toLowerCase (s : string) : string :=
  match s with
  | EmptyString => EmptyString
  | String c r => String (lower_ascii c) (toLowerCase r)
  end.

(** [s.replace(a, b)] for one-character strings: first occurrence only. *)
Fixpoint replace_first (a b : ascii) (s : string) : string :=
  match s with
  | EmptyString => EmptyString
  | String c r =>
      if Ascii.eqb c a then String b r else String c (replace_first a b r)
  end.

Fixpoint repeat_char (c : ascii) (n : nat) : string :=
  match n with
  | O => EmptyString
  | S k => String c (repeat_char c k)
  end.

(** [s.padStart(n, '0')] *)
Definition padStart (n : nat) (c : ascii) (s : string) : string :=
  repeat_char c (n - String.length s) +:+ s.

(** [Math.floor(a / b)] on integers, [b > 0]. *)
Definition floor_div (a b : Z) : Z := a / b.

(** [Math.floor(Math.random() * n)] for a draw [r]. *)
Definition floor_scaled (r : Q) (n : Z) : Z := Qfloor (r * inject_Z n).

(** [Math.max(...xs, 0)] *)
Definition max_with_zero (xs : list Z) : Z := fold_right Z.max 0 xs.

(** The double-quote character of the alert messages. *)
Definition dquote : string := String (ascii_of_nat 34) EmptyString.

(** [a > b] on numbers. *)
Definition gt (a b : Q) : bool := negb (Qle_bool a b).

(** [a < b] on numbers. *)
Definition lt (a b : Q) : bool := negb (Qle_bool b a).

(** The integer a [Date] keeps of a fractional time value: the
    fraction is dropped. *)
Definition trunc (q : Q) : Z :=
  if Qle_bool 0 q then Qfloor q else Qceiling q.

(** [q || 0] on a number-or-undefined that may be fractional. *)
Definition or_frac (o : option Q) (d : Q) : Q :=
  match o with
  | Some q => if Qeq_bool q 0 then d else q
  | None => d
  end.

(** The result of a division: a finite number, an infinity or [NaN]. *)
Inductive number : Type :=
| Finite (q : Q)
| PlusInfinity
| MinusInfinity
| NaN.

(** [a / b] on integers: [0 / 0] is [NaN], any other division by zero
    is infinite. *)
Definition div (a b : Z) : number :=
  if b =? 0 then
    if a =? 0 then NaN
    else if 0 <? a then PlusInfinity else MinusInfinity
  else Finite (inject_Z a / inject_Z b).

(** [arr[Math.floor(r * arr.length)]] for a draw [r]; the index is
    inside the array for every [r] in [0, 1). *)
Definition pick (arr : list string) (r : Q) : string :=
  nth (Z.to_nat (floor_scaled r (Z.of_nat (length arr)))) arr "".

Fixpoint drop_chars (n : nat) (s : string) : string :=
  match n, s with
  | O, _ => s
  | S k, String _ r => drop_chars k r
  | S _, EmptyString => EmptyString
  end.

(** [s.replace(pat, rep)] for strings: first occurrence only. *)
Fixpoint replace (pat rep s : string) : string :=
  if String.prefix pat s then rep +:+ drop_chars (String.length pat) s
  else match s with
       | EmptyString => EmptyString
       | String c r => String c (replace pat rep r)
       end.

End JS.

#[warning="-uniform-inheritance"]
Coercion JS.of_option : option >-> JS.value.

(** ** Data model *)

(** A time stamp field: either an ISO string made by this program from a
    [Date] (kept as its milliseconds), or a string supplied by the
    connector and passed on untouched. *)
Inductive timestamp : Type :=
| ISO (ms : Z)
| Raw (s : string).

(** Payload of a [call.started] / [call.ended] connector event. *)
Record CallData : Type := {
  cd_uniqueid : JS.value;
  cd_callerid : option string;
  cd_callername : option string;
  cd_extension : JS.value;
  cd_direction : option string;
  cd_queueName : option string;
  cd_queueId : option string;
  cd_disposition : option string
}.

(** [callInfo], the record kept in [activeCallsMap]. *)
Record CallInfo : Type := {
  ci_id : string;
  ci_uniqueid : JS.value;
  ci_phoneNumber : string;
  ci_callerName : option string;
  ci_extension : JS.value;
  ci_direction : string;
  ci_startTime : Z;
  ci_duration : Z;
  ci_queueName : string;
  ci_queueId : string
}.

Definition set_duration (c : CallInfo) (d : Z) : CallInfo :=
  {| ci_id := ci_id c; ci_uniqueid := ci_uniqueid c;
     ci_phoneNumber := ci_phoneNumber c; ci_callerName := ci_callerName c;
     ci_extension := ci_extension c; ci_direction := ci_direction c;
     ci_startTime := ci_startTime c; ci_duration := d;
     ci_queueName := ci_queueName c; ci_queueId := ci_queueId c |}.

(** [currentCall] of an agent. *)
Record CurrentCall : Type := {
  cc_status : string;
  cc_phoneNumber : string;
  cc_callerName : option string;
  cc_direction : string;
  cc_duration : Z;
  cc_queueName : option string;
  cc_queueId : option string
}.

Record Agent : Type := {
  ag_id : option string;
  ag_name : string;
  ag_email : string;
  ag_status : string;
  ag_statusReason : string;
  ag_extension : JS.value;
  ag_department : string;
  ag_departmentId : string;
  ag_departments : list string;
  ag_currentCall : option CurrentCall;
  ag_lastStatusChange : timestamp;
  ag_deviceState : string;
  ag_channelState : string
}.

Record Queue : Type := {
  qu_id : option string;
  qu_name : string;
  qu_extension : JS.value;
  qu_waitingCalls : Z;
  qu_longestWait : Z;
  qu_longestWaitTime : option Z;
  qu_averageWait : Z;
  qu_avgWaitTime : option Z;
  qu_totalCalls : Z;
  qu_answeredCalls : Z;
  qu_callsAnswered : option Z;
  qu_abandonedCalls : Z;
  qu_callsAbandoned : option Z;
  qu_serviceLevel : Q;
  qu_agents : Z;
  qu_agentsAvailable : Z;
  qu_agentsOnCall : Z;
  qu_agentsBusy : option Z;
  qu_agentsPaused : option Z;
  qu_status : string;
  qu_strategy : string;
  qu_timeout : Z;
  qu_retry : Z;
  qu_wrapuptime : option Z
}.

Definition set_agent_counts (q : Queue) (a av oc : Z) : Queue :=
  {| qu_id := qu_id q; qu_name := qu_name q; qu_extension := qu_extension q;
     qu_waitingCalls := qu_waitingCalls q; qu_longestWait := qu_longestWait q;
     qu_longestWaitTime := qu_longestWaitTime q;
     qu_averageWait := qu_averageWait q; qu_avgWaitTime := qu_avgWaitTime q;
     qu_totalCalls := qu_totalCalls q; qu_answeredCalls := qu_answeredCalls q;
     qu_callsAnswered := qu_callsAnswered q;
     qu_abandonedCalls := qu_abandonedCalls q;
     qu_callsAbandoned := qu_callsAbandoned q;
     qu_serviceLevel := qu_serviceLevel q;
     qu_agents := a; qu_agentsAvailable := av; qu_agentsOnCall := oc;
     qu_agentsBusy := qu_agentsBusy q; qu_agentsPaused := qu_agentsPaused q;
     qu_status := qu_status q; qu_strategy := qu_strategy q;
     qu_timeout := qu_timeout q; qu_retry := qu_retry q;
     qu_wrapuptime := qu_wrapuptime q |}.

(** An entry of the call list sent on [dashboard:calls]. *)
Record Call : Type := {
  ca_id : option string;
  ca_uniqueid : option string;
  ca_channel : option string;
  ca_direction : string;
  ca_from : string;
  ca_fromName : option string;
  ca_to : string;
  ca_toName : option string;
  ca_agentId : option string;
  ca_agentName : string;
  ca_agentExtension : JS.value;
  ca_duration : Z;
  ca_state : string;
  ca_status : option string;
  ca_startTime : timestamp;
  ca_queueName : string;
  ca_queueId : string;
  ca_bridgedChannel : option string;
  ca_context : string;
  ca_priority : string;
  ca_application : option string
}.

Record AgentCounts : Type := {
  st_total : Z;
  st_available : Z;
  st_busy : Z;
  st_offline : Z;
  st_away : Z;
  st_paused : Z
}.

Record CallCounts : Type := {
  st_active : Z;
  st_waiting : Z;
  st_answered : Z;
  st_abandoned : Z
}.

Record QueueTotals : Type := {
  st_queues : Z;
  st_averageWaitTime : JS.number;
  st_longestWaitTime : Z
}.

Record Stats : Type := {
  stats_agents : AgentCounts;
  stats_calls : CallCounts;
  stats_queues : QueueTotals;
  stats_timestamp : Z
}.

Record Alert : Type := {
  al_type : string;
  al_title : string;
  al_message : string;
  al_queueId : option string;
  al_timestamp : Z
}.

(** *** Connector payloads (every field optional) *)

Record CurrentCallDTO : Type := {
  ccd_phoneNumber : option string;
  ccd_callerName : option string;
  ccd_direction : option string;
  ccd_duration : option Z;
  ccd_queueName : option string;
  ccd_queueId : option string
}.

Record AgentDTO : Type := {
  ad_id : JS.value;
  ad_name : option string;
  ad_email : option string;
  ad_status : option string;
  ad_statusReason : option string;
  ad_extension : JS.value;
  ad_department : option string;
  ad_departmentId : option string;
  ad_departments : option (list string);
  ad_currentCall : option CurrentCallDTO;
  ad_lastStatusChange : option string;
  ad_deviceState : option string;
  ad_channelState : option string
}.

Record QueueDTO : Type := {
  qd_id : option string;
  qd_name : option string;
  qd_extension : JS.value;
  qd_waitingCalls : option Z;
  qd_longestWait : option Z;
  qd_averageWait : option Z;
  qd_totalCalls : option Z;
  qd_answeredCalls : option Z;
  qd_abandonedCalls : option Z;
  qd_serviceLevel : option Q;
  qd_totalAgents : option Z;
  qd_agentsAvailable : option Z;
  qd_agentsOnCall : option Z;
  qd_agentsBusy : option Z;
  qd_agentsPaused : option Z;
  qd_status : option string;
  qd_strategy : option string;
  qd_timeout : option Z;
  qd_retry : option Z;
  qd_wrapuptime : option Z
}.

Record CallDTO : Type := {
  cl_id : option string;
  cl_uniqueid : option string;
  cl_channel : option string;
  cl_direction : option string;
  cl_callerid : option string;
  cl_from : option string;
  cl_callerName : option string;
  cl_destination : option string;
  cl_to : option string;
  cl_agentId : option string;
  cl_extension : JS.value;
  cl_agentName : option string;
  cl_duration : option Z;
  cl_state : option string;
  cl_status : option string;
  cl_startTime : option string;
  cl_queueName : option string;
  cl_queueId : option string;
  cl_bridgedChannel : option string;
  cl_context : option string;
  cl_priority : option string;
  cl_application : option string
}.

(** Result of [await this.client.get(path)]: the request is rejected
    (network failure, time-out, non-2xx status) or resolves with a
    response whose [data] may be missing. *)
Inductive reply (A : Type) : Type :=
| Rejected
| Resolved (data : option (list A)).
Arguments Rejected {A}.
Arguments Resolved {A} data.

(** Payload of an [agent.status] event. *)
Record AgentStatusData : Type := {
  as_extension : option string;
  as_status : option string
}.

(** Body of a [POST /api/connector/event] request: [type] and [data]. *)
Inductive ConnectorRequest : Type :=
| ReqCallStarted (data : option CallData)
| ReqCallEnded (data : option CallData)
| ReqAgentStatus (data : option AgentStatusData)
| ReqOther (type : option string).

(** What [io.emit(channel, payload)] sends. *)
Inductive Event : Type :=
| ConnectorEvent (e : ConnectorRequest)
| CallStarted (c : CallInfo)
| CallEnded (c : CallInfo) (endTime : Z) (disposition : string)
| AgentStatus (d : AgentStatusData)
| AgentUpdated (a : Agent)
| DashboardAgents (l : list Agent)
| DashboardQueues (l : list Queue)
| DashboardCalls (l : list Call)
| DashboardStats (s : Stats)
| DashboardAlerts (l : list Alert)
| DashboardError (message : string) (error : string) (time : Z).

(** ** The running system *)

(** The outside world of one run: the successive results of
    [Math.random()] and the successive answers of the connector on each
    of its three listings. *)
Record World : Type := {
  random : nat -> Q;
  agentsApi : nat -> reply AgentDTO;
  queuesApi : nat -> reply QueueDTO;
  callsApi : nat -> reply CallDTO
}.

(** The contract of [Math.random()]: every draw lies in [0, 1). *)
Definition random_ok (w : World) : Prop :=
  forall i, (0 <= random w i)%Q /\ (random w i < 1)%Q.

(** The mutable state: the fields of the [WebSocketHandler] and
    [FreePBXService] instances that [server/index.js] wires together, the
    log of what [io.emit] has sent (oldest first), and how far the world
    has been consumed. *)
Record Sys : Type := {
  activeCallsMap : list (string * CallInfo);
  pollingInterval : bool;
  lastAlertCheck : Z;
  connectorUrl : string;
  useMockData : bool;
  wsHandler : bool;
  emitted : list Event;
  rpos : nat;
  apos : nat;
  qpos : nat;
  cpos : nat
}.

Definition with_activeCallsMap (m : list (string * CallInfo)) (s : Sys) : Sys :=
  {| activeCallsMap := m; pollingInterval := pollingInterval s;
     lastAlertCheck := lastAlertCheck s; connectorUrl := connectorUrl s;
     useMockData := useMockData s; wsHandler := wsHandler s;
     emitted := emitted s; rpos := rpos s; apos := apos s; qpos := qpos s;
     cpos := cpos s |}.

Definition with_pollingInterval (b : bool) (s : Sys) : Sys :=
  {| activeCallsMap := activeCallsMap s; pollingInterval := b;
     lastAlertCheck := lastAlertCheck s; connectorUrl := connectorUrl s;
     useMockData := useMockData s; wsHandler := wsHandler s;
     emitted := emitted s; rpos := rpos s; apos := apos s; qpos := qpos s;
     cpos := cpos s |}.

Definition with_lastAlertCheck (t : Z) (s : Sys) : Sys :=
  {| activeCallsMap := activeCallsMap s; pollingInterval := pollingInterval s;
     lastAlertCheck := t; connectorUrl := connectorUrl s;
     useMockData := useMockData s; wsHandler := wsHandler s;
     emitted := emitted s; rpos := rpos s; apos := apos s; qpos := qpos s;
     cpos := cpos s |}.

Definition with_emitted (l : list Event) (s : Sys) : Sys :=
  {| activeCallsMap := activeCallsMap s; pollingInterval := pollingInterval s;
     lastAlertCheck := lastAlertCheck s; connectorUrl := connectorUrl s;
     useMockData := useMockData s; wsHandler := wsHandler s;
     emitted := l; rpos := rpos s; apos := apos s; qpos := qpos s;
     cpos := cpos s |}.

Definition with_cursors (r a q c : nat) (s : Sys) : Sys :=
  {| activeCallsMap := activeCallsMap s; pollingInterval := pollingInterval s;
     lastAlertCheck := lastAlertCheck s; connectorUrl := connectorUrl s;
     useMockData := useMockData s; wsHandler := wsHandler s;
     emitted := emitted s; rpos := r; apos := a; qpos := q; cpos := c |}.

(** One more draw taken; one more request sent to a listing. *)
Definition drawn (s : Sys) : Sys :=
  with_cursors (S (rpos s)) (apos s) (qpos s) (cpos s) s.

Definition askedAgents (s : Sys) : Sys :=
  with_cursors (rpos s) (S (apos s)) (qpos s) (cpos s) s.

Definition askedQueues (s : Sys) : Sys :=
  with_cursors (rpos s) (apos s) (S (qpos s)) (cpos s) s.

Definition askedCalls (s : Sys) : Sys :=
  with_cursors (rpos s) (apos s) (qpos s) (S (cpos s)) s.

(** *** Computations: state plus exceptions *)

Inductive outcome (A : Type) : Type :=
| Returned (a : A)
| Thrown (msg : string).
Arguments Returned {A} a.
Arguments Thrown {A} msg.

Definition M (A : Type) : Type := Sys -> outcome A * Sys.

Definition ret {A} (a : A) : M A := fun s => (Returned a, s).

Definition bind {A B} (c : M A) (k : A -> M B) : M B :=
  fun s =>
    match c s with
    | (Returned a, s') => k a s'
    | (Thrown e, s') => (Thrown e, s')
    end.

Definition throw {A} (msg : string) : M A := fun s => (Thrown msg, s).

(** [try { c } catch (error) { h error.message }] *)
Definition try_catch {A} (c : M A) (h : string -> M A) : M A :=
  fun s =>
    match c s with
    | (Returned a, s') => (Returned a, s')
    | (Thrown e, s') => h e s'
    end.

Definition get : M Sys := fun s => (Returned s, s).
Definition modify (f : Sys -> Sys) : M unit := fun s => (Returned tt, f s).

Notation "x <- c ;; k" := (bind c (fun x => k))
  (at level 100, c at next level, right associativity).
Notation "c ;;; k" := (bind c (fun _ => k))
  (at level 100, right associativity).

Fixpoint mapM {A B} (f : A -> M B) (l : list A) : M (list B) :=
  match l with
  | [] => ret []
  | x :: r => y <- f x ;; ys <- mapM f r ;; ret (y :: ys)
  end.

(** [arr.map((x, i) => ...)] with effects, [i] counted from [i0]. *)
Fixpoint mapM_i {A B} (f : Z -> A -> M B) (i0 : Z) (l : list A) : M (list B) :=
  match l with
  | [] => ret []
  | x :: r => y <- f i0 x ;; ys <- mapM_i f (i0 + 1) r ;; ret (y :: ys)
  end.

(** [this.io.emit(...)] *)
Definition emit (e : Event) : M unit :=
  modify (fun s => with_emitted (emitted s ++ [e]) s).

(** ** The registry: a JavaScript [Map] from call id to [callInfo] *)

Module Registry.

Definition t : Type := list (string * CallInfo).

(** [map.set(k, v)]: an existing key keeps its place. *)
Fixpoint set (k : string) (v : CallInfo) (m : t) : t :=
  match m with
  | [] => [(k, v)]
  | (k', v') :: r =>
      if String.eqb k' k then (k, v) :: r else (k', v') :: set k v r
  end.

(** [map.delete(k)] *)
Fixpoint delete (k : string) (m : t) : t :=
  match m with
  | [] => []
  | (k', v') :: r =>
      if String.eqb k' k then r else (k', v') :: delete k r
  end.

(** [map.get(k)] *)
Fixpoint get (k : string) (m : t) : option CallInfo :=
  match m with
  | [] => None
  | (k', v') :: r => if String.eqb k' k then Some v' else get k r
  end.

(** First entry, in iteration order, whose value satisfies [p]. *)
Fixpoint first (p : CallInfo -> bool) (m : t) : option (string * CallInfo) :=
  match m with
  | [] => None
  | (k, c) :: r => if p c then Some (k, c) else first p r
  end.

(** Assignment to a field of the first value that satisfies [p]: the
    object is changed where it sits. *)
Fixpoint update_first (p : CallInfo -> bool) (f : CallInfo -> CallInfo)
    (m : t) : t :=
  match m with
  | [] => []
  | (k, c) :: r =>
      if p c then (k, f c) :: r else (k, c) :: update_first p f r
  end.

(** Assignment to a field of every value. *)
Definition update_all (f : CallInfo -> CallInfo) (m : t) : t :=
  map (fun kc => (fst kc, f (snd kc))) m.

Definition keys (m : t) : list string := map fst m.

(** What the handlers maintain: keys are pairwise distinct, every
    record sits under its own [id], and a record that carries a
    truthy [uniqueid] has it as its [id]. *)
Definition entry_ok (kc : string * CallInfo) : Prop :=
  ci_id (snd kc) = fst kc /\
  (JS.truthy (ci_uniqueid (snd kc)) = true ->
   ci_uniqueid (snd kc) = Some (fst kc)).

Definition ok (m : t) : Prop :=
  List.NoDup (keys m) /\ Forall entry_ok m.

End Registry.

(** ** [FreePBXService] *)

Section Engine.

Variable world : World.

(** [Math.random()] *)
Definition Math_random : M Q :=
  fun s => (Returned (random world (rpos s)), drawn s).

(** [await this.client.get('/api/agents')], giving [response.data];
    a rejected request throws. *)
Definition client_get_agents : M (option (list AgentDTO)) :=
  fun s =>
    let s' := askedAgents s in
    match agentsApi world (apos s) with
    | Rejected => (Thrown "Network Error", s')
    | Resolved d => (Returned d, s')
    end.

Definition client_get_queues : M (option (list QueueDTO)) :=
  fun s =>
    let s' := askedQueues s in
    match queuesApi world (qpos s) with
    | Rejected => (Thrown "Network Error", s')
    | Resolved d => (Returned d, s')
    end.

Definition client_get_calls : M (option (list CallDTO)) :=
  fun s =>
    let s' := askedCalls s in
    match callsApi world (cpos s) with
    | Rejected => (Thrown "Network Error", s')
    | Resolved d => (Returned d, s')
    end.

(** *** Synthetic data *)

Definition statuses : list string :=
  ["available"; "busy"; "away"; "offline"].

Definition departments : list string :=
  ["Sales Queue"; "Support Queue"; "Technical Queue"; "General Queue"].

Definition names : list string :=
  ["John Smith"; "Sarah Johnson"; "Mike Davis"; "Emily Brown";
   "David Wilson"; "Lisa Anderson"; "Tom Martinez"; "Jessica Taylor";
   "Chris Garcia"; "Amanda White"; "Kevin Jones"; "Rachel Green"].

(** [`+1555${Math.floor(Math.random() * 9000000 + 1000000)}`] *)
Definition mockPhone (r : Q) : string :=
  "+1555" +:+ JS.show_num (Qfloor (r * 9000000 + 1000000)).

(** The body of the [names.map((name, i) => ...)] of [getMockAgents]. *)
Definition mockAgent (now : Z) (i : Z) (name : string) : M Agent :=
  let extension := JS.show_num (1000 + i) in
  r <- Math_random ;;
  let status := JS.pick statuses r in
  let department := nth (Z.to_nat (i mod 4)) departments "" in
  currentCall <-
    (if String.eqb status "busy" then
       r0 <- Math_random ;;
       if JS.gt r0 (7 # 10) then
         r1 <- Math_random ;;
         r2 <- Math_random ;;
         r3 <- Math_random ;;
         r4 <- Math_random ;;
         ret (Some {| cc_status := "active";
                      cc_phoneNumber := mockPhone r1;
                      cc_callerName :=
                        Some (JS.pick ["Acme Corp"; "Tech Solutions";
                                       "Global Inc"; "Smith & Associates"] r2);
                      cc_direction :=
                        if JS.gt r3 (1 # 2) then "inbound" else "outbound";
                      cc_duration := JS.floor_scaled r4 600;
                      cc_queueName := Some department;
                      cc_queueId :=
                        Some ("queue_" +:+ JS.show_num (i mod 4 + 1)) |})
       else ret None
     else ret None) ;;
  r5 <- Math_random ;;
  ret {| ag_id := Some ("agent_" +:+ JS.show_num (i + 1));
         ag_name := name;
         ag_email :=
           JS.replace_first " " "." (JS.toLowerCase name) +:+ "@company.com";
         ag_status := status;
         ag_statusReason := if String.eqb status "away" then "Break" else "";
         ag_extension := Some extension;
         ag_department := department;
         ag_departmentId := "queue_" +:+ JS.show_num (i mod 4 + 1);
         ag_departments := ["queue_" +:+ JS.show_num (i mod 4 + 1)];
         ag_currentCall := currentCall;
         ag_lastStatusChange :=
           ISO (JS.trunc (inject_Z now - r5 * 3600000));
         ag_deviceState := "NOT_INUSE";
         ag_channelState := "Available" |}.

Definition getMockAgents (now : Z) : M (list Agent) :=
  mapM_i (mockAgent now) 0 names.

(** One element of the array literal of [getMockQueues]; the three
    draws are taken in the order of the fields. *)
Definition mockQueue (id name extension : string)
    (waitingBound longestBound averageBound : Z)
    (totalCalls answeredCalls abandonedCalls : Z) (serviceLevel : Q)
    (agents agentsAvailable agentsOnCall : Z) (strategy : string)
    (timeout retry : Z) : M Queue :=
  r1 <- Math_random ;;
  r2 <- Math_random ;;
  r3 <- Math_random ;;
  ret {| qu_id := Some id; qu_name := name; qu_extension := Some extension;
         qu_waitingCalls := JS.floor_scaled r1 waitingBound;
         qu_longestWait := JS.floor_scaled r2 longestBound;
         qu_longestWaitTime := None;
         qu_averageWait := JS.floor_scaled r3 averageBound;
         qu_avgWaitTime := None;
         qu_totalCalls := totalCalls;
         qu_answeredCalls := answeredCalls;
         qu_callsAnswered := None;
         qu_abandonedCalls := abandonedCalls;
         qu_callsAbandoned := None;
         qu_serviceLevel := serviceLevel;
         qu_agents := agents;
         qu_agentsAvailable := agentsAvailable;
         qu_agentsOnCall := agentsOnCall;
         qu_agentsBusy := None; qu_agentsPaused := None;
         qu_status := "open"; qu_strategy := strategy;
         qu_timeout := timeout; qu_retry := retry;
         qu_wrapuptime := None |}.

Definition getMockQueues : M (list Queue) :=
  q1 <- mockQueue "queue_1" "Sales Queue" "7001" 5 300 120
          150 142 8 (947 # 10) 8 5 3 "rrmemory" 15 5 ;;
  q2 <- mockQueue "queue_2" "Support Queue" "7002" 8 400 90
          230 220 10 (957 # 10) 12 7 5 "linear" 20 3 ;;
  q3 <- mockQueue "queue_3" "Technical Queue" "7003" 3 200 60
          85 82 3 (965 # 10) 6 4 2 "ringall" 30 2 ;;
  q4 <- mockQueue "queue_4" "General Queue" "7000" 10 600 180
          320 305 15 (953 # 10) 15 8 7 "rrmemory" 25 4 ;;
  ret [q1; q2; q3; q4].

Definition directions : list string := ["inbound"; "outbound"; "internal"].

Definition callerNames : list string :=
  ["Acme Corporation"; "Tech Solutions Inc"; "Global Enterprises";
   "Smith & Associates"; "Johnson LLC"; "Anderson Partners";
   "Wilson Industries"; "Davis Group"; "Brown Holdings"].

(** The [queues] array local to [getMockCalls]: (id, name). *)
Definition mockCallQueues : list (string * string) :=
  [("queue_1", "Sales Queue"); ("queue_2", "Support Queue");
   ("queue_3", "Technical Queue"); ("queue_4", "General Queue")].

(** The body of the [for] loop of [getMockCalls]; for draws in [0, 1)
    the index into [queues] is inside the array. *)
Definition mockCall (now : Z) (i : Z) : M Call :=
  r1 <- Math_random ;;
  let direction := JS.pick directions r1 in
  r2 <- Math_random ;;
  let queue := nth (Z.to_nat (JS.floor_scaled r2 4)) mockCallQueues ("", "") in
  r3 <- Math_random ;;
  let agentExt := 1000 + JS.floor_scaled r3 12 in
  let suffix := "-0000" +:+ JS.padStart 4 "0" (JS.show_num i) in
  from <- (if String.eqb direction "outbound" then ret (JS.show_num agentExt)
           else r <- Math_random ;; ret (mockPhone r)) ;;
  fromName <- (if String.eqb direction "inbound"
               then r <- Math_random ;; ret (Some (JS.pick callerNames r))
               else ret None) ;;
  to <- (if String.eqb direction "inbound" then ret (JS.show_num agentExt)
         else r <- Math_random ;; ret (mockPhone r)) ;;
  toName <- (if String.eqb direction "outbound"
             then r <- Math_random ;; ret (Some (JS.pick callerNames r))
             else ret None) ;;
  r4 <- Math_random ;;
  r5 <- Math_random ;;
  r6 <- Math_random ;;
  let internal := String.eqb direction "internal" in
  ret {| ca_id := Some ("call_" +:+ JS.show_num now +:+ "_" +:+ JS.show_num i);
         ca_uniqueid := Some (JS.show_num now +:+ "." +:+ JS.show_num i);
         ca_channel := Some ("SIP/" +:+ JS.show_num agentExt +:+ suffix);
         ca_direction := direction;
         ca_from := from;
         ca_fromName := fromName;
         ca_to := to;
         ca_toName := toName;
         ca_agentId := Some ("agent_" +:+ JS.show_num (agentExt - 999));
         ca_agentName :=
           JS.pick ["John Smith"; "Sarah Johnson"; "Mike Davis";
                    "Emily Brown"] r4;
         ca_agentExtension := Some (JS.show_num agentExt);
         ca_duration := JS.floor_scaled r5 600;
         ca_state := "active";
         ca_status := None;
         ca_startTime := ISO (JS.trunc (inject_Z now - r6 * 600000));
         ca_queueName := if internal then "Direct Call" else snd queue;
         ca_queueId := if internal then "direct" else fst queue;
         ca_bridgedChannel :=
           if internal then None
           else Some ("Queue/" +:+ JS.replace "queue_" "700" (fst queue)
                      +:+ suffix);
         ca_context := "from-internal";
         ca_priority := "1";
         ca_application := Some (if internal then "Dial" else "Queue") |}.

(** [for (let i = ...; i < activeCount; i++) calls.push(...)], with
    [n] iterations left. *)
Fixpoint mockCalls_loop (now : Z) (n : nat) (i : Z) : M (list Call) :=
  match n with
  | O => ret []
  | S k =>
      c <- mockCall now i ;;
      cs <- mockCalls_loop now k (i + 1) ;;
      ret (c :: cs)
  end.

Definition getMockCalls (now : Z) : M (list Call) :=
  r <- Math_random ;;
  let activeCount := JS.floor_scaled r 8 + 2 in
  mockCalls_loop now (Z.to_nat activeCount) 0.

(** *** Lookup of a tracked call on behalf of [getAgents]
    ([WebSocketHandler.getActiveCallForUser]) *)

Definition elapsed (now : Z) (c : CallInfo) : Z :=
  JS.floor_div (now - ci_startTime c) 1000.

Definition refresh (now : Z) (c : CallInfo) : CallInfo :=
  set_duration c (elapsed now c).

Definition matches_user (userId : JS.value) (c : CallInfo) : bool :=
  JS.seq (ci_extension c) userId || JS.seq (Some (ci_id c)) userId.

Definition getActiveCallForUser (now : Z) (userId : JS.value)
  : M (option CallInfo) :=
  fun s =>
    match Registry.first (matches_user userId) (activeCallsMap s) with
    | Some (_, call) =>
        (Returned (Some (refresh now call)),
         with_activeCallsMap
           (Registry.update_first (matches_user userId) (refresh now)
              (activeCallsMap s)) s)
    | None => (Returned None, s)
    end.

(** *** Fetching and normalising *)

Definition mapAsteriskStatusToStandard (status : option string) : string :=
  if negb (JS.truthy status) then "offline"
  else
    let statusLower := JS.toLowerCase (JS.show status) in
    if existsb (String.eqb statusLower)
         ["not_inuse"; "available"; "idle"; "free"] then "available"
    else if existsb (String.eqb statusLower)
         ["inuse"; "busy"; "ringing"; "ringinuse"] then "busy"
    else if existsb (String.eqb statusLower)
         ["unavailable"; "paused"; "dnd"] then "away"
    else if existsb (String.eqb statusLower)
         ["unknown"; "invalid"; "unreachable"] then "offline"
    else "offline".

(** The body of the [agents.map((agent) => ...)] of [getAgents]. *)
Definition mapAgent (now : Z) (agent : AgentDTO) : M Agent :=
  s <- get ;;
  currentCall <-
    (if wsHandler s && JS.seq (ad_status agent) (Some "busy")
        && bool_decide (is_Some (ad_currentCall agent))
     then
       callDetails <- getActiveCallForUser now (ad_id agent) ;;
       match callDetails, ad_currentCall agent with
       | Some cd, _ =>
           ret (Some {| cc_status := "active";
                        cc_phoneNumber := ci_phoneNumber cd;
                        cc_callerName := ci_callerName cd;
                        cc_direction := ci_direction cd;
                        cc_duration := ci_duration cd;
                        cc_queueName :=
                          JS.or_opt (Some (ci_queueName cd))
                            (ad_department agent);
                        cc_queueId :=
                          JS.or_opt (Some (ci_queueId cd))
                            (ad_departmentId agent) |})
       | None, Some cc =>
           ret (Some {| cc_status := "active";
                        cc_phoneNumber := JS.or_str (ccd_phoneNumber cc) "Unknown";
                        cc_callerName := JS.or_null (ccd_callerName cc);
                        cc_direction := JS.or_str (ccd_direction cc) "unknown";
                        cc_duration := JS.or_num (ccd_duration cc) 0;
                        cc_queueName :=
                          JS.or_opt (ccd_queueName cc) (ad_department agent);
                        cc_queueId :=
                          JS.or_opt (ccd_queueId cc) (ad_departmentId agent) |})
       | None, None => ret None
       end
     else ret None) ;;
  ret {| ag_id := JS.or_opt (ad_id agent) (ad_extension agent);
         ag_name :=
           JS.or_str (ad_name agent)
             ("Extension " +:+ JS.show (ad_extension agent));
         ag_email :=
           JS.or_str (ad_email agent)
             (JS.show (ad_extension agent) +:+ "@pbx.local");
         ag_status := mapAsteriskStatusToStandard (ad_status agent);
         ag_statusReason := JS.or_str (ad_statusReason agent) "";
         ag_extension := ad_extension agent;
         ag_department := JS.or_str (ad_department agent) "Default";
         ag_departmentId := JS.or_str (ad_departmentId agent) "default";
         ag_departments :=
           match ad_departments agent with
           | Some l => l
           | None => [JS.or_str (ad_departmentId agent) "default"]
           end;
         ag_currentCall := currentCall;
         ag_lastStatusChange :=
           if JS.truthy (ad_lastStatusChange agent)
           then Raw (JS.show (ad_lastStatusChange agent))
           else ISO now;
         ag_deviceState := JS.or_str (ad_deviceState agent) "UNKNOWN";
         ag_channelState := JS.or_str (ad_channelState agent) "Available" |}.

Definition getAgents (now : Z) : M (list Agent) :=
  s <- get ;;
  if useMockData s then getMockAgents now
  else
    try_catch
      (data <- client_get_agents ;;
       let agents := default [] data in
       if Nat.eqb (length agents) 0 then getMockAgents now
       else mapM (mapAgent now) agents)
      (fun _ => getMockAgents now).

(** The body of the [queues.map((queue) => ...)] of [getQueues]. *)
Definition mapQueue (queue : QueueDTO) : Queue :=
  {| qu_id := JS.or_opt (qd_id queue) (qd_extension queue);
     qu_name :=
       JS.or_str (qd_name queue) ("Queue " +:+ JS.show (qd_extension queue));
     qu_extension := qd_extension queue;
     qu_waitingCalls := JS.or_num (qd_waitingCalls queue) 0;
     qu_longestWait := JS.or_num (qd_longestWait queue) 0;
     qu_longestWaitTime := Some (JS.or_num (qd_longestWait queue) 0);
     qu_averageWait := JS.or_num (qd_averageWait queue) 0;
     qu_avgWaitTime := Some (JS.or_num (qd_averageWait queue) 0);
     qu_totalCalls := JS.or_num (qd_totalCalls queue) 0;
     qu_answeredCalls := JS.or_num (qd_answeredCalls queue) 0;
     qu_callsAnswered := Some (JS.or_num (qd_answeredCalls queue) 0);
     qu_abandonedCalls := JS.or_num (qd_abandonedCalls queue) 0;
     qu_callsAbandoned := Some (JS.or_num (qd_abandonedCalls queue) 0);
     qu_serviceLevel := JS.or_frac (qd_serviceLevel queue) 0;
     qu_agents := JS.or_num (qd_totalAgents queue) 0;
     qu_agentsAvailable := JS.or_num (qd_agentsAvailable queue) 0;
     qu_agentsOnCall := JS.or_num (qd_agentsOnCall queue) 0;
     qu_agentsBusy := Some (JS.or_num (qd_agentsBusy queue) 0);
     qu_agentsPaused := Some (JS.or_num (qd_agentsPaused queue) 0);
     qu_status := JS.or_str (qd_status queue) "open";
     qu_strategy := JS.or_str (qd_strategy queue) "ringall";
     qu_timeout := JS.or_num (qd_timeout queue) 15;
     qu_retry := JS.or_num (qd_retry queue) 5;
     qu_wrapuptime := Some (JS.or_num (qd_wrapuptime queue) 0) |}.

Definition getQueues : M (list Queue) :=
  s <- get ;;
  if useMockData s then getMockQueues
  else
    try_catch
      (data <- client_get_queues ;;
       let queues := default [] data in
       if Nat.eqb (length queues) 0 then getMockQueues
       else ret (map mapQueue queues))
      (fun _ => getMockQueues).

(** The body of the [calls.map((call) => ...)] of [getActiveCalls]. *)
Definition mapCall (now : Z) (call : CallDTO) : Call :=
  {| ca_id := JS.or_opt (cl_id call) (cl_uniqueid call);
     ca_uniqueid := cl_uniqueid call;
     ca_channel := cl_channel call;
     ca_direction := JS.or_str (cl_direction call) "unknown";
     ca_from := JS.or_str (JS.or_opt (cl_callerid call) (cl_from call)) "Unknown";
     ca_fromName := JS.or_null (cl_callerName call);
     ca_to := JS.or_str (JS.or_opt (cl_destination call) (cl_to call)) "Unknown";
     ca_toName := None;
     ca_agentId := JS.or_opt (cl_agentId call) (cl_extension call);
     ca_agentName :=
       JS.or_str (cl_agentName call)
         ("Extension " +:+ JS.show (cl_extension call));
     ca_agentExtension := cl_extension call;
     ca_duration := JS.or_num (cl_duration call) 0;
     ca_state := JS.or_str (cl_state call) "active";
     ca_status := Some (JS.or_str (cl_status call) "active");
     ca_startTime :=
       if JS.truthy (cl_startTime call)
       then Raw (JS.show (cl_startTime call))
       else ISO now;
     ca_queueName := JS.or_str (cl_queueName call) "Direct Call";
     ca_queueId := JS.or_str (cl_queueId call) "direct";
     ca_bridgedChannel := JS.or_null (cl_bridgedChannel call);
     ca_context := JS.or_str (cl_context call) "default";
     ca_priority := JS.or_str (cl_priority call) "1";
     ca_application := JS.or_null (cl_application call) |}.

Definition getActiveCalls (now : Z) : M (list Call) :=
  s <- get ;;
  if useMockData s then getMockCalls now
  else
    try_catch
      (data <- client_get_calls ;;
       let calls := default [] data in
       ret (map (mapCall now) calls))
      (fun _ => getMockCalls now).

(** *** Aggregated statistics *)

(** The predicate of [agents.filter(agent => ...)]: membership of an
    agent in a queue. *)
Definition inQueue (queue : Queue) (agent : Agent) : bool :=
  match qu_id queue with
  | Some i => existsb (String.eqb i) (ag_departments agent)
  | None => false
  end
  || JS.seq (Some (ag_departmentId agent)) (qu_id queue)
  || String.eqb (ag_department agent) (qu_name queue).

Definition count {A} (p : A -> bool) (l : list A) : Z :=
  Z.of_nat (length (List.filter p l)).

Definition isAvailable (a : Agent) : bool := String.eqb (ag_status a) "available".

Definition hasCurrentCall (a : Agent) : bool :=
  match ag_currentCall a with Some _ => true | None => false end.

(** The body of [queues.forEach(queue => ...)]: the three assignments
    to the fields of [queue]. *)
Definition recountQueue (agents : list Agent) (queue : Queue) : Queue :=
  let queueAgents := List.filter (inQueue queue) agents in
  set_agent_counts queue
    (if qu_agents queue =? 0
     then Z.of_nat (length queueAgents) else qu_agents queue)
    (if qu_agentsAvailable queue =? 0
     then count isAvailable queueAgents else qu_agentsAvailable queue)
    (if qu_agentsOnCall queue =? 0
     then count hasCurrentCall queueAgents else qu_agentsOnCall queue).

(** [agents.reduce((acc, agent) => { acc[agent.status] = ... }, {})] *)
Definition agentStatuses (agents : list Agent) : gmap string Z :=
  fold_left
    (fun acc agent =>
       <[ag_status agent := JS.or_num (acc !! ag_status agent) 0 + 1]> acc)
    agents ∅.

Definition sumOf (f : Queue -> Z) (queues : list Queue) : Z :=
  fold_left (fun sum q => sum + f q) queues 0.

(** The object returned by [getCallCenterStats], from the three
    listings it has fetched. *)
Definition statsOf (now : Z) (agents : list Agent) (queues : list Queue)
    (calls : list Call) : Stats :=
  let byStatus := agentStatuses agents in
  let totalWaiting := sumOf qu_waitingCalls queues in
  let totalAnswered := sumOf qu_answeredCalls queues in
  let totalAbandoned := sumOf qu_abandonedCalls queues in
  {| stats_agents :=
       {| st_total := Z.of_nat (length agents);
          st_available := JS.or_num (byStatus !! "available") 0;
          st_busy := JS.or_num (byStatus !! "busy") 0;
          st_offline := JS.or_num (byStatus !! "offline") 0;
          st_away := JS.or_num (byStatus !! "away") 0;
          st_paused := JS.or_num (byStatus !! "paused") 0 |};
     stats_calls :=
       {| st_active := Z.of_nat (length calls);
          st_waiting := totalWaiting;
          st_answered := totalAnswered;
          st_abandoned := totalAbandoned |};
     stats_queues :=
       {| st_queues := Z.of_nat (length queues);
          st_averageWaitTime :=
            JS.div (sumOf qu_averageWait queues)
              (JS.or_num (Some (Z.of_nat (length queues))) 1);
          st_longestWaitTime :=
            JS.max_with_zero (map qu_longestWait queues) |};
     stats_timestamp := now |}.

(** [getCallCenterStats]: its own three fetches, the recount on its own
    [queues] array, then the summary.  The [catch] block rethrows; on the
    answers that the model covers nothing inside the [try] throws. *)
Definition getCallCenterStats (now : Z) : M Stats :=
  agents <- getAgents now ;;
  queues <- getQueues ;;
  calls <- getActiveCalls now ;;
  let queues := map (recountQueue agents) queues in
  ret (statsOf now agents queues calls).

(** *** Routes of [server/index.js] that answer with a listing *)

(** [GET /api/queues]: what [res.json] is given. *)
Definition apiQueues (now : Z) : M (list Queue) :=
  agents <- getAgents now ;;
  queues <- getQueues ;;
  ret (map (recountQueue agents) queues).

(** ** [WebSocketHandler] *)

(** [broadcastCallUpdate(extension)]; the [catch] block only logs. *)
Definition broadcastCallUpdate (now : Z) (extension : JS.value) : M unit :=
  try_catch
    (agents <- getAgents now ;;
     match List.find (fun a => JS.seq (ag_extension a) extension) agents with
     | Some agent => emit (AgentUpdated agent)
     | None => ret tt
     end)
    (fun _ => ret tt).

(** The object [callInfo] that [handleCallStarted] builds. *)
Definition callInfoOf (now : Z) (callData : CallData) : CallInfo :=
  {| ci_id :=
       JS.or_str (cd_uniqueid callData) ("call_" +:+ JS.show_num now);
     ci_uniqueid := cd_uniqueid callData;
     ci_phoneNumber := JS.or_str (cd_callerid callData) "Unknown";
     ci_callerName := JS.or_null (cd_callername callData);
     ci_extension := cd_extension callData;
     ci_direction := JS.or_str (cd_direction callData) "unknown";
     ci_startTime := now;
     ci_duration := 0;
     ci_queueName := JS.or_str (cd_queueName callData) "Direct Call";
     ci_queueId := JS.or_str (cd_queueId callData) "direct" |}.

(** [handleCallStarted(callData)].  Reading a property of a missing
    payload throws a [TypeError]. *)
Definition handleCallStarted (now : Z) (payload : option CallData) : M unit :=
  match payload with
  | None => throw "TypeError"
  | Some callData =>
      let callInfo := callInfoOf now callData in
      modify (fun s =>
        with_activeCallsMap
          (Registry.set (ci_id callInfo) callInfo (activeCallsMap s)) s) ;;;
      emit (CallStarted callInfo) ;;;
      if JS.truthy (cd_extension callData)
      then broadcastCallUpdate now (cd_extension callData)
      else ret tt
  end.

(** The test of the [for ... of this.activeCallsMap.entries()] loop of
    [handleCallEnded]. *)
Definition ends (uniqueid : JS.value) (call : CallInfo) : bool :=
  JS.seq (ci_uniqueid call) uniqueid || JS.seq (Some (ci_id call)) uniqueid.

Definition handleCallEnded (now : Z) (payload : option CallData) : M unit :=
  match payload with
  | None => throw "TypeError"
  | Some callData =>
      s <- get ;;
      match Registry.first (ends (cd_uniqueid callData)) (activeCallsMap s) with
      | Some (callId, call) =>
          modify (with_activeCallsMap
                    (Registry.delete callId (activeCallsMap s))) ;;;
          let removedCall := refresh now call in
          emit (CallEnded removedCall now
                  (JS.or_str (cd_disposition callData) "ANSWERED")) ;;;
          if JS.truthy (ci_extension removedCall)
          then broadcastCallUpdate now (ci_extension removedCall)
          else ret tt
      | None => ret tt
      end
  end.

Definition handleAgentStatus (payload : option AgentStatusData) : M unit :=
  match payload with
  | None => throw "TypeError"
  | Some agentData => emit (AgentStatus agentData)
  end.

(** [updateCallDurations()] *)
Definition updateCallDurations (now : Z) : M unit :=
  modify (fun s =>
    with_activeCallsMap
      (Registry.update_all (refresh now) (activeCallsMap s)) s).

(** *** Alerts *)

(** The body of [queues.forEach(queue => ...)] in
    [checkAndEmitAlerts]: what it pushes for one queue. *)
Definition queueAlerts (now : Z) (queue : Queue) : list Alert :=
  (if qu_longestWait queue >? 300
   then [{| al_type := "warning";
            al_title := "Long Wait Time";
            al_message :=
              "Queue " +:+ JS.dquote +:+ qu_name queue +:+ JS.dquote
              +:+ " has calls waiting "
              +:+ JS.show_num (JS.floor_div (qu_longestWait queue) 60)
              +:+ " minutes";
            al_queueId := qu_id queue;
            al_timestamp := now |}]
   else [])
  ++
  (if qu_waitingCalls queue >? 10
   then [{| al_type := "warning";
            al_title := "High Queue Volume";
            al_message :=
              "Queue " +:+ JS.dquote +:+ qu_name queue +:+ JS.dquote
              +:+ " has " +:+ JS.show_num (qu_waitingCalls queue)
              +:+ " waiting calls";
            al_queueId := qu_id queue;
            al_timestamp := now |}]
   else []).

Definition availabilityAlerts (now : Z) (agents : list Agent) : list Alert :=
  let totalAgents := Z.of_nat (length agents) in
  let availableAgents := count isAvailable agents in
  if (totalAgents >? 0)
     && JS.lt (inject_Z availableAgents) (inject_Z totalAgents * (2 # 10))
  then [{| al_type := "error";
           al_title := "Low Agent Availability";
           al_message :=
             "Only " +:+ JS.show_num availableAgents +:+ " of "
             +:+ JS.show_num totalAgents +:+ " agents are available";
           al_queueId := None;
           al_timestamp := now |}]
  else [].

Definition connectivityAlerts (now : Z) (s : Sys) : list Alert :=
  if negb (JS.truthy (Some (connectorUrl s))) || useMockData s
  then [{| al_type := "error";
           al_title := "Connector Offline";
           al_message :=
             "FreePBX connector is not responding - showing demo data";
           al_queueId := None;
           al_timestamp := now |}]
  else [].

(** The array [alerts] at the end of an evaluation that runs. *)
Definition alertsOf (now : Z) (s : Sys) (queues : list Queue)
    (agents : list Agent) : list Alert :=
  flat_map (queueAlerts now) queues
  ++ availabilityAlerts now agents
  ++ connectivityAlerts now s.

Definition checkAndEmitAlerts (now : Z) (queues : list Queue)
    (agents : list Agent) : M unit :=
  s <- get ;;
  if now - lastAlertCheck s <? 30000 then ret tt
  else
    modify (with_lastAlertCheck now) ;;;
    let alerts := alertsOf now s queues agents in
    if (0 <? length alerts)%nat then emit (DashboardAlerts alerts)
    else ret tt.

(** *** The polling tick *)

Definition broadcastUpdates (now : Z) : M unit :=
  try_catch
    (agents <- getAgents now ;;
     queues <- getQueues ;;
     calls <- getActiveCalls now ;;
     stats <- getCallCenterStats now ;;
     updateCallDurations now ;;;
     emit (DashboardAgents agents) ;;;
     emit (DashboardQueues queues) ;;;
     emit (DashboardCalls calls) ;;;
     emit (DashboardStats stats) ;;;
     checkAndEmitAlerts now queues agents)
    (fun error => emit (DashboardError "Data update failed" error now)).

(** [startPolling()]: arms the timer and broadcasts once at once; each
    later firing of the timer is one more [broadcastUpdates]. *)
Definition startPolling (now : Z) : M unit :=
  s <- get ;;
  if pollingInterval s then ret tt
  else
    modify (with_pollingInterval true) ;;;
    broadcastUpdates now.

Definition stopPolling : M unit :=
  s <- get ;;
  if pollingInterval s then modify (with_pollingInterval false) else ret tt.

(** [POST /api/connector/event]: the status of the response. *)
Definition postConnectorEvent (now : Z) (event : ConnectorRequest) : M Z :=
  try_catch
    (match event with
     | ReqCallStarted data => handleCallStarted now data
     | ReqCallEnded data => handleCallEnded now data
     | ReqAgentStatus data => handleAgentStatus data
     | ReqOther _ => ret tt
     end ;;;
     emit (ConnectorEvent event) ;;;
     ret 200)
    (fun _ => ret 500).

End Engine.

(** The state after the set-up of [server/index.js]: an empty registry,
    the service built from the configured endpoint, the handler built at
    time [now] and linked to the service. *)
Definition initial (now : Z) (endpoint : option string) : Sys :=
  let url := JS.or_str endpoint "http://localhost:8080" in
  {| activeCallsMap := [];
     pollingInterval := false;
     lastAlertCheck := now;
     connectorUrl := url;
     useMockData :=
       negb (JS.truthy (Some url)) || String.eqb url "http://localhost:8080";
     wsHandler := true;
     emitted := [];
     rpos := 0; apos := 0; qpos := 0; cpos := 0 |}.

(** ** Reading the broadcast log *)

Definition callLists (log : list Event) : list (list Call) :=
  flat_map (fun e => match e with DashboardCalls l => [l] | _ => [] end) log.

Definition queueLists (log : list Event) : list (list Queue) :=
  flat_map (fun e => match e with DashboardQueues l => [l] | _ => [] end) log.

Definition alertSets (log : list Event) : list (list Alert) :=
  flat_map (fun e => match e with DashboardAlerts l => [l] | _ => [] end) log.

Definition callsEnded (log : list Event) : list (CallInfo * Z * string) :=
  flat_map (fun e => match e with
                     | CallEnded c t d => [(c, t, d)]
                     | _ => []
                     end) log.

Definition isWarning (a : Alert) : bool := String.eqb (al_type a) "warning".

Definition isHighVolume (a : Alert) : bool :=
  String.eqb (al_title a) "High Queue Volume".

(** Times, along a run of invocations of [checkAndEmitAlerts], of those
    that sent an alert set. *)
Fixpoint alertTimes (invocations : list (Z * list Queue * list Agent))
    (s : Sys) : list Z :=
  match invocations with
  | [] => []
  | (now, queues, agents) :: rest =>
      let s' := snd (checkAndEmitAlerts now queues agents s) in
      (if Nat.ltb (length (alertSets (emitted s)))
                  (length (alertSets (emitted s')))
       then [now] else [])
      ++ alertTimes rest s'
  end.

(** Successive times at least one window apart. *)
Fixpoint spaced (window : Z) (times : list Z) : Prop :=
  match times with
  | t1 :: (t2 :: _) as rest => t1 + window <= t2 /\ spaced window rest
  | _ => True
  end.

(** The part of a synthetic agent that does not come from a draw. *)
Definition agentIdentity (a : Agent)
  : option string * string * string * JS.value * string * string
    * list string * string * string :=
  (ag_id a, ag_name a, ag_email a, ag_extension a, ag_department a,
   ag_departmentId a, ag_departments a, ag_deviceState a, ag_channelState a).

(** The part of a synthetic queue that does not come from a draw. *)
Definition queueIdentity (q : Queue)
  : option string * string * JS.value * (Z * Z * Z) * Q * (Z * Z * Z)
    * string * string * (Z * Z) :=
  (qu_id q, qu_name q, qu_extension q,
   (qu_totalCalls q, qu_answeredCalls q, qu_abandonedCalls q),
   qu_serviceLevel q,
   (qu_agents q, qu_agentsAvailable q, qu_agentsOnCall q),
   qu_status q, qu_strategy q, (qu_timeout q, qu_retry q)).

(** ** What a computation leaves alone *)

(** [touched now m m']: the same entries in the same order, each either
    unchanged or with its duration recomputed at [now]. *)
Definition touched (now : Z) (m m' : Registry.t) : Prop :=
  Forall2 (fun kc kc' => kc' = kc \/ kc' = (fst kc, refresh now (snd kc))) m m'.

(** [frame now s s']: nothing was sent, the configuration and the alert
    clock are the same, and the registry is at most [touched]. *)
Record frame (now : Z) (s s' : Sys) : Prop := {
  fr_emitted : emitted s' = emitted s;
  fr_lastAlertCheck : lastAlertCheck s' = lastAlertCheck s;
  fr_pollingInterval : pollingInterval s' = pollingInterval s;
  fr_connectorUrl : connectorUrl s' = connectorUrl s;
  fr_useMockData : useMockData s' = useMockData s;
  fr_wsHandler : wsHandler s' = wsHandler s;
  fr_registry : touched now (activeCallsMap s) (activeCallsMap s')
}.

(** A computation that may throw but respects the frame. *)
Definition framed (now : Z) {A} (c : M A) : Prop :=
  forall s, frame now s (snd (c s)).

(** A computation that respects the frame and always returns. *)
Definition quiet (now : Z) {A} (c : M A) : Prop :=
  forall s, frame now s (snd (c s)) /\ exists a, fst (c s) = Returned a.

(** ** Sample inputs and the vocabulary of the properties *)

(** A world whose draws are all [0] and whose connector is down. *)
Definition downWorld : World :=
  {| random := fun _ => 0%Q;
     agentsApi := fun _ => Rejected;
     queuesApi := fun _ => Rejected;
     callsApi := fun _ => Rejected |}.

(** A world whose draws run through 0/10, 1/10, ..., 9/10. *)
Definition cyclingWorld : World :=
  {| random := fun i => (Z.of_nat (i mod 10) # 10)%Q;
     agentsApi := fun _ => Rejected;
     queuesApi := fun _ => Rejected;
     callsApi := fun _ => Rejected |}.

(** A call event that carries only the identifier and the extension. *)
Definition callEvent (uniqueid extension : option string) : CallData :=
  {| cd_uniqueid := uniqueid; cd_callerid := None; cd_callername := None;
     cd_extension := extension; cd_direction := None; cd_queueName := None;
     cd_queueId := None; cd_disposition := None |}.

(** A deployment with a real connector endpoint. *)
Definition liveSys : Sys := initial 0 (Some "http://pbx.example:8080").

(** The same with one tracked call, [7], started at time 0. *)
Definition oneCallSys : Sys :=
  with_activeCallsMap [("7", callInfoOf 0 (callEvent (Some "7") None))] liveSys.

(** A queue as the connector lists it, with the given figures. *)
Definition queueDTO (id name : string) (longestWait waitingCalls : Z)
    (totalAgents : option Z) : QueueDTO :=
  {| qd_id := Some id; qd_name := Some name; qd_extension := None;
     qd_waitingCalls := Some waitingCalls; qd_longestWait := Some longestWait;
     qd_averageWait := None; qd_totalCalls := None; qd_answeredCalls := None;
     qd_abandonedCalls := None; qd_serviceLevel := None;
     qd_totalAgents := totalAgents; qd_agentsAvailable := None;
     qd_agentsOnCall := None; qd_agentsBusy := None; qd_agentsPaused := None;
     qd_status := None; qd_strategy := None; qd_timeout := None;
     qd_retry := None; qd_wrapuptime := None |}.

(** The queue [q1] "Sales" after normalisation. *)
Definition salesQueue (longestWait waitingCalls : Z) : Queue :=
  mapQueue (queueDTO "q1" "Sales" longestWait waitingCalls None).

(** A call as the connector lists it: identifier, extension, duration. *)
Definition callDTO (id extension : string) (duration : Z) : CallDTO :=
  {| cl_id := Some id; cl_uniqueid := Some id; cl_channel := None;
     cl_direction := Some "inbound"; cl_callerid := Some "+15550100";
     cl_from := None; cl_callerName := None; cl_destination := None;
     cl_to := None; cl_agentId := None; cl_extension := Some extension;
     cl_agentName := None; cl_duration := Some duration; cl_state := None;
     cl_status := None; cl_startTime := None; cl_queueName := None;
     cl_queueId := Some "q1"; cl_bridgedChannel := None; cl_context := None;
     cl_priority := None; cl_application := None |}.

(** An agent as the connector lists it: extension, status, queue. *)
Definition agentDTO (extension status departmentId : string) : AgentDTO :=
  {| ad_id := Some extension; ad_name := None; ad_email := None;
     ad_status := Some status; ad_statusReason := None;
     ad_extension := Some extension; ad_department := None;
     ad_departmentId := Some departmentId; ad_departments := None;
     ad_currentCall := None; ad_lastStatusChange := Some "2024-01-01T00:00:00.000Z";
     ad_deviceState := None; ad_channelState := None |}.

(** A connector that is up: one available agent [2001] in queue [q1],
    the queue [q1] listed without agent counts, one call [42] that the
    connector reports as 5 seconds old. *)
Definition liveWorld : World :=
  {| random := fun _ => 0%Q;
     agentsApi := fun _ => Resolved (Some [agentDTO "2001" "NOT_INUSE" "q1"]);
     queuesApi := fun _ => Resolved (Some [queueDTO "q1" "Sales" 0 0 (Some 0)]);
     callsApi := fun _ => Resolved (Some [callDTO "42" "2001" 5]) |}.

(** The same deployment with the call [42] tracked since time 0. *)
Definition trackedSys : Sys :=
  with_activeCallsMap
    [("42", callInfoOf 0 (callEvent (Some "42") (Some "2001")))] liveSys.

(** What C1 asks of a tick: every broadcast call whose identifier is a
    key of the registry carries the duration tracked there. *)
Definition durations_merged (registry : Registry.t) (calls : list Call) : Prop :=
  forall call tracked,
    In call calls ->
    ca_id call = Some (ci_id tracked) ->
    Registry.get (ci_id tracked) registry = Some tracked ->
    ca_duration call = ci_duration tracked.

(** The state in which a tick leaves the system just before it looks
    at the alerts. *)
Definition afterBroadcasts (now : Z) (agents : list Agent) (queues : list Queue)
    (calls : list Call) (stats : Stats) (s4 : Sys) : Sys :=
  with_emitted
    (emitted s4
     ++ [DashboardAgents agents; DashboardQueues queues; DashboardCalls calls;
         DashboardStats stats])
    (with_activeCallsMap
       (Registry.update_all (refresh now) (activeCallsMap s4)) s4).

(** A deployment without a connector endpoint: synthetic data only. *)
Definition demoSys : Sys := initial 0 None.

(** The part of the [i]-th synthetic agent that does not come from a
    draw, as the properties below state it. *)
Definition rosterEntry (i : Z) (name : string)
  : option string * string * string * JS.value * string * string
    * list string * string * string :=
  (Some ("agent_" +:+ JS.show_num (i + 1)),
   name,
   JS.replace_first " " "." (JS.toLowerCase name) +:+ "@company.com",
   JS.Str (JS.show_num (1000 + i)),
   nth (Z.to_nat (i mod 4)) departments "",
   "queue_" +:+ JS.show_num (i mod 4 + 1),
   ["queue_" +:+ JS.show_num (i mod 4 + 1)],
   "NOT_INUSE", "Available").

(** [l.map((x, i) => g i x)], [i] counted from [i0]. *)
Fixpoint imapZ {A B} (g : Z -> A -> B) (i0 : Z) (l : list A) : list B :=
  match l with
  | [] => []
  | x :: r => g i0 x :: imapZ g (i0 + 1) r
  end.

(** A connector that is up and lists nothing at all. *)
Definition emptyWorld : World :=
  {| random := fun _ => 0%Q;
     agentsApi := fun _ => Resolved (Some []);
     queuesApi := fun _ => Resolved (Some []);
     callsApi := fun _ => Resolved (Some []) |}.

(** The states the server goes through: it starts from [initial], and
    from then on handles connector events, arms and stops the timer, runs
    ticks and answers the read-only routes, all of which go through the
    fetches. *)
Inductive reachable (world : World) : Sys -> Prop :=
| reach_initial now endpoint :
    reachable world (initial now endpoint)
| reach_event now event s :
    reachable world s ->
    reachable world (snd (postConnectorEvent world now event s))
| reach_start now s :
    reachable world s -> reachable world (snd (startPolling world now s))
| reach_tick now s :
    reachable world s -> reachable world (snd (broadcastUpdates world now s))
| reach_stop s :
    reachable world s -> reachable world (snd (stopPolling s))
| reach_agents now s :
    reachable world s -> reachable world (snd (getAgents world now s))
| reach_queues now s :
    reachable world s -> reachable world (snd (apiQueues world now s))
| reach_calls now s :
    reachable world s -> reachable world (snd (getActiveCalls world now s))
| reach_stats now s :
    reachable world s -> reachable world (snd (getCallCenterStats world now s)).

(** ** The rest of the handler, and more vocabulary *)

(** What [getStats()] returns. *)
Record HandlerStats : Type := {
  hs_connectedClients : Z;
  hs_activeCalls : Z;
  hs_isPolling : bool;
  hs_updateInterval : Z;
  hs_lastUpdate : Z
}.

(** [getStats()].  [clientsCount] stands for [this.io.engine.clientsCount]
    and [updateInterval] for the handler's field of that name, which the
    state does not hold. *)
Definition getStats (clientsCount updateInterval now : Z) (s : Sys)
  : HandlerStats :=
  {| hs_connectedClients := clientsCount;
     hs_activeCalls := Z.of_nat (length (activeCallsMap s));
     hs_isPolling := pollingInterval s;
     hs_updateInterval := updateInterval;
     hs_lastUpdate := now |}.

(** [keeps proj c]: whatever [c] does, and whether it returns or throws,
    the part [proj] of the state is afterwards what it was. *)
Definition keeps {B A} (proj : Sys -> B) (c : M A) : Prop :=
  forall s, proj (snd (c s)) = proj s.

(** The configuration set by the constructors. *)
Definition config (s : Sys) : string * bool * bool :=
  (connectorUrl s, useMockData s, wsHandler s).

(** How many requests each listing of the connector has received. *)
Definition requests (s : Sys) : nat * nat * nat := (apos s, qpos s, cpos s).

(** The endpoint that stands for "no connector". *)
Definition localhost : string := "http://localhost:8080".

(** The test of [agents.filter(a => a.status === k)]. *)
Definition hasStatus (k : string) (a : Agent) : bool :=
  String.eqb (ag_status a) k.

Definition isConnectorOffline (a : Alert) : bool :=
  String.eqb (al_title a) "Connector Offline".

Definition isLowAvailability (a : Alert) : bool :=
  String.eqb (al_title a) "Low Agent Availability".

Definition isLongWait (a : Alert) : bool :=
  String.eqb (al_title a) "Long Wait Time".

(** An agent at work as the connector lists it: status [busy] and a
    current call that only gives the caller's number. *)
Definition busyAgentDTO (id extension : string) (callerNumber : string)
  : AgentDTO :=
  {| ad_id := Some id; ad_name := None; ad_email := None;
     ad_status := Some "busy"; ad_statusReason := None;
     ad_extension := Some extension; ad_department := None;
     ad_departmentId := Some "q1"; ad_departments := None;
     ad_currentCall :=
       Some {| ccd_phoneNumber := Some callerNumber; ccd_callerName := None;
               ccd_direction := None; ccd_duration := Some 3;
               ccd_queueName := None; ccd_queueId := None |};
     ad_lastStatusChange := None;
     ad_deviceState := None; ad_channelState := None |}.

(** A request of a handled type whose [data] is missing. *)
Definition lacksData (event : ConnectorRequest) : bool :=
  match event with
  | ReqCallStarted None | ReqCallEnded None | ReqAgentStatus None => true
  | _ => false
  end.

(** The [connector:event] and [agent:updated] messages of a log. *)
Definition echoes (log : list Event) : list ConnectorRequest :=
  flat_map (fun e => match e with ConnectorEvent r => [r] | _ => [] end) log.

Definition agentUpdates (log : list Event) : list Agent :=
  flat_map (fun e => match e with AgentUpdated a => [a] | _ => [] end) log.

(** The registry an event leaves behind, durations apart. *)
Definition registryAfter (now : Z) (event : ConnectorRequest)
    (m : Registry.t) : Registry.t :=
  match event with
  | ReqCallStarted (Some cd) =>
      Registry.set (ci_id (callInfoOf now cd)) (callInfoOf now cd) m
  | ReqCallEnded (Some cd) =>
      match Registry.first (ends (cd_uniqueid cd)) m with
      | Some (callId, _) => Registry.delete callId m
      | None => m
      end
  | _ => m
  end.

(** [aged m m']: the same calls under the same keys in the same order,
    equal in everything but the duration. *)
Definition aged (m m' : Registry.t) : Prop :=
  Forall2 (fun kc kc' =>
             fst kc' = fst kc
             /\ set_duration (snd kc') 0 = set_duration (snd kc) 0) m m'.

(** [idle world s s']: the server goes from [s] to [s'] without handling
    a call event: by ticks, timer operations, reads of the listings,
    agent-status events and events of a type it does not handle. *)
Inductive idle (world : World) : Sys -> Sys -> Prop :=
| idle_refl s : idle world s s
| idle_tick now s s' :
    idle world s s' -> idle world s (snd (broadcastUpdates world now s'))
| idle_start now s s' :
    idle world s s' -> idle world s (snd (startPolling world now s'))
| idle_stop s s' :
    idle world s s' -> idle world s (snd (stopPolling s'))
| idle_agents now s s' :
    idle world s s' -> idle world s (snd (getAgents world now s'))
| idle_queues now s s' :
    idle world s s' -> idle world s (snd (apiQueues world now s'))
| idle_calls now s s' :
    idle world s s' -> idle world s (snd (getActiveCalls world now s'))
| idle_stats now s s' :
    idle world s s' -> idle world s (snd (getCallCenterStats world now s'))
| idle_status now data s s' :
    idle world s s' ->
    idle world s (snd (postConnectorEvent world now (ReqAgentStatus data) s'))
| idle_other now type s s' :
    idle world s s' ->
    idle world s (snd (postConnectorEvent world now (ReqOther type) s')).

(** * Properties *)

(** ** The registry *)

Section RegistryFacts.

Lemma refresh_started_now now cd :
  refresh now (callInfoOf now cd) = callInfoOf now cd.
Proof.
  unfold refresh, elapsed, JS.floor_div, set_duration, callInfoOf; simpl.
  rewrite Z.sub_diag. reflexivity.
Qed.

Lemma keys_set_in k v m :
  In k (Registry.keys m) -> Registry.keys (Registry.set k v m) = Registry.keys m.
Proof.
  induction m as [|[k' v'] m IH]; simpl; [tauto|].
  intros [->|Hin].
  - rewrite String.eqb_refl. reflexivity.
  - destruct (String.eqb_spec k' k) as [->|Hne]; simpl; [reflexivity|].
    f_equal. apply IH, Hin.
Qed.

Lemma keys_set_fresh k v m :
  ~ In k (Registry.keys m) ->
  Registry.keys (Registry.set k v m) = (Registry.keys m ++ [k])%list.
Proof.
  induction m as [|[k' v'] m IH]; simpl; [reflexivity|].
  intros Hn. destruct (String.eqb_spec k' k) as [->|Hne]; [tauto|].
  simpl. f_equal. apply IH. tauto.
Qed.

Lemma NoDup_keys_set k v m :
  List.NoDup (Registry.keys m) -> List.NoDup (Registry.keys (Registry.set k v m)).
Proof.
  intros Hnd. destruct (in_dec string_dec k (Registry.keys m)) as [Hin|Hn].
  - rewrite keys_set_in by assumption. assumption.
  - rewrite keys_set_fresh by assumption.
    apply List.NoDup_app; [assumption| |].
    + constructor; [intros []|constructor].
    + intros x Hx [<-|[]]. tauto.
Qed.

Lemma get_set_same k v m : Registry.get k (Registry.set k v m) = Some v.
Proof.
  induction m as [|[k' v'] m IH]; simpl.
  - rewrite String.eqb_refl. reflexivity.
  - destruct (String.eqb_spec k' k) as [->|Hne]; simpl.
    + rewrite String.eqb_refl. reflexivity.
    + destruct (String.eqb_spec k' k); [contradiction|]. exact IH.
Qed.

Lemma in_set k v m kc :
  In kc (Registry.set k v m) -> kc = (k, v) \/ In kc m.
Proof.
  induction m as [|[k' v'] m IH]; simpl.
  - intros [<-|[]]. auto.
  - destruct (String.eqb_spec k' k) as [->|Hne]; simpl.
    + intros [<-|H]; auto.
    + intros [<-|H]; auto. destruct (IH H); auto.
Qed.

Lemma in_delete k m kc : In kc (Registry.delete k m) -> In kc m.
Proof.
  induction m as [|[k' v'] m IH]; simpl; [tauto|].
  destruct (String.eqb k' k); simpl; intuition.
Qed.

Lemma NoDup_keys_delete k m :
  List.NoDup (Registry.keys m) -> List.NoDup (Registry.keys (Registry.delete k m)).
Proof.
  induction m as [|[k' v'] m IH]; simpl; [auto|].
  intros Hnd. inversion Hnd as [|? ? Hn Hnd']; subst.
  destruct (String.eqb k' k); simpl; [assumption|].
  constructor; [|auto].
  intros Hin. apply Hn. unfold Registry.keys in *.
  apply in_map_iff in Hin as [kc [Hk Hin]].
  apply in_map_iff. exists kc. split; [assumption|].
  eapply in_delete, Hin.
Qed.

Lemma get_delete_same k m :
  List.NoDup (Registry.keys m) -> Registry.get k (Registry.delete k m) = None.
Proof.
  induction m as [|[k' v'] m IH]; simpl; [reflexivity|].
  intros Hnd. inversion Hnd as [|? ? Hn Hnd']; subst.
  destruct (String.eqb_spec k' k) as [->|Hne]; simpl.
  - clear IH Hnd Hnd'. induction m as [|[k2 v2] m IH2]; simpl; [reflexivity|].
    simpl in Hn. destruct (String.eqb_spec k2 k) as [->|Hne2]; [tauto|].
    apply IH2. tauto.
  - destruct (String.eqb_spec k' k); [contradiction|]. apply IH, Hnd'.
Qed.

Lemma length_delete_present k m :
  In k (Registry.keys m) ->
  length m = S (length (Registry.delete k m)).
Proof.
  induction m as [|[k' v'] m IH]; simpl; [tauto|].
  intros Hin. destruct (String.eqb_spec k' k) as [->|Hne]; [reflexivity|].
  simpl. f_equal. apply IH. destruct Hin; [contradiction|assumption].
Qed.

Lemma get_in k c m : Registry.get k m = Some c -> In (k, c) m.
Proof.
  induction m as [|[k' v'] m IH]; simpl; [discriminate|].
  destruct (String.eqb_spec k' k) as [->|Hne].
  - intros [= ->]. auto.
  - auto.
Qed.

Lemma get_key k c m : Registry.get k m = Some c -> In k (Registry.keys m).
Proof.
  intros H. apply get_in in H. unfold Registry.keys.
  apply in_map_iff. exists (k, c). auto.
Qed.

Lemma ok_nil : Registry.ok [].
Proof. split; constructor. Qed.

Lemma ok_set k v m :
  Registry.ok m -> Registry.entry_ok (k, v) -> Registry.ok (Registry.set k v m).
Proof.
  intros [Hnd Hall] Hv. split; [apply NoDup_keys_set, Hnd|].
  apply List.Forall_forall. intros kc Hin.
  apply in_set in Hin as [->|Hin]; [assumption|].
  eapply List.Forall_forall in Hall; eauto.
Qed.

Lemma ok_delete k m : Registry.ok m -> Registry.ok (Registry.delete k m).
Proof.
  intros [Hnd Hall]. split; [apply NoDup_keys_delete, Hnd|].
  apply List.Forall_forall. intros kc Hin. apply in_delete in Hin.
  eapply List.Forall_forall in Hall; eauto.
Qed.

Lemma entry_ok_callInfoOf now cd :
  Registry.entry_ok (ci_id (callInfoOf now cd), callInfoOf now cd).
Proof.
  split; [reflexivity|]. simpl.
  destruct (cd_uniqueid cd) as [| |u]; simpl; try discriminate.
  destruct (String.eqb u ""); simpl; [discriminate|reflexivity].
Qed.

(** In a well-formed registry, the entry that a call-ended event with
    a non-empty identifier [u] selects sits under the key [u]. *)
Lemma ends_key u kc :
  u <> "" -> Registry.entry_ok kc -> ends (Some u) (snd kc) = true ->
  fst kc = u.
Proof.
  intros Hu [Hid Huniq] He. unfold ends in He.
  apply orb_true_iff in He as [He|He].
  - destruct (ci_uniqueid (snd kc)) as [| |x] eqn:Hx; simpl in He;
      try discriminate.
    apply String.eqb_eq in He. subst x.
    assert (JS.Str u = JS.Str (fst kc)) as [= ->]; [|reflexivity].
    apply Huniq. simpl. apply String.eqb_neq in Hu. rewrite Hu. reflexivity.
  - simpl in He. apply String.eqb_eq in He. congruence.
Qed.

Lemma first_selects_key u c m :
  u <> "" -> Registry.ok m -> Registry.get u m = Some c ->
  ends (Some u) c = true ->
  Registry.first (ends (Some u)) m = Some (u, c).
Proof.
  intros Hu [Hnd Hall]. induction m as [|[k v] m IH]; simpl; [discriminate|].
  inversion Hall as [|? ? Hkv Hall']; subst.
  inversion Hnd as [|? ? Hn Hnd']; subst.
  destruct (String.eqb_spec k u) as [->|Hne].
  - intros [= ->] ->. reflexivity.
  - intros Hg He. destruct (ends (JS.Str u) v) eqn:Hv.
    + exfalso. apply Hne. exact (ends_key u (k, v) Hu Hkv Hv).
    + apply IH; assumption.
Qed.

Lemma first_none_iff p m :
  Registry.first p m = None <-> Forall (fun kc => p (snd kc) = false) m.
Proof.
  induction m as [|[k v] m IH]; simpl.
  - split; [constructor|reflexivity].
  - destruct (p v) eqn:Hp.
    + split; [discriminate|]. intros H. inversion H; subst. simpl in *. congruence.
    + rewrite IH. split; [constructor; auto|]. intros H. inversion H; auto.
Qed.

End RegistryFacts.

(** ** Registries that differ by refreshed durations *)

Section Touched.

Variable now : Z.

Lemma touched_refl m : touched now m m.
Proof. induction m; constructor; auto. Qed.

Lemma touched_trans m1 m2 m3 :
  touched now m1 m2 -> touched now m2 m3 -> touched now m1 m3.
Proof.
  intros H12. revert m3.
  induction H12 as [|kc1 kc2 m1 m2 H _ IH]; intros m3 H23;
    inversion H23 as [|? kc3 ? m3' H' H23']; subst; constructor.
  - destruct H as [->| ->], H' as [->| ->]; simpl; auto.
  - apply IH. assumption.
Qed.

Lemma touched_update_first p m :
  touched now m (Registry.update_first p (refresh now) m).
Proof.
  induction m as [|[k c] m IH]; simpl; [constructor|].
  destruct (p c); constructor;
    solve [left; reflexivity | right; reflexivity | apply touched_refl | exact IH].
Qed.

Lemma touched_update_all m :
  touched now m (Registry.update_all (refresh now) m).
Proof.
  induction m as [|[k c] m IH]; simpl; constructor;
    solve [right; reflexivity | exact IH].
Qed.

Lemma touched_keys m m' :
  touched now m m' -> Registry.keys m' = Registry.keys m.
Proof.
  induction 1 as [|kc kc' m m' H _ IH]; simpl; [reflexivity|].
  f_equal; [|exact IH]. destruct H as [->| ->]; reflexivity.
Qed.

Lemma touched_length m m' : touched now m m' -> length m' = length m.
Proof.
  intros H. apply touched_keys in H. unfold Registry.keys in H.
  rewrite <- (length_map fst m'), H. apply length_map.
Qed.

Lemma touched_refresh_all m m' :
  touched now m m' ->
  Registry.update_all (refresh now) m' = Registry.update_all (refresh now) m.
Proof.
  induction 1 as [|kc kc' m m' H _ IH]; simpl; [reflexivity|].
  f_equal; [|exact IH]. destruct H as [->| ->]; reflexivity.
Qed.

Lemma touched_entry_ok kc kc' :
  kc' = kc \/ kc' = (fst kc, refresh now (snd kc)) ->
  Registry.entry_ok kc -> Registry.entry_ok kc'.
Proof. intros [->| ->]; [auto|]. intros [H1 H2]. split; simpl; auto. Qed.

Lemma touched_ok m m' : touched now m m' -> Registry.ok m -> Registry.ok m'.
Proof.
  intros H [Hnd Hall]. split.
  - rewrite (touched_keys _ _ H). exact Hnd.
  - clear Hnd. induction H as [|kc kc' m m' H _ IH]; [constructor|].
    inversion Hall; subst. constructor; eauto using touched_entry_ok.
Qed.

Lemma touched_get m m' k c :
  touched now m m' -> Registry.get k m = Some c ->
  exists c', Registry.get k m' = Some c' /\ (c' = c \/ c' = refresh now c).
Proof.
  induction 1 as [|[k1 c1] kc' m m' H _ IH]; simpl; [discriminate|].
  assert (Hk : fst kc' = k1) by (destruct H as [->| ->]; reflexivity).
  destruct kc' as [k2 c2]. simpl in Hk. subst k2.
  destruct (String.eqb k1 k).
  - intros [= <-]. exists c2. split; [reflexivity|].
    destruct H as [H|H]; injection H as ->; auto.
  - exact IH.
Qed.

Lemma touched_delete k m m' :
  touched now m m' ->
  touched now (Registry.delete k m) (Registry.delete k m').
Proof.
  induction 1 as [|[k1 c1] kc' m m' H Hr IH]; simpl; [constructor|].
  assert (Hk : fst kc' = k1) by (destruct H as [->| ->]; reflexivity).
  destruct kc' as [k2 c2]. simpl in Hk. subst k2.
  destruct (String.eqb k1 k); [exact Hr|]. constructor; auto.
Qed.

(** *** Frames *)

Lemma frame_refl s : frame now s s.
Proof. constructor; auto using touched_refl. Qed.

Lemma frame_trans s1 s2 s3 :
  frame now s1 s2 -> frame now s2 s3 -> frame now s1 s3.
Proof.
  intros [] []. constructor; try congruence.
  eapply touched_trans; eassumption.
Qed.

Lemma frame_cursors r a q c s : frame now s (with_cursors r a q c s).
Proof. constructor; simpl; auto using touched_refl. Qed.

Lemma quiet_framed {A} (c : M A) : quiet now c -> framed now c.
Proof. intros H s. apply H. Qed.

Lemma quiet_ret {A} (a : A) : quiet now (ret a).
Proof. intros s. split; [apply frame_refl|]. exists a. reflexivity. Qed.

Lemma quiet_get : quiet now get.
Proof. intros s. split; [apply frame_refl|]. exists s. reflexivity. Qed.

Lemma quiet_bind {A B} (c : M A) (k : A -> M B) :
  quiet now c -> (forall a, quiet now (k a)) -> quiet now (bind c k).
Proof.
  intros Hc Hk s. unfold bind.
  destruct (Hc s) as [Hf [a Ha]]. destruct (c s) as [o s1]. simpl in *.
  subst o. destruct (Hk a s1) as [Hf' Hr].
  split; [eapply frame_trans; eassumption|exact Hr].
Qed.

Lemma framed_bind {A B} (c : M A) (k : A -> M B) :
  framed now c -> (forall a, framed now (k a)) -> framed now (bind c k).
Proof.
  intros Hc Hk s. unfold bind. specialize (Hc s).
  destruct (c s) as [[a|e] s1]; simpl in *; [|exact Hc].
  eapply frame_trans; [exact Hc|apply Hk].
Qed.

Lemma quiet_try_catch {A} (c : M A) (h : string -> M A) :
  framed now c -> (forall e, quiet now (h e)) -> quiet now (try_catch c h).
Proof.
  intros Hc Hh s. unfold try_catch. specialize (Hc s).
  destruct (c s) as [[a|e] s1]; simpl in *.
  - split; [exact Hc|]. exists a. reflexivity.
  - destruct (Hh e s1) as [Hf Hr].
    split; [eapply frame_trans; eassumption|exact Hr].
Qed.

Lemma quiet_mapM {A B} (f : A -> M B) (l : list A) :
  (forall x, quiet now (f x)) -> quiet now (mapM f l).
Proof.
  intros Hf. induction l as [|x l IH]; simpl; [apply quiet_ret|].
  apply quiet_bind; [apply Hf|]. intros y.
  apply quiet_bind; [exact IH|]. intros ys. apply quiet_ret.
Qed.

Lemma quiet_mapM_i {A B} (f : Z -> A -> M B) (l : list A) :
  (forall i x, quiet now (f i x)) -> forall i, quiet now (mapM_i f i l).
Proof.
  intros Hf. induction l as [|x l IH]; intros i; simpl; [apply quiet_ret|].
  apply quiet_bind; [apply Hf|]. intros y.
  apply quiet_bind; [apply IH|]. intros ys. apply quiet_ret.
Qed.

Variable world : World.

Lemma quiet_Math_random : quiet now (Math_random world).
Proof.
  intros s. split; [apply frame_cursors|]. eexists. reflexivity.
Qed.

Lemma framed_client_get_agents : framed now (client_get_agents world).
Proof.
  intros s. unfold client_get_agents.
  destruct (agentsApi world (apos s)); apply frame_cursors.
Qed.

Lemma framed_client_get_queues : framed now (client_get_queues world).
Proof.
  intros s. unfold client_get_queues.
  destruct (queuesApi world (qpos s)); apply frame_cursors.
Qed.

Lemma framed_client_get_calls : framed now (client_get_calls world).
Proof.
  intros s. unfold client_get_calls.
  destruct (callsApi world (cpos s)); apply frame_cursors.
Qed.

Lemma quiet_getActiveCallForUser userId :
  quiet now (getActiveCallForUser now userId).
Proof.
  intros s. unfold getActiveCallForUser.
  destruct (Registry.first _ _) as [[k c]|]; simpl.
  - split; [|eexists; reflexivity].
    constructor; simpl; auto using touched_update_first.
  - split; [apply frame_refl|]. eexists. reflexivity.
Qed.

End Touched.

Create HintDb quiet.
#[export] Hint Resolve quiet_ret quiet_get quiet_Math_random
  quiet_getActiveCallForUser quiet_framed framed_client_get_agents
  framed_client_get_queues framed_client_get_calls : quiet.

(** One step of a proof that a computation is [quiet] or [framed]:
    follow the shape of the code. *)
Ltac quiet_step :=
  match goal with
  | |- quiet _ (bind _ _) => apply quiet_bind; [|intros ?]
  | |- framed _ (bind _ _) => apply framed_bind; [|intros ?]
  | |- quiet _ (try_catch _ _) => apply quiet_try_catch; [|intros ?]
  | |- quiet _ (if ?b then _ else _) => destruct b
  | |- framed _ (if ?b then _ else _) => destruct b
  | |- quiet _ (match ?x with _ => _ end) => destruct x
  | |- quiet _ (mapM _ _) => apply quiet_mapM; intros ?
  | |- quiet _ (mapM_i _ _ _) => apply quiet_mapM_i; intros ? ?
  | |- _ => solve [auto with quiet]
  end.

(** ** The fetches always return and send nothing *)

Section Fetches.

Variable world : World.
Variable now : Z.

Lemma quiet_mockAgent t i name : quiet now (mockAgent world t i name).
Proof. unfold mockAgent. repeat quiet_step. Qed.

Lemma quiet_getMockAgents t : quiet now (getMockAgents world t).
Proof. unfold getMockAgents. quiet_step. apply quiet_mockAgent. Qed.

Lemma quiet_mockQueue id name ext b1 b2 b3 t a ab sl n na no st to re :
  quiet now (mockQueue world id name ext b1 b2 b3 t a ab sl n na no st to re).
Proof. unfold mockQueue. repeat quiet_step. Qed.

Lemma quiet_getMockQueues : quiet now (getMockQueues world).
Proof.
  unfold getMockQueues.
  do 4 (apply quiet_bind; [apply quiet_mockQueue|intros ?]).
  apply quiet_ret.
Qed.

Lemma quiet_mockCall t i : quiet now (mockCall world t i).
Proof. unfold mockCall. repeat quiet_step. Qed.

Lemma quiet_mockCalls_loop t n : forall i, quiet now (mockCalls_loop world t n i).
Proof.
  induction n as [|n IH]; intros i; simpl; [apply quiet_ret|].
  apply quiet_bind; [apply quiet_mockCall|]. intros c.
  apply quiet_bind; [apply IH|]. intros cs. apply quiet_ret.
Qed.

Lemma quiet_getMockCalls t : quiet now (getMockCalls world t).
Proof.
  unfold getMockCalls. quiet_step; [quiet_step|].
  apply quiet_mockCalls_loop.
Qed.

Lemma quiet_mapAgent agent : quiet now (mapAgent now agent).
Proof. unfold mapAgent. repeat quiet_step. Qed.

Lemma quiet_getAgents : quiet now (getAgents world now).
Proof.
  unfold getAgents. apply quiet_bind; [apply quiet_get|]. intros s0.
  destruct (useMockData s0); [apply quiet_getMockAgents|].
  apply quiet_try_catch; [|intros e; apply quiet_getMockAgents].
  apply framed_bind; [auto with quiet|]. intros data. cbv zeta.
  destruct (Nat.eqb _ _); apply quiet_framed;
    [apply quiet_getMockAgents|].
  apply quiet_mapM. intros x. apply quiet_mapAgent.
Qed.

Lemma quiet_getQueues : quiet now (getQueues world).
Proof.
  unfold getQueues. apply quiet_bind; [apply quiet_get|]. intros s0.
  destruct (useMockData s0); [apply quiet_getMockQueues|].
  apply quiet_try_catch; [|intros e; apply quiet_getMockQueues].
  apply framed_bind; [auto with quiet|]. intros data. cbv zeta.
  destruct (Nat.eqb _ _); apply quiet_framed;
    [apply quiet_getMockQueues|apply quiet_ret].
Qed.

Lemma quiet_getActiveCalls : quiet now (getActiveCalls world now).
Proof.
  unfold getActiveCalls. apply quiet_bind; [apply quiet_get|]. intros s0.
  destruct (useMockData s0); [apply quiet_getMockCalls|].
  apply quiet_try_catch; [|intros e; apply quiet_getMockCalls].
  apply framed_bind; [auto with quiet|]. intros data. cbv zeta.
  apply quiet_framed, quiet_ret.
Qed.

Lemma quiet_getCallCenterStats : quiet now (getCallCenterStats world now).
Proof.
  unfold getCallCenterStats.
  apply quiet_bind; [apply quiet_getAgents|]. intros agents.
  apply quiet_bind; [apply quiet_getQueues|]. intros queues.
  apply quiet_bind; [apply quiet_getActiveCalls|]. intros calls.
  apply quiet_ret.
Qed.

Lemma quiet_apiQueues : quiet now (apiQueues world now).
Proof.
  unfold apiQueues.
  apply quiet_bind; [apply quiet_getAgents|]. intros agents.
  apply quiet_bind; [apply quiet_getQueues|]. intros queues.
  apply quiet_ret.
Qed.

(** The result and final state of a quiet computation. *)
Lemma quiet_run {A} (c : M A) s :
  quiet now c -> exists a s', c s = (Returned a, s') /\ frame now s s'.
Proof.
  intros H. destruct (H s) as [Hf [a Ha]].
  exists a, (snd (c s)). split; [|exact Hf].
  destruct (c s) as [o s']. simpl in *. congruence.
Qed.

End Fetches.

(** ** The event handlers *)

Section Handlers.

Variable world : World.

Lemma callsEnded_app l1 l2 :
  callsEnded (l1 ++ l2) = (callsEnded l1 ++ callsEnded l2)%list.
Proof. unfold callsEnded. apply flat_map_app. Qed.

(** [broadcastCallUpdate] returns, leaves the registry [touched] and
    sends at most one [agent:updated]. *)
Lemma broadcastCallUpdate_run now ext s :
  exists s' tail,
    broadcastCallUpdate world now ext s = (Returned tt, s')
    /\ touched now (activeCallsMap s) (activeCallsMap s')
    /\ emitted s' = (emitted s ++ tail)%list
    /\ callsEnded tail = [].
Proof.
  unfold broadcastCallUpdate, try_catch, bind.
  destruct (quiet_run now (getAgents world now) s
              (quiet_getAgents world now)) as (agents & s1 & Hrun & Hf).
  rewrite Hrun. destruct (List.find _ agents) as [agent|].
  - exists (with_emitted (emitted s1 ++ [AgentUpdated agent]) s1),
      [AgentUpdated agent].
    repeat split; simpl.
    + apply Hf.
    + rewrite (fr_emitted _ _ _ Hf). reflexivity.
  - exists s1, []. repeat split.
    + apply Hf.
    + rewrite (fr_emitted _ _ _ Hf), app_nil_r. reflexivity.
Qed.

Lemma handleCallStarted_run now callData s :
  let callInfo := callInfoOf now callData in
  exists s' tail,
    handleCallStarted world now (Some callData) s = (Returned tt, s')
    /\ touched now (Registry.set (ci_id callInfo) callInfo (activeCallsMap s))
         (activeCallsMap s')
    /\ emitted s' = (emitted s ++ CallStarted callInfo :: tail)%list
    /\ callsEnded tail = [].
Proof.
  intros callInfo. unfold handleCallStarted, bind, modify, emit. simpl.
  fold callInfo. destruct (JS.truthy (cd_extension callData)).
  - match goal with |- context [broadcastCallUpdate world now ?e ?s0] =>
      destruct (broadcastCallUpdate_run now e s0) as (s' & tail & Hrun & Ht & He & Hc)
    end.
    exists s', tail. rewrite Hrun. simpl in *.
    repeat split; auto. rewrite He, <- app_assoc. reflexivity.
  - eexists _, []. unfold ret. simpl. repeat split. apply touched_refl.
Qed.

Lemma handleCallEnded_run now callData s callId call :
  Registry.first (ends (cd_uniqueid callData)) (activeCallsMap s)
    = Some (callId, call) ->
  exists s',
    handleCallEnded world now (Some callData) s = (Returned tt, s')
    /\ touched now (Registry.delete callId (activeCallsMap s))
         (activeCallsMap s')
    /\ callsEnded (emitted s') =
         (callsEnded (emitted s)
          ++ [(refresh now call, now,
               JS.or_str (cd_disposition callData) "ANSWERED")])%list.
Proof.
  intros Hfirst. unfold handleCallEnded, bind, get, modify, emit. simpl.
  rewrite Hfirst. simpl. destruct (JS.truthy (ci_extension call)).
  - match goal with |- context [broadcastCallUpdate world now ?e ?s0] =>
      destruct (broadcastCallUpdate_run now e s0) as (s' & tail & Hrun & Ht & He & Hc)
    end.
    exists s'. rewrite Hrun. simpl in *. repeat split; auto.
    rewrite He, !callsEnded_app, Hc, app_nil_r. reflexivity.
  - eexists. unfold ret. simpl. repeat split; [apply touched_refl|].
    simpl. rewrite callsEnded_app. reflexivity.
Qed.

(** The handlers keep the registry well formed. *)
Lemma handleCallStarted_ok now callData s :
  Registry.ok (activeCallsMap s) ->
  Registry.ok (activeCallsMap (snd (handleCallStarted world now (Some callData) s))).
Proof.
  intros Hok.
  destruct (handleCallStarted_run now callData s) as (s' & tail & Hrun & Ht & _).
  rewrite Hrun. simpl. eapply touched_ok; [exact Ht|].
  apply ok_set; [exact Hok|apply entry_ok_callInfoOf].
Qed.

Lemma handleCallEnded_ok now payload s :
  Registry.ok (activeCallsMap s) ->
  Registry.ok (activeCallsMap (snd (handleCallEnded world now payload s))).
Proof.
  intros Hok. destruct payload as [callData|]; [|exact Hok].
  destruct (Registry.first (ends (cd_uniqueid callData)) (activeCallsMap s))
    as [[k c]|] eqn:Hfirst.
  - destruct (handleCallEnded_run now callData s k c Hfirst) as (s' & Hrun & Ht & _).
    rewrite Hrun. simpl. eapply touched_ok; [exact Ht|]. apply ok_delete, Hok.
  - unfold handleCallEnded, bind, get. simpl. rewrite Hfirst. exact Hok.
Qed.

End Handlers.

(** ** Call events and the registry *)

(** C8.  A call-ended event whose identifier matches no registry entry
    (no entry has it as [uniqueid] or as [id]) is a silent no-op: the
    handler returns without an exception and the whole state, registry
    and broadcast log included, is what it was, so no [call:ended] is
    sent; the route answers 200 and sends nothing but its own
    [connector:event] echo. *)
Theorem call_ended_without_match_is_noop :
  forall (world : World) (now : Z) (callData : CallData) (s : Sys),
    Forall (fun kc => ends (cd_uniqueid callData) (snd kc) = false)
      (activeCallsMap s) ->
    handleCallEnded world now (Some callData) s = (Returned tt, s)
    /\ postConnectorEvent world now (ReqCallEnded (Some callData)) s
       = (Returned 200,
          with_emitted
            (emitted s ++ [ConnectorEvent (ReqCallEnded (Some callData))]) s).
Proof.
  intros world now callData s Hnone.
  apply first_none_iff in Hnone.
  assert (H : handleCallEnded world now (Some callData) s = (Returned tt, s)).
  { unfold handleCallEnded, bind, get. simpl. rewrite Hnone. reflexivity. }
  split; [exact H|].
  unfold postConnectorEvent, try_catch, bind. rewrite H. reflexivity.
Qed.

Lemma call_ended_without_match_witness :
  Forall (fun kc => ends (Some "42") (snd kc) = false) (activeCallsMap oneCallSys)
  /\ handleCallEnded downWorld 5000 (Some (callEvent (Some "42") None)) oneCallSys
     = (Returned tt, oneCallSys).
Proof.
  assert (H : Forall (fun kc => ends (Some "42") (snd kc) = false)
                (activeCallsMap oneCallSys)).
  { repeat constructor. }
  split; [exact H|].
  exact (proj1 (call_ended_without_match_is_noop downWorld 5000
                  (callEvent (Some "42") None) oneCallSys H)).
Defined.

(** C6, as stated, fails: [handleCallEnded] has no [return], so what it
    returns is [undefined], here [tt], also when it has removed a call.
    A call started at 1 s with uniqueid ["42"] and ended at 6 s: the
    registry is empty again, the handler has returned [undefined], and
    the removed record, with duration 5, has left it only as the
    payload of [call:ended]. *)
Lemma call_ended_returns_nothing :
  let started := callEvent (Some "42") None in
  let r1 := handleCallStarted downWorld 1000 (Some started) liveSys in
  let r2 := handleCallEnded downWorld 6000 (Some started) (snd r1) in
  Registry.keys (activeCallsMap (snd r1)) = ["42"]
  /\ activeCallsMap (snd r2) = []
  /\ fst r2 = Returned tt
  /\ callsEnded (emitted (snd r2))
     = [(set_duration (callInfoOf 1000 started) 5, 6000, "ANSWERED")].
Proof. repeat split. Qed.

(** C6, amended.  Registry key stability.  In a well-formed registry
    (every state the server reaches has one, [reachable_ok]), a
    call-started event with uniqueid ["42"] at time [t1] followed by a
    call-ended event with uniqueid ["42"] at time [t2 >= t1]: both handlers
    return, and return nothing; the start puts the new record under key
    ["42"]; the end removes exactly that one entry (the registry is one
    shorter, its other entries are those it had, the key ["42"] is gone)
    and sends, as its only [call:ended], that record with its duration
    set to [floor((t2 - t1) / 1000)], which is not negative. *)
Theorem start_then_end_removes_one_entry :
  forall (world : World) (t1 t2 : Z) (started ended : CallData) (s : Sys),
    Registry.ok (activeCallsMap s) ->
    cd_uniqueid started = Some "42" ->
    cd_uniqueid ended = Some "42" ->
    t1 <= t2 ->
    let r1 := handleCallStarted world t1 (Some started) s in
    let r2 := handleCallEnded world t2 (Some ended) (snd r1) in
    let removed := refresh t2 (callInfoOf t1 started) in
    fst r1 = Returned tt /\ fst r2 = Returned tt
    /\ Registry.get "42" (activeCallsMap (snd r1)) = Some (callInfoOf t1 started)
    /\ length (activeCallsMap (snd r1)) = S (length (activeCallsMap (snd r2)))
    /\ touched t2 (Registry.delete "42" (activeCallsMap (snd r1)))
         (activeCallsMap (snd r2))
    /\ Registry.get "42" (activeCallsMap (snd r2)) = None
    /\ callsEnded (emitted (snd r2)) =
         (callsEnded (emitted (snd r1))
          ++ [(removed, t2, JS.or_str (cd_disposition ended) "ANSWERED")])%list
    /\ ci_id removed = "42"
    /\ ci_uniqueid removed = Some "42"
    /\ ci_duration removed = (t2 - t1) / 1000
    /\ 0 <= ci_duration removed.
Proof.
  intros world t1 t2 started ended s Hok Hs He Ht r1 r2 removed.
  assert (Hid : ci_id (callInfoOf t1 started) = "42").
  { unfold callInfoOf. simpl. rewrite Hs. reflexivity. }
  destruct (handleCallStarted_run world t1 started s)
    as (s1 & tail & Hrun1 & Ht1 & Hem1 & _).
  rewrite Hid in Ht1.
  assert (Hok1 : Registry.ok (activeCallsMap s1)).
  { eapply touched_ok; [exact Ht1|]. apply ok_set; [exact Hok|].
    rewrite <- Hid. apply entry_ok_callInfoOf. }
  assert (Hget1 : Registry.get "42" (activeCallsMap s1)
                  = Some (callInfoOf t1 started)).
  { destruct (touched_get t1 _ _ "42" _ Ht1 (get_set_same _ _ _))
      as (c' & Hc' & [->| ->]); [exact Hc'|].
    rewrite refresh_started_now in Hc'. exact Hc'. }
  assert (Hfirst : Registry.first (ends (cd_uniqueid ended)) (activeCallsMap s1)
                   = Some ("42", callInfoOf t1 started)).
  { rewrite He.
    apply first_selects_key; [discriminate|exact Hok1|exact Hget1|].
    unfold ends. simpl. rewrite Hs. reflexivity. }
  destruct (handleCallEnded_run world t2 ended s1 _ _ Hfirst)
    as (s2 & Hrun2 & Ht2 & Hem2).
  subst r1 r2. rewrite Hrun1. cbn [fst snd]. rewrite Hrun2. cbn [fst snd].
  assert (Hdur : ci_duration removed = (t2 - t1) / 1000) by reflexivity.
  repeat split; auto.
  - rewrite (touched_length _ _ _ Ht2).
    apply length_delete_present. eapply get_key, Hget1.
  - destruct (Registry.get "42" (activeCallsMap s2)) as [c|] eqn:Hg; [|reflexivity].
    exfalso. apply get_key in Hg. rewrite (touched_keys _ _ _ Ht2) in Hg.
    unfold Registry.keys in Hg. apply in_map_iff in Hg as [[k c'] [Hk Hin]].
    simpl in Hk. subst k.
    pose proof (get_delete_same "42" _ (proj1 Hok1)) as Hnone.
    clear - Hin Hnone. induction (Registry.delete "42" (activeCallsMap s1))
      as [|[k v] m IH]; simpl in *; [contradiction|].
    destruct (String.eqb_spec k "42") as [->|Hne]; [discriminate|].
    destruct Hin as [[= -> _]|Hin]; [contradiction|]. auto.
  - rewrite Hdur. apply Z.div_pos; lia.
Qed.

Lemma start_then_end_witness :
  Registry.ok (activeCallsMap oneCallSys) /\ 1000 <= 6500
  /\ let r1 := handleCallStarted downWorld 1000
                 (Some (callEvent (Some "42") (Some "1003"))) oneCallSys in
     let r2 := handleCallEnded downWorld 6500
                 (Some (callEvent (Some "42") None)) (snd r1) in
     Registry.keys (activeCallsMap (snd r1)) = ["7"; "42"]
     /\ Registry.keys (activeCallsMap (snd r2)) = ["7"]
     /\ map (fun x => ci_duration (fst (fst x))) (callsEnded (emitted (snd r2)))
        = [5].
Proof.
  assert (Hok : Registry.ok (activeCallsMap oneCallSys)).
  { split; repeat constructor; simpl; try tauto; discriminate. }
  split; [exact Hok|]. split; [lia|].
  pose proof (start_then_end_removes_one_entry downWorld 1000 6500
                (callEvent (Some "42") (Some "1003"))
                (callEvent (Some "42") None) oneCallSys Hok
                eq_refl eq_refl ltac:(lia)) as H.
  cbv zeta in *. destruct H as (_ & _ & _ & _ & _ & _ & Hem & _).
  split; [vm_compute; reflexivity|]. split; [vm_compute; reflexivity|].
  rewrite Hem. vm_compute. reflexivity.
Defined.

(** C9.  Two call-started events that carry the same non-empty uniqueid
    [u], handled one after the other in a well-formed registry, leave
    exactly one entry under [u]: the second event takes the place of the
    first without adding an entry, every record that [u] selects sits
    under the key [u], and the record found there is the one built from
    the second event, whose start time is the second arrival time [t2]
    and whose duration is therefore counted from [t2]: 0 when stored, and
    [floor((now - t2) / 1000)] whenever recomputed. *)
Theorem second_start_overwrites_first :
  forall (world : World) (t1 t2 : Z) (first second : CallData) (u : string)
         (s : Sys),
    Registry.ok (activeCallsMap s) ->
    u <> "" ->
    cd_uniqueid first = Some u ->
    cd_uniqueid second = Some u ->
    let s1 := snd (handleCallStarted world t1 (Some first) s) in
    let s2 := snd (handleCallStarted world t2 (Some second) s1) in
    count_occ string_dec (Registry.keys (activeCallsMap s2)) u = 1%nat
    /\ length (activeCallsMap s2) = length (activeCallsMap s1)
    /\ (forall k c, In (k, c) (activeCallsMap s2) ->
                    ends (Some u) c = true -> k = u)
    /\ Registry.get u (activeCallsMap s2) = Some (callInfoOf t2 second)
    /\ ci_startTime (callInfoOf t2 second) = t2
    /\ ci_duration (callInfoOf t2 second) = 0
    /\ (forall now, ci_duration (refresh now (callInfoOf t2 second))
                    = (now - t2) / 1000).
Proof.
  intros world t1 t2 first second u s Hok Hu H1 H2 s1 s2.
  assert (Hid : forall t cd, cd_uniqueid cd = Some u -> ci_id (callInfoOf t cd) = u).
  { intros t cd Hcd. unfold callInfoOf. simpl. rewrite Hcd. simpl.
    apply String.eqb_neq in Hu. rewrite Hu. reflexivity. }
  destruct (handleCallStarted_run world t1 first s) as (s1' & tl1 & Hrun1 & Ht1 & _).
  assert (Hs1 : s1 = s1') by (subst s1; rewrite Hrun1; reflexivity).
  rewrite (Hid _ _ H1) in Ht1.
  assert (Hok1 : Registry.ok (activeCallsMap s1')).
  { eapply touched_ok; [exact Ht1|]. apply ok_set; [exact Hok|].
    rewrite <- (Hid t1 first H1). apply entry_ok_callInfoOf. }
  assert (Hin1 : In u (Registry.keys (activeCallsMap s1'))).
  { rewrite (touched_keys _ _ _ Ht1). eapply get_key, get_set_same. }
  destruct (handleCallStarted_run world t2 second s1') as (s2' & tl2 & Hrun2 & Ht2 & _).
  assert (Hs2 : s2 = s2') by (subst s2; rewrite Hs1, Hrun2; reflexivity).
  rewrite (Hid _ _ H2) in Ht2.
  assert (Hok2 : Registry.ok (activeCallsMap s2')).
  { eapply touched_ok; [exact Ht2|]. apply ok_set; [exact Hok1|].
    rewrite <- (Hid t2 second H2). apply entry_ok_callInfoOf. }
  rewrite Hs2, Hs1. clear s1 s2 Hs1 Hs2.
  repeat split.
  - rewrite (touched_keys _ _ _ Ht2), keys_set_in by exact Hin1.
    apply NoDup_count_occ'; [apply Hok1|exact Hin1].
  - rewrite (touched_length _ _ _ Ht2).
    rewrite <- (length_map fst (Registry.set _ _ _)), <- (length_map fst (activeCallsMap s1')).
    fold (Registry.keys (Registry.set u (callInfoOf t2 second) (activeCallsMap s1'))).
    fold (Registry.keys (activeCallsMap s1')).
    rewrite keys_set_in by exact Hin1. reflexivity.
  - intros k c Hin He. destruct Hok2 as [_ Hall].
    eapply List.Forall_forall in Hall; [|exact Hin].
    exact (ends_key u (k, c) Hu Hall He).
  - destruct (touched_get t2 _ _ u _ Ht2 (get_set_same _ _ _))
      as (c' & Hc' & [->| ->]); [exact Hc'|].
    rewrite refresh_started_now in Hc'. exact Hc'.
Qed.

Lemma second_start_overwrites_witness :
  Registry.ok (activeCallsMap oneCallSys) /\ "42" <> ""
  /\ let s1 := snd (handleCallStarted downWorld 1000
                      (Some (callEvent (Some "42") (Some "1003"))) oneCallSys) in
     let s2 := snd (handleCallStarted downWorld 9000
                      (Some (callEvent (Some "42") (Some "1004"))) s1) in
     count_occ string_dec (Registry.keys (activeCallsMap s2)) "42" = 1%nat
     /\ option_map ci_startTime (Registry.get "42" (activeCallsMap s2)) = Some 9000.
Proof.
  assert (Hok : Registry.ok (activeCallsMap oneCallSys)).
  { split; repeat constructor; simpl; try tauto; discriminate. }
  split; [exact Hok|]. split; [discriminate|].
  pose proof (second_start_overwrites_first downWorld 1000 9000
                (callEvent (Some "42") (Some "1003"))
                (callEvent (Some "42") (Some "1004")) "42" oneCallSys Hok
                ltac:(discriminate) eq_refl eq_refl) as H.
  cbv zeta in *. destruct H as (Hc & _ & _ & Hg & _).
  split; [exact Hc|]. rewrite Hg. reflexivity.
Defined.

(** ** Alert evaluation *)

Section Alerts.

Lemma alertSets_app l1 l2 :
  alertSets (l1 ++ l2) = (alertSets l1 ++ alertSets l2)%list.
Proof. unfold alertSets. apply flat_map_app. Qed.

(** Inside the window nothing happens at all. *)
Lemma checkAndEmitAlerts_skip now queues agents s :
  now - lastAlertCheck s < 30000 ->
  checkAndEmitAlerts now queues agents s = (Returned tt, s).
Proof.
  intros H. unfold checkAndEmitAlerts, bind, get.
  apply Z.ltb_lt in H. rewrite H. reflexivity.
Qed.

(** Outside the window the rules run, the clock is reset, and the
    alerts found, if any, are sent as one set. *)
Lemma checkAndEmitAlerts_run now queues agents s :
  30000 <= now - lastAlertCheck s ->
  checkAndEmitAlerts now queues agents s =
    (Returned tt,
     match alertsOf now s queues agents with
     | [] => with_lastAlertCheck now s
     | alerts =>
         with_emitted (emitted s ++ [DashboardAlerts alerts])
           (with_lastAlertCheck now s)
     end).
Proof.
  intros H. unfold checkAndEmitAlerts, bind, get, modify, emit.
  apply Z.ltb_ge in H. rewrite H.
  destruct (alertsOf now s queues agents); reflexivity.
Qed.

Lemma checkAndEmitAlerts_clock now queues agents s :
  30000 <= now - lastAlertCheck s ->
  lastAlertCheck (snd (checkAndEmitAlerts now queues agents s)) = now.
Proof.
  intros H. rewrite checkAndEmitAlerts_run by exact H.
  destruct (alertsOf now s queues agents); reflexivity.
Qed.

(** Every alert set of a run is sent at least one window after the
    clock value the run started from. *)
Lemma alertTimes_after invocations :
  forall s,
    Forall (fun t => lastAlertCheck s + 30000 <= t) (alertTimes invocations s).
Proof.
  induction invocations as [|[[now queues] agents] rest IH]; intros s; simpl;
    [constructor|].
  destruct (Z.lt_ge_cases (now - lastAlertCheck s) 30000) as [Hin|Hout].
  - rewrite checkAndEmitAlerts_skip by exact Hin. simpl.
    rewrite Nat.ltb_irrefl. simpl. apply IH.
  - apply Forall_app. split.
    + destruct (Nat.ltb _ _); constructor; [lia|constructor].
    + specialize (IH (snd (checkAndEmitAlerts now queues agents s))).
      rewrite checkAndEmitAlerts_clock in IH by exact Hout.
      eapply List.Forall_impl; [|exact IH]. simpl. intros t Ht. lia.
Qed.

Lemma spaced_cons w a l :
  Forall (fun t => a + w <= t) l -> spaced w l -> spaced w (a :: l).
Proof.
  intros Hall Hl. destruct l as [|b l]; simpl; [exact I|].
  inversion Hall; subst. split; assumption.
Qed.

Lemma alertTimes_spaced invocations :
  forall s, spaced 30000 (alertTimes invocations s).
Proof.
  induction invocations as [|[[now queues] agents] rest IH]; intros s; simpl;
    [exact I|].
  destruct (Nat.ltb _ _) eqn:Hsent; simpl; [|apply IH].
  apply spaced_cons; [|apply IH].
  destruct (Z.lt_ge_cases (now - lastAlertCheck s) 30000) as [Hin|Hout].
  - rewrite checkAndEmitAlerts_skip in Hsent by exact Hin. simpl in Hsent.
    rewrite Nat.ltb_irrefl in Hsent. discriminate.
  - pose proof (alertTimes_after rest
                  (snd (checkAndEmitAlerts now queues agents s))) as H.
    rewrite checkAndEmitAlerts_clock in H by exact Hout. exact H.
Qed.

(** What one queue contributes to the warnings. *)
Lemma warnings_of_queue now queue :
  qu_longestWait queue = 400 -> qu_waitingCalls queue <= 10 ->
  exists alert,
    queueAlerts now queue = [alert]
    /\ al_type alert = "warning"
    /\ al_title alert = "Long Wait Time"
    /\ al_queueId alert = qu_id queue
    /\ al_message alert =
         "Queue " +:+ JS.dquote +:+ qu_name queue +:+ JS.dquote
         +:+ " has calls waiting 6 minutes".
Proof.
  intros Hl Hw. unfold queueAlerts. rewrite Hl.
  assert (Hv : (qu_waitingCalls queue >? 10) = false) by lia.
  rewrite Hv. simpl. eexists. repeat split.
Qed.

Lemma errors_not_warnings now agents s :
  List.filter isWarning (availabilityAlerts now agents ++ connectivityAlerts now s) = [].
Proof.
  unfold availabilityAlerts, connectivityAlerts.
  destruct (_ && _); destruct (_ || _); reflexivity.
Qed.

End Alerts.

(** C3, as stated, fails: the handler starts its alert clock when it is
    constructed, so on a handler built at time 0 two evaluations 5 seconds
    apart, at 1 s and at 6 s, with a queue at longestWait = 400 both
    return at once; the first one sends no warning alert. *)
Lemma first_evaluation_after_construction_is_silent :
  let queue := salesQueue 400 0 in
  let first := checkAndEmitAlerts 1000 [queue] [] liveSys in
  let second := checkAndEmitAlerts 6000 [queue] [] (snd first) in
  qu_longestWait queue = 400
  /\ lastAlertCheck liveSys = 0
  /\ alertSets (emitted (snd first)) = []
  /\ alertSets (emitted (snd second)) = [].
Proof. repeat split. Qed.

(** C3, amended.  Along any run of invocations, at any times and with
    any arguments, the alert sets sent are at least 30 s apart; the
    window is counted from the last evaluation that ran or, before the
    first, from the construction of the handler.  In particular, with a
    queue at longestWait = 400 and at most 10 waiting calls, two
    evaluations 5 seconds apart of which the first falls outside the
    window: the first sends one alert set whose only warning is the
    long-wait alert of that queue, and the second returns at once,
    sending nothing and changing nothing. *)
Theorem alerts_debounced :
  (forall invocations s, spaced 30000 (alertTimes invocations s))
  /\ (forall now queue agents s,
        qu_longestWait queue = 400 ->
        qu_waitingCalls queue <= 10 ->
        30000 <= now - lastAlertCheck s ->
        let first := checkAndEmitAlerts now [queue] agents s in
        let second := checkAndEmitAlerts (now + 5000) [queue] agents (snd first) in
        exists alerts warning,
          first = (Returned tt,
                   with_emitted (emitted s ++ [DashboardAlerts alerts])
                     (with_lastAlertCheck now s))
          /\ List.filter isWarning alerts = [warning]
          /\ al_title warning = "Long Wait Time"
          /\ al_queueId warning = qu_id queue
          /\ second = (Returned tt, snd first)).
Proof.
  split; [intros; apply alertTimes_spaced|].
  intros now queue agents s Hl Hw Hout first second.
  destruct (warnings_of_queue now queue Hl Hw) as (w & Hq & Hty & Hti & Hqi & _).
  assert (Halerts : alertsOf now s [queue] agents
                    = w :: (availabilityAlerts now agents
                            ++ connectivityAlerts now s)%list).
  { unfold alertsOf. simpl. rewrite app_nil_r, Hq. reflexivity. }
  assert (Hfirst : first = (Returned tt,
            with_emitted (emitted s ++ [DashboardAlerts (alertsOf now s [queue] agents)])
              (with_lastAlertCheck now s))).
  { subst first. rewrite checkAndEmitAlerts_run by exact Hout.
    rewrite Halerts. reflexivity. }
  exists (alertsOf now s [queue] agents), w.
  split; [exact Hfirst|]. split.
  { rewrite Halerts. simpl. unfold isWarning at 1. rewrite Hty. simpl.
    rewrite errors_not_warnings. reflexivity. }
  split; [exact Hti|]. split; [exact Hqi|].
  subst second. apply checkAndEmitAlerts_skip.
  rewrite Hfirst. simpl. lia.
Qed.

Lemma alerts_debounced_witness :
  qu_longestWait (salesQueue 400 3) = 400
  /\ qu_waitingCalls (salesQueue 400 3) <= 10
  /\ 30000 <= 40000 - lastAlertCheck liveSys
  /\ map (map al_title)
       (alertSets (emitted (snd (checkAndEmitAlerts 40000 [salesQueue 400 3] [] liveSys))))
     = [["Long Wait Time"]]
  /\ checkAndEmitAlerts 45000 [salesQueue 400 3] []
       (snd (checkAndEmitAlerts 40000 [salesQueue 400 3] [] liveSys))
     = (Returned tt, snd (checkAndEmitAlerts 40000 [salesQueue 400 3] [] liveSys)).
Proof.
  assert (H1 : qu_longestWait (salesQueue 400 3) = 400) by reflexivity.
  assert (H2 : qu_waitingCalls (salesQueue 400 3) <= 10) by (vm_compute; discriminate).
  assert (H3 : 30000 <= 40000 - lastAlertCheck liveSys) by (vm_compute; discriminate).
  split; [exact H1|]. split; [exact H2|]. split; [exact H3|].
  split; [vm_compute; reflexivity|].
  destruct (proj2 alerts_debounced 40000 (salesQueue 400 3) [] liveSys H1 H2 H3)
    as (alerts & w & _ & _ & _ & _ & Hsecond).
  exact Hsecond.
Defined.

(** C7.  Threshold boundary.  In an evaluation that falls outside the
    window, so that the rules run, the alerts found are sent as one set;
    its high-volume alerts are those of the queues taken one by one; a
    queue with waitingCalls = 10 contributes none, and a queue with
    waitingCalls = 11 contributes exactly one, a warning that names the
    queue and the count. *)
Theorem high_volume_threshold :
  forall (now : Z) (queues : list Queue) (agents : list Agent) (s : Sys),
    30000 <= now - lastAlertCheck s ->
    let alerts := alertsOf now s queues agents in
    (alerts <> [] ->
     alertSets (emitted (snd (checkAndEmitAlerts now queues agents s)))
     = (alertSets (emitted s) ++ [alerts])%list)
    /\ List.filter isHighVolume alerts
       = flat_map (fun q => List.filter isHighVolume (queueAlerts now q)) queues
    /\ (forall q, qu_waitingCalls q = 10 ->
                  List.filter isHighVolume (queueAlerts now q) = [])
    /\ (forall q, qu_waitingCalls q = 11 ->
          exists alert,
            List.filter isHighVolume (queueAlerts now q) = [alert]
            /\ al_type alert = "warning"
            /\ al_queueId alert = qu_id q
            /\ al_message alert =
                 "Queue " +:+ JS.dquote +:+ qu_name q +:+ JS.dquote
                 +:+ " has 11 waiting calls").
Proof.
  intros now queues agents s Hout alerts. repeat split.
  - intros Hne. rewrite checkAndEmitAlerts_run by exact Hout.
    fold alerts. destruct alerts as [|a l]; [congruence|]. simpl.
    rewrite alertSets_app. reflexivity.
  - subst alerts. unfold alertsOf. rewrite !List.filter_app.
    assert (He : List.filter isHighVolume (availabilityAlerts now agents) = []).
    { unfold availabilityAlerts. destruct (_ && _); reflexivity. }
    assert (Hc : List.filter isHighVolume (connectivityAlerts now s) = []).
    { unfold connectivityAlerts. destruct (_ || _); reflexivity. }
    rewrite He, Hc, !app_nil_r. clear.
    induction queues as [|q queues IH]; simpl; [reflexivity|].
    rewrite List.filter_app, IH. reflexivity.
  - intros q Hq. unfold queueAlerts. rewrite Hq. simpl.
    destruct (qu_longestWait q >? 300); reflexivity.
  - intros q Hq. unfold queueAlerts. rewrite Hq. simpl.
    destruct (qu_longestWait q >? 300); simpl;
      eexists; (split; [reflexivity|repeat split]).
Qed.

Lemma high_volume_threshold_witness :
  30000 <= 40000 - lastAlertCheck liveSys
  /\ map (map al_title)
       (alertSets (emitted (snd (checkAndEmitAlerts 40000
                                   [salesQueue 0 10; salesQueue 0 11] [] liveSys))))
     = [["High Queue Volume"]].
Proof.
  assert (H : 30000 <= 40000 - lastAlertCheck liveSys) by (vm_compute; discriminate).
  split; [exact H|].
  rewrite (proj1 (high_volume_threshold 40000 [salesQueue 0 10; salesQueue 0 11]
                    [] liveSys H)) by (vm_compute; discriminate).
  vm_compute. reflexivity.
Defined.

(** ** The polling tick *)

Section Tick.

Variable world : World.
Variable now : Z.

Lemma callLists_app l1 l2 :
  callLists (l1 ++ l2) = (callLists l1 ++ callLists l2)%list.
Proof. unfold callLists. apply flat_map_app. Qed.

Lemma queueLists_app l1 l2 :
  queueLists (l1 ++ l2) = (queueLists l1 ++ queueLists l2)%list.
Proof. unfold queueLists. apply flat_map_app. Qed.

(** A tick never takes its [catch] branch: the four reads return, the
    four broadcasts are sent with what was read, then the alerts are
    looked at. *)
Lemma broadcastUpdates_run s :
  exists agents s1 queues s2 calls s3 stats s4,
    getAgents world now s = (Returned agents, s1)
    /\ getQueues world s1 = (Returned queues, s2)
    /\ getActiveCalls world now s2 = (Returned calls, s3)
    /\ getCallCenterStats world now s3 = (Returned stats, s4)
    /\ frame now s s4
    /\ broadcastUpdates world now s
       = checkAndEmitAlerts now queues agents
           (afterBroadcasts now agents queues calls stats s4).
Proof.
  destruct (quiet_run now _ s (quiet_getAgents world now))
    as (agents & s1 & H1 & F1).
  destruct (quiet_run now _ s1 (quiet_getQueues world now))
    as (queues & s2 & H2 & F2).
  destruct (quiet_run now _ s2 (quiet_getActiveCalls world now))
    as (calls & s3 & H3 & F3).
  destruct (quiet_run now _ s3 (quiet_getCallCenterStats world now))
    as (stats & s4 & H4 & F4).
  exists agents, s1, queues, s2, calls, s3, stats, s4.
  repeat (split; [assumption|]).
  split; [eauto using frame_trans|].
  unfold broadcastUpdates, try_catch, bind.
  rewrite H1, H2, H3, H4.
  unfold updateCallDurations, emit, modify. cbn [fst snd].
  unfold afterBroadcasts. cbn [emitted with_emitted with_activeCallsMap].
  rewrite <- !app_assoc. cbn [app].
  destruct (checkAndEmitAlerts now queues agents _) as [[[]|e] s5] eqn:Hc;
    [reflexivity|].
  exfalso. revert Hc. unfold checkAndEmitAlerts, bind, get, modify, emit, ret.
  cbn [lastAlertCheck with_emitted with_activeCallsMap].
  destruct (_ <? _); [discriminate|]. destruct (_ <? _)%nat; discriminate.
Qed.

Lemma checkAndEmitAlerts_keeps queues agents s :
  fst (checkAndEmitAlerts now queues agents s) = Returned tt
  /\ activeCallsMap (snd (checkAndEmitAlerts now queues agents s))
     = activeCallsMap s
  /\ callLists (emitted (snd (checkAndEmitAlerts now queues agents s)))
     = callLists (emitted s)
  /\ queueLists (emitted (snd (checkAndEmitAlerts now queues agents s)))
     = queueLists (emitted s).
Proof.
  destruct (Z.lt_ge_cases (now - lastAlertCheck s) 30000) as [Hin|Hout].
  - rewrite checkAndEmitAlerts_skip by exact Hin. auto.
  - rewrite checkAndEmitAlerts_run by exact Hout.
    destruct (alertsOf now s queues agents); cbn; auto.
    rewrite callLists_app, queueLists_app. cbn. rewrite !app_nil_r. auto.
Qed.

End Tick.

(** ** Every state the server reaches has a well-formed registry *)

Section Reachable.

Variable world : World.

Lemma quiet_ok now {A} (c : M A) s :
  quiet now c -> Registry.ok (activeCallsMap s) ->
  Registry.ok (activeCallsMap (snd (c s))).
Proof.
  intros Hq Hok. destruct (Hq s) as [Hf _].
  eapply touched_ok; [apply Hf|exact Hok].
Qed.

Lemma broadcastUpdates_ok now s :
  Registry.ok (activeCallsMap s) ->
  Registry.ok (activeCallsMap (snd (broadcastUpdates world now s))).
Proof.
  intros Hok.
  destruct (broadcastUpdates_run world now s)
    as (agents & s1 & queues & s2 & calls & s3 & stats & s4
        & _ & _ & _ & _ & F & Hrun).
  rewrite Hrun.
  destruct (checkAndEmitAlerts_keeps now queues agents
              (afterBroadcasts now agents queues calls stats s4))
    as (_ & Hm & _).
  rewrite Hm. unfold afterBroadcasts.
  cbn [activeCallsMap with_emitted with_activeCallsMap].
  eapply touched_ok; [apply touched_update_all|].
  eapply touched_ok; [apply F|exact Hok].
Qed.

Lemma postConnectorEvent_ok now event s :
  Registry.ok (activeCallsMap s) ->
  Registry.ok (activeCallsMap (snd (postConnectorEvent world now event s))).
Proof.
  intros Hok. unfold postConnectorEvent, try_catch, bind.
  destruct event as [[cd|]|[cd|]|[d|]|t]; try exact Hok.
  - pose proof (handleCallStarted_ok world now cd s Hok) as H.
    destruct (handleCallStarted_run world now cd s) as (s' & tl & Hrun & _).
    rewrite Hrun in *. exact H.
  - pose proof (handleCallEnded_ok world now (Some cd) s Hok) as H.
    destruct (handleCallEnded world now (Some cd) s) as [[[]|e] s']; exact H.
Qed.

Lemma reachable_ok s : reachable world s -> Registry.ok (activeCallsMap s).
Proof.
  induction 1 as [now endpoint|now event s _ IH|now s _ IH|now s _ IH
                  |s _ IH|now s _ IH|now s _ IH|now s _ IH|now s _ IH].
  - apply ok_nil.
  - apply postConnectorEvent_ok, IH.
  - unfold startPolling, bind, get. simpl.
    destruct (pollingInterval s); [exact IH|].
    apply (broadcastUpdates_ok now (with_pollingInterval true s)), IH.
  - apply broadcastUpdates_ok, IH.
  - unfold stopPolling, bind, get. simpl.
    destruct (pollingInterval s); exact IH.
  - apply (quiet_ok now), IH. apply quiet_getAgents.
  - apply (quiet_ok now), IH. apply quiet_apiQueues.
  - apply (quiet_ok now), IH. apply quiet_getActiveCalls.
  - apply (quiet_ok now), IH. apply quiet_getCallCenterStats.
Qed.

End Reachable.

(** C1, as stated, fails.  The connector lists the call [42] with a
    duration of 5 seconds while the registry has tracked it since time 0;
    on the tick at 100 s the registry entry is refreshed to 100 seconds,
    yet the call broadcast on [dashboard:calls] still carries 5. *)
Lemma tick_does_not_merge_durations :
  let s' := snd (broadcastUpdates liveWorld 100000 trackedSys) in
  option_map ci_duration (Registry.get "42" (activeCallsMap s')) = Some 100
  /\ map (map (fun c => (ca_id c, ca_duration c))) (callLists (emitted s'))
     = [[(Some "42", 5)]]
  /\ forall calls, In calls (callLists (emitted s')) ->
                   ~ durations_merged (activeCallsMap s') calls.
Proof.
  cbv zeta. split; [vm_compute; reflexivity|]. split; [vm_compute; reflexivity|].
  intros calls Hin Hmerged.
  assert (Hc : callLists (emitted (snd (broadcastUpdates liveWorld 100000 trackedSys)))
               = [[mapCall 100000 (callDTO "42" "2001" 5)]])
    by (vm_compute; reflexivity).
  rewrite Hc in Hin. destruct Hin as [<-|[]].
  specialize (Hmerged (mapCall 100000 (callDTO "42" "2001" 5))
                (refresh 100000 (callInfoOf 0 (callEvent (Some "42") (Some "2001"))))
                (or_introl eq_refl) eq_refl).
  assert (Hg : Registry.get "42"
                 (activeCallsMap (snd (broadcastUpdates liveWorld 100000 trackedSys)))
               = Some (refresh 100000
                         (callInfoOf 0 (callEvent (Some "42") (Some "2001")))))
    by (vm_compute; reflexivity).
  specialize (Hmerged Hg). vm_compute in Hmerged. discriminate.
Qed.

(** C1, amended.  On every polling tick the four reads return, and
    before anything is broadcast the duration of every registry entry is
    recomputed as [floor((now - startTime) / 1000)]; the call list then
    broadcast on [dashboard:calls] is the fetched list itself, so every
    fetched call, whether or not its identifier is in the registry, keeps
    all its snapshot values, the duration included. *)
Theorem tick_broadcasts_fetched_calls :
  forall (world : World) (now : Z) (s : Sys),
  exists agents s1 queues s2 calls s3,
    getAgents world now s = (Returned agents, s1)
    /\ getQueues world s1 = (Returned queues, s2)
    /\ getActiveCalls world now s2 = (Returned calls, s3)
    /\ fst (broadcastUpdates world now s) = Returned tt
    /\ callLists (emitted (snd (broadcastUpdates world now s)))
       = (callLists (emitted s) ++ [calls])%list
    /\ activeCallsMap (snd (broadcastUpdates world now s))
       = Registry.update_all (refresh now) (activeCallsMap s).
Proof.
  intros world now s.
  destruct (broadcastUpdates_run world now s)
    as (agents & s1 & queues & s2 & calls & s3 & stats & s4
        & H1 & H2 & H3 & H4 & F & Hrun).
  exists agents, s1, queues, s2, calls, s3.
  repeat (split; [assumption|]).
  rewrite Hrun.
  destruct (checkAndEmitAlerts_keeps now queues agents
              (afterBroadcasts now agents queues calls stats s4))
    as (Hr & Hm & Hc & _).
  rewrite Hr, Hm, Hc. split; [reflexivity|]. split.
  - unfold afterBroadcasts. cbn [emitted with_emitted].
    rewrite callLists_app, (fr_emitted _ _ _ F). reflexivity.
  - unfold afterBroadcasts. cbn [activeCallsMap with_emitted with_activeCallsMap].
    apply touched_refresh_all, F.
Qed.

(** ** The synthetic data *)

Section Synthetic.

Lemma floor_scaled_range r n :
  (0 <= r)%Q -> (r < 1)%Q -> 0 < n -> 0 <= JS.floor_scaled r n < n.
Proof.
  intros H0 H1 Hn. unfold JS.floor_scaled.
  assert (Hnq : (inject_Z 0 < inject_Z n)%Q) by (rewrite <- Zlt_Qlt; exact Hn).
  split.
  - rewrite <- (Qfloor_Z 0). apply Qfloor_resp_le.
    apply Qmult_le_0_compat; [exact H0|]. apply Qlt_le_weak, Hnq.
  - rewrite Zlt_Qlt.
    eapply Qle_lt_trans; [apply Qfloor_le|].
    apply Qlt_le_trans with (1 * inject_Z n)%Q.
    + apply Qmult_lt_compat_r; assumption.
    + rewrite Qmult_1_l. apply Qle_refl.
Qed.

Lemma pick_in arr r :
  arr <> [] -> (0 <= r)%Q -> (r < 1)%Q -> In (JS.pick arr r) arr.
Proof.
  intros Hne H0 H1. unfold JS.pick. apply nth_In.
  assert (Hlen : 0 < Z.of_nat (length arr)) by (destruct arr; [congruence|simpl; lia]).
  pose proof (floor_scaled_range r _ H0 H1 Hlen). lia.
Qed.

Lemma mapM_i_each {A B C} (f : Z -> A -> M B) (h : B -> C) (g : Z -> A -> C)
    (P : B -> Prop) :
  (forall i x s, exists b s', f i x s = (Returned b, s') /\ h b = g i x /\ P b) ->
  forall l i s,
    exists bs s',
      mapM_i f i l s = (Returned bs, s')
      /\ map h bs = imapZ g i l /\ Forall P bs.
Proof.
  intros Hf. induction l as [|x l IH]; intros i s; simpl.
  - exists [], s. repeat split. constructor.
  - destruct (Hf i x s) as (b & s1 & Hb & Hh & HP).
    destruct (IH (i + 1) s1) as (bs & s2 & Hbs & Hm & HF).
    exists (b :: bs), s2. unfold bind. rewrite Hb, Hbs. simpl.
    repeat split; [congruence|constructor; assumption].
Qed.

Variable world : World.
Hypothesis draws : random_ok world.

Lemma mockAgent_fixed t i name s :
  exists a s',
    mockAgent world t i name s = (Returned a, s')
    /\ agentIdentity a = rosterEntry i name
    /\ In (ag_status a) statuses.
Proof.
  assert (Hin : In (JS.pick statuses (random world (rpos s))) statuses).
  { apply pick_in; [discriminate| |]; apply draws. }
  cbv [mockAgent bind ret Math_random].
  destruct (String.eqb (JS.pick statuses (random world (rpos s))) "busy");
    [destruct (JS.gt _ _)|]; eexists; eexists;
    (split; [reflexivity|split; [reflexivity|exact Hin]]).
Qed.

Lemma getMockAgents_fixed t s :
  exists agents s',
    getMockAgents world t s = (Returned agents, s')
    /\ map agentIdentity agents = imapZ rosterEntry 0 names
    /\ Forall (fun a => In (ag_status a) statuses) agents.
Proof.
  unfold getMockAgents. apply mapM_i_each. intros i x s0.
  apply mockAgent_fixed.
Qed.

Lemma mockCalls_loop_length t n :
  forall i s,
    exists calls s',
      mockCalls_loop world t n i s = (Returned calls, s')
      /\ length calls = n.
Proof.
  induction n as [|n IH]; intros i s; simpl.
  - exists [], s. split; reflexivity.
  - destruct (quiet_run t _ s (quiet_mockCall world t t i)) as (c & s1 & Hc & _).
    destruct (IH (i + 1) s1) as (cs & s2 & Hcs & Hlen).
    exists (c :: cs), s2. unfold bind. rewrite Hc, Hcs. simpl.
    split; [reflexivity|congruence].
Qed.

Lemma getMockCalls_length t s :
  exists calls s',
    getMockCalls world t s = (Returned calls, s')
    /\ (2 <= length calls <= 9)%nat.
Proof.
  pose proof (floor_scaled_range (random world (rpos s)) 8
                (proj1 (draws _)) (proj2 (draws _)) ltac:(lia)) as Hr.
  cbv [getMockCalls bind Math_random].
  match goal with |- context [mockCalls_loop world t ?n ?i ?s0] =>
    destruct (mockCalls_loop_length t n i s0) as (calls & s' & Hrun & Hlen)
  end.
  exists calls, s'. split; [exact Hrun|]. rewrite Hlen. lia.
Qed.

End Synthetic.

Lemma mockQueue_fixed w id name ext b1 b2 b3 t a ab sl n na no st to re s :
  exists q s',
    mockQueue w id name ext b1 b2 b3 t a ab sl n na no st to re s
    = (Returned q, s')
    /\ queueIdentity q
       = (Some id, name, JS.Str ext, (t, a, ab), sl, (n, na, no), "open", st,
          (to, re))
    /\ qu_name q = name.
Proof.
  cbv [mockQueue bind ret Math_random]. do 2 eexists.
  split; [reflexivity|]. split; reflexivity.
Qed.

(** Run the next [mockQueue] of the goal. *)
Ltac run_mockQueue :=
  match goal with
  | |- context [mockQueue ?w ?id ?name ?ext ?b1 ?b2 ?b3 ?t ?a ?ab ?sl ?n ?na
                  ?no ?st ?to ?re ?s] =>
      let q := fresh "q" in
      let s' := fresh "s" in
      let Hrun := fresh "Hrun" in
      let Hid := fresh "Hid" in
      let Hname := fresh "Hname" in
      destruct (mockQueue_fixed w id name ext b1 b2 b3 t a ab sl n na no st
                  to re s) as (q & s' & Hrun & Hid & Hname);
      rewrite Hrun; clear Hrun; cbv beta iota
  end.

Lemma getMockQueues_fixed w1 w2 s1 s2 :
  exists queues1 s1' queues2 s2',
    getMockQueues w1 s1 = (Returned queues1, s1')
    /\ getMockQueues w2 s2 = (Returned queues2, s2')
    /\ map queueIdentity queues1 = map queueIdentity queues2
    /\ map qu_name queues1 = departments.
Proof.
  unfold getMockQueues, bind. do 8 run_mockQueue. unfold ret.
  do 4 eexists. split; [reflexivity|]. split; [reflexivity|].
  simpl. split; [congruence|]. unfold departments. congruence.
Qed.

Lemma downWorld_ok : random_ok downWorld.
Proof. intros i. split; [discriminate|reflexivity]. Qed.

Lemma cyclingWorld_ok : random_ok cyclingWorld.
Proof.
  intros i. simpl. unfold Qle, Qlt. simpl.
  pose proof (Nat.mod_upper_bound i 10 ltac:(discriminate)). lia.
Qed.

(** C4, as stated, fails.  Two invocations of the fallback path in a row,
    on the same deployment and at the same clock time, return different
    agent rosters and different call lists, because every invocation
    takes fresh draws from [Math.random()]; and the statuses are drawn,
    not cycled: when every draw is 0 all twelve agents are "available". *)
Lemma fallback_is_not_deterministic :
  let agents1 := getMockAgents cyclingWorld 1000 demoSys in
  let agents2 := getMockAgents cyclingWorld 1000 (snd agents1) in
  let calls1 := getMockCalls cyclingWorld 1000 demoSys in
  let calls2 := getMockCalls cyclingWorld 1000 (snd calls1) in
  fst agents1 <> fst agents2
  /\ fst calls1 <> fst calls2
  /\ (exists l, fst (getMockAgents downWorld 1000 demoSys) = Returned l
                /\ map ag_status l = repeat "available" 12).
Proof.
  cbv zeta. split; [|split].
  - vm_compute. discriminate.
  - vm_compute. discriminate.
  - eexists. split; vm_compute; reflexivity.
Qed.

(** C4, amended.  The synthetic fallback has a fixed part and a drawn
    part.  For any two invocations, whatever the draws and the clock:
    both return; the agent rosters agree on the fixed part of each of the
    twelve entries (id, name, e-mail, extension, department cycling
    through the four queues, device and channel state) and every status
    is one of the four canonical ones, drawn and not cycled; the queue
    lists are the same four queues with the same static figures; and each
    call list has between 2 and 9 entries.  Statuses, current calls, the
    queues' waiting figures and the calls themselves come from the
    draws. *)
Theorem fallback_fixed_part_is_deterministic :
  forall (w1 w2 : World) (t1 t2 : Z) (s1 s2 : Sys),
    random_ok w1 -> random_ok w2 ->
    exists agents1 agents2 queues1 queues2 calls1 calls2,
      fst (getMockAgents w1 t1 s1) = Returned agents1
      /\ fst (getMockAgents w2 t2 s2) = Returned agents2
      /\ fst (getMockQueues w1 s1) = Returned queues1
      /\ fst (getMockQueues w2 s2) = Returned queues2
      /\ fst (getMockCalls w1 t1 s1) = Returned calls1
      /\ fst (getMockCalls w2 t2 s2) = Returned calls2
      /\ map agentIdentity agents1 = imapZ rosterEntry 0 names
      /\ map agentIdentity agents2 = map agentIdentity agents1
      /\ Forall (fun a => In (ag_status a) statuses) agents1
      /\ Forall (fun a => In (ag_status a) statuses) agents2
      /\ map queueIdentity queues1 = map queueIdentity queues2
      /\ map qu_name queues1 = departments
      /\ (2 <= length calls1 <= 9)%nat
      /\ (2 <= length calls2 <= 9)%nat.
Proof.
  intros w1 w2 t1 t2 s1 s2 Hw1 Hw2.
  destruct (getMockAgents_fixed w1 Hw1 t1 s1) as (a1 & sa1 & Ha1 & Hi1 & Hs1).
  destruct (getMockAgents_fixed w2 Hw2 t2 s2) as (a2 & sa2 & Ha2 & Hi2 & Hs2).
  destruct (getMockQueues_fixed w1 w2 s1 s2)
    as (q1 & sq1 & q2 & sq2 & Hq1 & Hq2 & Hqi & Hqn).
  destruct (getMockCalls_length w1 Hw1 t1 s1) as (c1 & sc1 & Hc1 & Hl1).
  destruct (getMockCalls_length w2 Hw2 t2 s2) as (c2 & sc2 & Hc2 & Hl2).
  exists a1, a2, q1, q2, c1, c2.
  rewrite Ha1, Ha2, Hq1, Hq2, Hc1, Hc2. simpl.
  repeat (split; [solve [reflexivity | assumption | congruence]|]).
  assumption.
Qed.

Lemma fallback_fixed_part_witness :
  random_ok downWorld /\ random_ok cyclingWorld
  /\ exists agents1 agents2,
       fst (getMockAgents downWorld 1000 demoSys) = Returned agents1
       /\ fst (getMockAgents cyclingWorld 2000 demoSys) = Returned agents2
       /\ map agentIdentity agents2 = map agentIdentity agents1.
Proof.
  split; [exact downWorld_ok|]. split; [exact cyclingWorld_ok|].
  destruct (fallback_fixed_part_is_deterministic downWorld cyclingWorld
              1000 2000 demoSys demoSys downWorld_ok cyclingWorld_ok)
    as (a1 & a2 & q1 & q2 & c1 & c2 & H1 & H2 & _ & _ & _ & _ & _ & H & _).
  exists a1, a2. split; [exact H1|]. split; [exact H2|exact H].
Defined.

(** ** Empty listings *)

(** C2, as stated, fails for the calls.  With a real endpoint and a
    connector that answers every listing with an empty array,
    [getActiveCalls] returns the empty list, not the synthetic calls,
    which are not empty; [getAgents] on the same connector returns the
    twelve synthetic agents. *)
Lemma empty_call_listing_is_returned :
  useMockData liveSys = false
  /\ callsApi emptyWorld (cpos liveSys) = Resolved (Some [])
  /\ fst (getActiveCalls emptyWorld 1000 liveSys) = Returned []
  /\ (exists calls,
         fst (getMockCalls emptyWorld 1000 (askedCalls liveSys)) = Returned calls
         /\ length calls = 2%nat)
  /\ (exists agents,
         fst (getAgents emptyWorld 1000 liveSys) = Returned agents
         /\ length agents = 12%nat).
Proof.
  split; [reflexivity|]. split; [reflexivity|]. split; [reflexivity|].
  split; eexists; split; vm_compute; reflexivity.
Qed.

(** C2, amended.  With a real endpoint, an empty successful listing is
    replaced by the synthetic data for agents and for queues, exactly as a
    rejected request is; for calls the rejected request is replaced as
    well, but the empty listing is returned as it is: [getActiveCalls]
    has no test of the length, and no active call is what an idle
    system has.  No fetch throws. *)
Theorem empty_listings :
  forall (world : World) (now : Z) (s : Sys),
    useMockData s = false ->
    (agentsApi world (apos s) = Resolved (Some []) ->
     getAgents world now s
     = getMockAgents world now (askedAgents s))
    /\ (queuesApi world (qpos s) = Resolved (Some []) ->
        getQueues world s
        = getMockQueues world (askedQueues s))
    /\ (callsApi world (cpos s) = Rejected ->
        getActiveCalls world now s
        = getMockCalls world now (askedCalls s))
    /\ (callsApi world (cpos s) = Resolved (Some []) ->
        getActiveCalls world now s
        = (Returned [], askedCalls s)).
Proof.
  intros world now s Hreal. repeat split; intros Hreply.
  - unfold getAgents, bind, get, try_catch, client_get_agents.
    rewrite Hreal, Hreply. cbn [default from_option id length Nat.eqb].
    destruct (quiet_run now _ (askedAgents s) (quiet_getMockAgents world now now))
      as (a & s' & Hrun & _).
    rewrite Hrun. reflexivity.
  - unfold getQueues, bind, get, try_catch, client_get_queues.
    rewrite Hreal, Hreply. cbn [default from_option id length Nat.eqb].
    destruct (quiet_run now _ (askedQueues s) (quiet_getMockQueues world now))
      as (a & s' & Hrun & _).
    rewrite Hrun. reflexivity.
  - unfold getActiveCalls, bind, get, try_catch, client_get_calls.
    rewrite Hreal, Hreply. reflexivity.
  - unfold getActiveCalls, bind, get, try_catch, client_get_calls.
    rewrite Hreal, Hreply. reflexivity.
Qed.

Lemma empty_listings_witness :
  useMockData liveSys = false
  /\ callsApi emptyWorld (cpos liveSys) = Resolved (Some [])
  /\ fst (getActiveCalls emptyWorld 1000 liveSys) = Returned []
  /\ (exists agents, fst (getAgents emptyWorld 1000 liveSys) = Returned agents
                     /\ length agents = 12%nat).
Proof.
  assert (H : useMockData liveSys = false) by reflexivity.
  split; [exact H|]. split; [reflexivity|].
  destruct (empty_listings emptyWorld 1000 liveSys H) as (Ha & _ & _ & Hc).
  rewrite (Hc eq_refl), (Ha eq_refl). split; [reflexivity|].
  eexists. split; vm_compute; reflexivity.
Defined.

(** ** Queue counts on the tick *)

(** C5.  On every tick the queue list broadcast on [dashboard:queues] is
    the one [getQueues] returned to [broadcastUpdates]; the recount of
    [getCallCenterStats] works on a list of its own and reaches neither
    the broadcast queues nor the statistics.  With one available agent in
    queue [q1] and the connector listing [q1] with zero agent counts, the
    tick broadcasts [q1] with agents = 0 and agentsAvailable = 0, while
    [GET /api/queues] answers 1 and 1 from the same data. *)
Theorem tick_broadcasts_queues_without_recount :
  (forall (world : World) (now : Z) (s : Sys),
     exists agents s1 queues s2,
       getAgents world now s = (Returned agents, s1)
       /\ getQueues world s1 = (Returned queues, s2)
       /\ queueLists (emitted (snd (broadcastUpdates world now s)))
          = (queueLists (emitted s) ++ [queues])%list)
  /\ map (map (fun q => (qu_id q, qu_agents q, qu_agentsAvailable q)))
       (queueLists (emitted (snd (broadcastUpdates liveWorld 100000 liveSys))))
     = [[(Some "q1", 0, 0)]]
  /\ (exists queues,
        fst (apiQueues liveWorld 100000 liveSys) = Returned queues
        /\ map (fun q => (qu_id q, qu_agents q, qu_agentsAvailable q)) queues
           = [(Some "q1", 1, 1)]).
Proof.
  split; [|split].
  - intros world now s.
    destruct (broadcastUpdates_run world now s)
      as (agents & s1 & queues & s2 & calls & s3 & stats & s4
          & H1 & H2 & H3 & H4 & F & Hrun).
    exists agents, s1, queues, s2. repeat (split; [assumption|]).
    rewrite Hrun.
    destruct (checkAndEmitAlerts_keeps now queues agents
                (afterBroadcasts now agents queues calls stats s4))
      as (_ & _ & _ & Hq).
    rewrite Hq. unfold afterBroadcasts. cbn [emitted with_emitted].
    rewrite queueLists_app, (fr_emitted _ _ _ F). reflexivity.
  - vm_compute. reflexivity.
  - eexists. split; vm_compute; reflexivity.
Qed.

(** ** Aggregated statistics *)

(** C10.  The summary that [getCallCenterStats] computes, on an empty
    queue list.  For every queue list the average wait is a finite
    number, the sum of the queues' average waits divided by the number
    of queues, or by 1 when there is none; the longest wait is the
    maximum of the queues' longest waits and 0, so it is not negative
    and not below any queue's.  With no queue at all the average is 0,
    where the sum divided by the number of queues would be [0 / 0],
    which is [NaN]; the longest wait is 0 and the number of queues 0. *)
Theorem stats_total_on_empty_queue_list :
  forall (now : Z) (agents : list Agent) (calls : list Call),
    (forall queues,
       let n := Z.of_nat (length queues) in
       st_averageWaitTime (stats_queues (statsOf now agents queues calls))
       = JS.Finite (inject_Z (sumOf qu_averageWait queues)
                    / inject_Z (if n =? 0 then 1 else n))
       /\ 0 <= st_longestWaitTime (stats_queues (statsOf now agents queues calls))
       /\ Forall (fun q => qu_longestWait q
                           <= st_longestWaitTime
                                (stats_queues (statsOf now agents queues calls)))
            queues)
    /\ st_averageWaitTime (stats_queues (statsOf now agents [] calls))
       = JS.Finite 0
    /\ JS.div (sumOf qu_averageWait []) (Z.of_nat (length (@nil Queue)))
       = JS.NaN
    /\ st_longestWaitTime (stats_queues (statsOf now agents [] calls)) = 0
    /\ st_queues (stats_queues (statsOf now agents [] calls)) = 0.
Proof.
  intros now agents calls. split; [|repeat split].
  intros queues n. split.
  - unfold statsOf. cbn [stats_queues st_averageWaitTime]. fold n.
    unfold JS.or_num, JS.div.
    destruct (n =? 0) eqn:Hc; [reflexivity|]. rewrite Hc. reflexivity.
  - simpl. unfold JS.max_with_zero.
    induction queues as [|q queues IH]; simpl; [split; [lia|constructor]|].
    assert (IH' := IH). clear IH. destruct IH' as [Hpos Hall]. split; [lia|].
    constructor; [lia|].
    eapply List.Forall_impl; [|exact Hall]. simpl. intros x Hx. lia.
Qed.

(** * Further properties *)

(** ** Parts of the state that operations leave alone *)

Section Keeps.

Context {B : Type} (proj : Sys -> B).

Lemma keeps_ret {A} (a : A) : keeps proj (ret a).
Proof. intros s. reflexivity. Qed.

Lemma keeps_throw {A} msg : keeps proj (@throw A msg).
Proof. intros s. reflexivity. Qed.

Lemma keeps_get : keeps proj get.
Proof. intros s. reflexivity. Qed.

Lemma keeps_bind {A C} (c : M A) (k : A -> M C) :
  keeps proj c -> (forall a, keeps proj (k a)) -> keeps proj (bind c k).
Proof.
  intros Hc Hk s. unfold bind. specialize (Hc s).
  destruct (c s) as [[a|e] s1]; simpl in *; [|exact Hc].
  rewrite (Hk a s1). exact Hc.
Qed.

Lemma keeps_try_catch {A} (c : M A) (h : string -> M A) :
  keeps proj c -> (forall e, keeps proj (h e)) -> keeps proj (try_catch c h).
Proof.
  intros Hc Hh s. unfold try_catch. specialize (Hc s).
  destruct (c s) as [[a|e] s1]; simpl in *; [exact Hc|].
  rewrite (Hh e s1). exact Hc.
Qed.

Lemma keeps_modify f : (forall s, proj (f s) = proj s) -> keeps proj (modify f).
Proof. intros H s. apply H. Qed.

Lemma keeps_mapM {A C} (f : A -> M C) l :
  (forall x, keeps proj (f x)) -> keeps proj (mapM f l).
Proof.
  intros Hf. induction l as [|x l IH]; simpl; [apply keeps_ret|].
  apply keeps_bind; [apply Hf|]. intros y.
  apply keeps_bind; [exact IH|]. intros ys. apply keeps_ret.
Qed.

Lemma keeps_mapM_i {A C} (f : Z -> A -> M C) l :
  (forall i x, keeps proj (f i x)) -> forall i, keeps proj (mapM_i f i l).
Proof.
  intros Hf. induction l as [|x l IH]; intros i; simpl; [apply keeps_ret|].
  apply keeps_bind; [apply Hf|]. intros y.
  apply keeps_bind; [apply IH|]. intros ys. apply keeps_ret.
Qed.

(** What a projection may be blind to. *)
Hypothesis blind_draws : forall s, proj (drawn s) = proj s.
Hypothesis blind_registry : forall m s, proj (with_activeCallsMap m s) = proj s.
Hypothesis blind_log : forall l s, proj (with_emitted l s) = proj s.
Hypothesis blind_clock : forall t s, proj (with_lastAlertCheck t s) = proj s.

Lemma keeps_emit e : keeps proj (emit e).
Proof. intros s. apply blind_log. Qed.

Variable world : World.

Lemma keeps_Math_random : keeps proj (Math_random world).
Proof. intros s. apply blind_draws. Qed.

Lemma keeps_getActiveCallForUser now userId :
  keeps proj (getActiveCallForUser now userId).
Proof.
  intros s. unfold getActiveCallForUser.
  destruct (Registry.first _ _) as [[k c]|]; simpl; auto.
Qed.

End Keeps.

(** One step of a proof that a computation keeps a projection. *)
Ltac keeps_step :=
  match goal with
  | |- keeps _ (let _ := _ in _) => cbv zeta
  | |- keeps _ (bind _ _) => apply keeps_bind; [|intros ?]
  | |- keeps _ (try_catch _ _) => apply keeps_try_catch; [|intros ?]
  | |- keeps _ (ret _) => apply keeps_ret
  | |- keeps _ (throw _) => apply keeps_throw
  | |- keeps _ get => apply keeps_get
  | |- keeps _ (emit _) => apply keeps_emit; assumption
  | |- keeps _ (modify _) => apply keeps_modify; intros ?; auto
  | |- keeps _ (Math_random _) => apply keeps_Math_random; assumption
  | |- keeps _ (getActiveCallForUser _ _) =>
      apply keeps_getActiveCallForUser; assumption
  | |- keeps _ (mapM _ _) => apply keeps_mapM; intros ?
  | |- keeps _ (mapM_i _ _ _) => apply keeps_mapM_i; intros ? ?
  | |- keeps _ (if ?b then _ else _) => destruct b
  | |- keeps _ (match ?x with _ => _ end) => destruct x
  end.

Section KeepsMore.

Context {B : Type} (proj : Sys -> B).
Hypothesis blind_draws : forall s, proj (drawn s) = proj s.
Hypothesis blind_registry : forall m s, proj (with_activeCallsMap m s) = proj s.
Hypothesis blind_log : forall l s, proj (with_emitted l s) = proj s.
Hypothesis blind_clock : forall t s, proj (with_lastAlertCheck t s) = proj s.
Variable world : World.

Lemma keeps_getMockAgents t : keeps proj (getMockAgents world t).
Proof. unfold getMockAgents, mockAgent. repeat keeps_step. Qed.

Lemma keeps_getMockQueues : keeps proj (getMockQueues world).
Proof. unfold getMockQueues, mockQueue. repeat keeps_step. Qed.

Lemma keeps_mockCalls_loop t n : forall i, keeps proj (mockCalls_loop world t n i).
Proof.
  induction n as [|n IH]; intros i; simpl; [apply keeps_ret|].
  apply keeps_bind; [unfold mockCall; repeat keeps_step|]. intros c.
  apply keeps_bind; [apply IH|]. intros cs. apply keeps_ret.
Qed.

Lemma keeps_getMockCalls t : keeps proj (getMockCalls world t).
Proof.
  unfold getMockCalls. apply keeps_bind; [keeps_step|]. intros r.
  apply keeps_mockCalls_loop.
Qed.

Lemma keeps_mapAgent now agent : keeps proj (mapAgent now agent).
Proof. unfold mapAgent. repeat keeps_step. Qed.

Lemma keeps_checkAndEmitAlerts now queues agents :
  keeps proj (checkAndEmitAlerts now queues agents).
Proof. unfold checkAndEmitAlerts. repeat keeps_step. Qed.

Lemma keeps_updateCallDurations now : keeps proj (updateCallDurations now).
Proof. unfold updateCallDurations. keeps_step. Qed.

(** With the requests too out of sight, everything the server does. *)
Hypothesis blind_requests :
  forall s, proj (askedAgents s) = proj s
            /\ proj (askedQueues s) = proj s
            /\ proj (askedCalls s) = proj s.

Lemma keeps_client_get_agents : keeps proj (client_get_agents world).
Proof.
  intros s. unfold client_get_agents.
  destruct (agentsApi world (apos s)); apply blind_requests.
Qed.

Lemma keeps_client_get_queues : keeps proj (client_get_queues world).
Proof.
  intros s. unfold client_get_queues.
  destruct (queuesApi world (qpos s)); apply blind_requests.
Qed.

Lemma keeps_client_get_calls : keeps proj (client_get_calls world).
Proof.
  intros s. unfold client_get_calls.
  destruct (callsApi world (cpos s)); apply blind_requests.
Qed.

Lemma keeps_getAgents now : keeps proj (getAgents world now).
Proof.
  unfold getAgents. apply keeps_bind; [apply keeps_get|]. intros s0.
  destruct (useMockData s0); [apply keeps_getMockAgents|].
  apply keeps_try_catch; [|intros e; apply keeps_getMockAgents].
  apply keeps_bind; [apply keeps_client_get_agents|]. intros data. cbv zeta.
  destruct (Nat.eqb _ _); [apply keeps_getMockAgents|].
  apply keeps_mapM. intros x. apply keeps_mapAgent.
Qed.

Lemma keeps_getQueues : keeps proj (getQueues world).
Proof.
  unfold getQueues. apply keeps_bind; [apply keeps_get|]. intros s0.
  destruct (useMockData s0); [apply keeps_getMockQueues|].
  apply keeps_try_catch; [|intros e; apply keeps_getMockQueues].
  apply keeps_bind; [apply keeps_client_get_queues|]. intros data. cbv zeta.
  destruct (Nat.eqb _ _); [apply keeps_getMockQueues|apply keeps_ret].
Qed.

Lemma keeps_getActiveCalls now : keeps proj (getActiveCalls world now).
Proof.
  unfold getActiveCalls. apply keeps_bind; [apply keeps_get|]. intros s0.
  destruct (useMockData s0); [apply keeps_getMockCalls|].
  apply keeps_try_catch; [|intros e; apply keeps_getMockCalls].
  apply keeps_bind; [apply keeps_client_get_calls|]. intros data.
  apply keeps_ret.
Qed.

Lemma keeps_getCallCenterStats now : keeps proj (getCallCenterStats world now).
Proof.
  unfold getCallCenterStats.
  apply keeps_bind; [apply keeps_getAgents|]. intros agents.
  apply keeps_bind; [apply keeps_getQueues|]. intros queues.
  apply keeps_bind; [apply keeps_getActiveCalls|]. intros calls.
  apply keeps_ret.
Qed.

Lemma keeps_apiQueues now : keeps proj (apiQueues world now).
Proof.
  unfold apiQueues.
  apply keeps_bind; [apply keeps_getAgents|]. intros agents.
  apply keeps_bind; [apply keeps_getQueues|]. intros queues.
  apply keeps_ret.
Qed.

Lemma keeps_broadcastCallUpdate now ext :
  keeps proj (broadcastCallUpdate world now ext).
Proof.
  unfold broadcastCallUpdate.
  apply keeps_try_catch; [|intros e; apply keeps_ret].
  apply keeps_bind; [apply keeps_getAgents|]. intros agents.
  destruct (List.find _ agents); [apply keeps_emit; assumption|apply keeps_ret].
Qed.

Lemma keeps_handleCallStarted now payload :
  keeps proj (handleCallStarted world now payload).
Proof.
  unfold handleCallStarted. destruct payload as [cd|]; [|apply keeps_throw].
  cbv zeta. apply keeps_bind; [keeps_step|]. intros _.
  apply keeps_bind; [keeps_step|]. intros _.
  destruct (JS.truthy _); [apply keeps_broadcastCallUpdate|apply keeps_ret].
Qed.

Lemma keeps_handleCallEnded now payload :
  keeps proj (handleCallEnded world now payload).
Proof.
  unfold handleCallEnded. destruct payload as [cd|]; [|apply keeps_throw].
  apply keeps_bind; [apply keeps_get|]. intros s0.
  destruct (Registry.first _ _) as [[k c]|]; [|apply keeps_ret].
  apply keeps_bind; [keeps_step|]. intros _. cbv zeta.
  apply keeps_bind; [keeps_step|]. intros _.
  destruct (JS.truthy _); [apply keeps_broadcastCallUpdate|apply keeps_ret].
Qed.

Lemma keeps_postConnectorEvent now event :
  keeps proj (postConnectorEvent world now event).
Proof.
  unfold postConnectorEvent.
  apply keeps_try_catch; [|intros e; apply keeps_ret].
  apply keeps_bind.
  - destruct event as [d|d|[d|]|t];
      [apply keeps_handleCallStarted|apply keeps_handleCallEnded
      |apply keeps_emit; assumption|apply keeps_throw|apply keeps_ret].
  - intros _. apply keeps_bind; [apply keeps_emit; assumption|].
    intros _. apply keeps_ret.
Qed.

Lemma keeps_broadcastUpdates now : keeps proj (broadcastUpdates world now).
Proof.
  unfold broadcastUpdates.
  apply keeps_try_catch; [|intros e; apply keeps_emit; assumption].
  apply keeps_bind; [apply keeps_getAgents|]. intros agents.
  apply keeps_bind; [apply keeps_getQueues|]. intros queues.
  apply keeps_bind; [apply keeps_getActiveCalls|]. intros calls.
  apply keeps_bind; [apply keeps_getCallCenterStats|]. intros stats.
  apply keeps_bind; [apply keeps_updateCallDurations|]. intros _.
  do 4 (apply keeps_bind; [apply keeps_emit; assumption|intros _]).
  apply keeps_checkAndEmitAlerts.
Qed.

End KeepsMore.

(** ** The configuration never changes *)

(** Read a goal [proj (snd (c s)) = proj s] as [keeps proj c]. *)
Ltac as_keeps :=
  match goal with
  | |- ?proj (snd (?c ?s)) = ?proj ?s =>
      generalize s; change (keeps proj c)
  end.

Section Configuration.

Variable world : World.

Lemma or_str_nonempty o d : d <> "" -> JS.or_str o d <> "".
Proof.
  intros Hd. unfold JS.or_str. destruct o as [| |x]; try exact Hd.
  destruct (String.eqb_spec x ""); assumption.
Qed.

Lemma keeps_startPolling {B} (proj : Sys -> B) now :
  (forall s, proj (drawn s) = proj s) ->
  (forall m s, proj (with_activeCallsMap m s) = proj s) ->
  (forall l s, proj (with_emitted l s) = proj s) ->
  (forall t s, proj (with_lastAlertCheck t s) = proj s) ->
  (forall s, proj (askedAgents s) = proj s /\ proj (askedQueues s) = proj s
             /\ proj (askedCalls s) = proj s) ->
  (forall b s, proj (with_pollingInterval b s) = proj s) ->
  keeps proj (startPolling world now).
Proof.
  intros H1 H2 H3 H4 H5 H6. unfold startPolling.
  apply keeps_bind; [apply keeps_get|]. intros s0.
  destruct (pollingInterval s0); [apply keeps_ret|].
  apply keeps_bind; [apply keeps_modify; intros s; apply H6|]. intros _.
  apply keeps_broadcastUpdates; assumption.
Qed.

Lemma keeps_stopPolling {B} (proj : Sys -> B) :
  (forall b s, proj (with_pollingInterval b s) = proj s) ->
  keeps proj stopPolling.
Proof.
  intros H. unfold stopPolling.
  apply keeps_bind; [apply keeps_get|]. intros s0.
  destruct (pollingInterval s0); [apply keeps_modify; intros s; apply H|].
  apply keeps_ret.
Qed.

(** Every step of the server keeps the configuration. *)
Lemma reachable_step_config s s' :
  (exists now event, s' = snd (postConnectorEvent world now event s))
  \/ (exists now, s' = snd (startPolling world now s))
  \/ (exists now, s' = snd (broadcastUpdates world now s))
  \/ s' = snd (stopPolling s)
  \/ (exists now, s' = snd (getAgents world now s))
  \/ (exists now, s' = snd (apiQueues world now s))
  \/ (exists now, s' = snd (getActiveCalls world now s))
  \/ (exists now, s' = snd (getCallCenterStats world now s)) ->
  config s' = config s.
Proof.
  intros [(now & ev & ->)|[(now & ->)|[(now & ->)|[->|[(now & ->)
         |[(now & ->)|[(now & ->)|(now & ->)]]]]]]]; as_keeps.
  - eapply keeps_postConnectorEvent; try reflexivity. intros s0. repeat split.
  - eapply keeps_startPolling; try reflexivity. intros s0. repeat split.
  - eapply keeps_broadcastUpdates; try reflexivity. intros s0. repeat split.
  - eapply keeps_stopPolling. reflexivity.
  - eapply keeps_getAgents; try reflexivity. intros s0. repeat split.
  - eapply keeps_apiQueues; try reflexivity. intros s0. repeat split.
  - eapply keeps_getActiveCalls; try reflexivity. intros s0. repeat split.
  - eapply keeps_getCallCenterStats; try reflexivity. intros s0. repeat split.
Qed.

End Configuration.

(** X1.  Whether synthetic data is served is decided once, when the
    service is constructed, from the endpoint alone.  In every state the
    server reaches the connector URL is not empty, the handler is linked
    to the service, and mock mode is on exactly when the URL is the
    default [http://localhost:8080]; no event, tick, timer operation or
    read changes any of the three, so a connector that stops answering
    never turns mock mode on. *)
Theorem configuration_is_fixed :
  forall (world : World) (s : Sys),
    reachable world s ->
    connectorUrl s <> ""
    /\ wsHandler s = true
    /\ useMockData s = String.eqb (connectorUrl s) localhost
    /\ (forall now event,
          config (snd (postConnectorEvent world now event s)) = config s)
    /\ (forall now, config (snd (broadcastUpdates world now s)) = config s)
    /\ (forall now, config (snd (startPolling world now s)) = config s)
    /\ config (snd (stopPolling s)) = config s
    /\ (forall now, config (snd (getAgents world now s)) = config s)
    /\ (forall now, config (snd (apiQueues world now s)) = config s)
    /\ (forall now, config (snd (getActiveCalls world now s)) = config s)
    /\ (forall now, config (snd (getCallCenterStats world now s)) = config s).
Proof.
  intros world s Hr.
  assert (Hfix : connectorUrl s <> "" /\ wsHandler s = true
                 /\ useMockData s = String.eqb (connectorUrl s) localhost).
  { induction Hr as [now endpoint|now event s _ IH|now s _ IH|now s _ IH
                     |s _ IH|now s _ IH|now s _ IH|now s _ IH|now s _ IH].
    1: { simpl. pose proof (or_str_nonempty endpoint localhost ltac:(discriminate)) as Hne.
         fold localhost. split; [exact Hne|]. split; [reflexivity|].
         apply String.eqb_neq in Hne. rewrite Hne. reflexivity. }
    all: match goal with
         | |- context [snd (?op ?st)] =>
             let H := fresh in
             assert (H : config (snd (op st)) = config st)
               by (apply (reachable_step_config world); eauto 12);
             unfold config in H; injection H as -> -> ->; exact IH
         end. }
  destruct Hfix as (H1 & H2 & H3). repeat (split; [assumption|]).
  repeat split; intros; apply (reachable_step_config world); eauto 12.
Qed.

Lemma configuration_is_fixed_witness :
  reachable downWorld (snd (broadcastUpdates downWorld 40000 liveSys))
  /\ useMockData (snd (broadcastUpdates downWorld 40000 liveSys)) = false.
Proof.
  assert (H : reachable downWorld (snd (broadcastUpdates downWorld 40000 liveSys))).
  { apply reach_tick. apply reach_initial. }
  split; [exact H|].
  destruct (configuration_is_fixed downWorld _ H) as (_ & _ & Hm & _).
  rewrite Hm. vm_compute. reflexivity.
Defined.

(** ** How many requests the connector receives *)

Section Requests.

Variable world : World.
Variable now : Z.

Lemma try_catch_requests {A} (c : M A) (h : string -> M A) s :
  keeps requests c -> (forall e, keeps requests (h e)) ->
  requests (snd (try_catch c h s)) = requests s.
Proof. intros Hc Hh. apply keeps_try_catch; assumption. Qed.

Lemma getAgents_requests s :
  requests (snd (getAgents world now s))
  = if useMockData s then requests s else (S (apos s), qpos s, cpos s).
Proof.
  unfold getAgents, bind, get. cbn [fst snd].
  destruct (useMockData s).
  - eapply keeps_getMockAgents; reflexivity.
  - unfold try_catch at 1. unfold bind, client_get_agents.
    destruct (agentsApi world (apos s)) as [|data]; cbn [fst snd].
    + erewrite keeps_getMockAgents; reflexivity.
    + match goal with
      | |- requests (snd (let (o, s') := ?c ?s1 in _)) = _ =>
          change (requests (snd (try_catch c (fun _ => getMockAgents world now) s1))
                  = (S (apos s), qpos s, cpos s));
          rewrite try_catch_requests; [reflexivity| |]
      end.
      * destruct (Nat.eqb _ _); [eapply keeps_getMockAgents; reflexivity|].
        apply keeps_mapM. intros x. eapply keeps_mapAgent; reflexivity.
      * intros e. eapply keeps_getMockAgents; reflexivity.
Qed.

Lemma getQueues_requests s :
  requests (snd (getQueues world s))
  = if useMockData s then requests s else (apos s, S (qpos s), cpos s).
Proof.
  unfold getQueues, bind, get. cbn [fst snd].
  destruct (useMockData s).
  - eapply keeps_getMockQueues; reflexivity.
  - unfold try_catch at 1. unfold bind, client_get_queues.
    destruct (queuesApi world (qpos s)) as [|data]; cbn [fst snd].
    + erewrite keeps_getMockQueues; reflexivity.
    + match goal with
      | |- requests (snd (let (o, s') := ?c ?s1 in _)) = _ =>
          change (requests (snd (try_catch c (fun _ => getMockQueues world) s1))
                  = (apos s, S (qpos s), cpos s));
          rewrite try_catch_requests; [reflexivity| |]
      end.
      * destruct (Nat.eqb _ _); [eapply keeps_getMockQueues; reflexivity|].
        apply keeps_ret.
      * intros e. eapply keeps_getMockQueues; reflexivity.
Qed.

Lemma getActiveCalls_requests s :
  requests (snd (getActiveCalls world now s))
  = if useMockData s then requests s else (apos s, qpos s, S (cpos s)).
Proof.
  unfold getActiveCalls, bind, get. cbn [fst snd].
  destruct (useMockData s).
  - eapply keeps_getMockCalls; reflexivity.
  - unfold try_catch, bind, client_get_calls.
    destruct (callsApi world (cpos s)) as [|data]; cbn [fst snd].
    + erewrite keeps_getMockCalls; reflexivity.
    + reflexivity.
Qed.

Lemma useMockData_getAgents s :
  useMockData (snd (getAgents world now s)) = useMockData s.
Proof.
  as_keeps. eapply keeps_getAgents; try reflexivity. intros s0. repeat split.
Qed.

Lemma useMockData_getQueues s :
  useMockData (snd (getQueues world s)) = useMockData s.
Proof.
  as_keeps. eapply keeps_getQueues; try reflexivity. intros s0. repeat split.
Qed.

Lemma useMockData_getActiveCalls s :
  useMockData (snd (getActiveCalls world now s)) = useMockData s.
Proof.
  as_keeps. eapply keeps_getActiveCalls; try reflexivity.
  intros s0. repeat split.
Qed.

(** One round of the three reads. *)
Lemma round_requests s :
  let s1 := snd (getAgents world now s) in
  let s2 := snd (getQueues world s1) in
  let s3 := snd (getActiveCalls world now s2) in
  useMockData s3 = useMockData s
  /\ requests s3
     = if useMockData s then requests s
       else (S (apos s), S (qpos s), S (cpos s)).
Proof.
  cbv zeta. split.
  - rewrite useMockData_getActiveCalls, useMockData_getQueues.
    apply useMockData_getAgents.
  - rewrite getActiveCalls_requests, useMockData_getQueues,
      useMockData_getAgents.
    pose proof (getQueues_requests (snd (getAgents world now s))) as Hq.
    rewrite useMockData_getAgents in Hq.
    pose proof (getAgents_requests s) as Ha.
    destruct (useMockData s).
    + congruence.
    + unfold requests in *. congruence.
Qed.

Lemma getCallCenterStats_round s :
  snd (getCallCenterStats world now s)
  = snd (getActiveCalls world now
           (snd (getQueues world (snd (getAgents world now s))))).
Proof.
  unfold getCallCenterStats, bind.
  destruct (quiet_run now _ s (quiet_getAgents world now)) as (a & s1 & H1 & _).
  rewrite H1. cbn [fst snd].
  destruct (quiet_run now _ s1 (quiet_getQueues world now)) as (q & s2 & H2 & _).
  rewrite H2. cbn [fst snd].
  destruct (quiet_run now _ s2 (quiet_getActiveCalls world now))
    as (c & s3 & H3 & _).
  rewrite H3. reflexivity.
Qed.

Lemma broadcastCallUpdate_requests ext s :
  requests (snd (broadcastCallUpdate world now ext s))
  = if useMockData s then requests s else (S (apos s), qpos s, cpos s).
Proof.
  pose proof (getAgents_requests s) as Ha.
  unfold broadcastCallUpdate, try_catch, bind.
  destruct (quiet_run now _ s (quiet_getAgents world now)) as (a & s1 & Hrun & _).
  rewrite Hrun in *. cbn [fst snd] in *.
  destruct (List.find _ a); exact Ha.
Qed.

End Requests.

(** X2.  A tick reads every listing twice: once for the broadcast lists
    and once more inside [getCallCenterStats].  With a real endpoint each
    tick therefore sends exactly two requests to each of the agent, queue
    and call listings, whatever the connector answers; in mock mode it
    sends none.  A call-started event that carries an extension costs one
    more agent request, one without costs none. *)
Theorem tick_reads_every_listing_twice :
  forall (world : World) (now : Z) (s : Sys),
    requests (snd (broadcastUpdates world now s))
    = (if useMockData s then requests s
       else (S (S (apos s)), S (S (qpos s)), S (S (cpos s))))
    /\ (forall callData,
          requests (snd (handleCallStarted world now (Some callData) s))
          = if JS.truthy (cd_extension callData) && negb (useMockData s)
            then (S (apos s), qpos s, cpos s)
            else requests s).
Proof.
  intros world now s. split.
  - destruct (broadcastUpdates_run world now s)
      as (agents & s1 & queues & s2 & calls & s3 & stats & s4
          & H1 & H2 & H3 & H4 & _ & Hrun).
    rewrite Hrun.
    erewrite keeps_checkAndEmitAlerts by reflexivity.
    unfold afterBroadcasts, requests. cbn.
    fold (requests s4).
    assert (Hs4 : s4 = snd (getCallCenterStats world now s3)) by (rewrite H4; reflexivity).
    rewrite Hs4, getCallCenterStats_round.
    destruct (round_requests world now s3) as [_ ->].
    pose proof (round_requests world now s) as [Hm Hr].
    cbv zeta in Hm, Hr. rewrite H1 in Hm, Hr. cbn [snd] in Hm, Hr.
    rewrite H2 in Hm, Hr. cbn [snd] in Hm, Hr.
    rewrite H3 in Hm, Hr. cbn [snd] in Hm, Hr.
    rewrite Hm. destruct (useMockData s); [exact Hr|].
    unfold requests in Hr. injection Hr as -> -> ->. reflexivity.
  - intros callData. unfold handleCallStarted, bind, emit, modify.
    cbn [fst snd]. destruct (JS.truthy (cd_extension callData)); cbn [andb];
      [|reflexivity].
    rewrite broadcastCallUpdate_requests. cbn.
    destruct (useMockData s); reflexivity.
Qed.

(** ** The polling timer *)

(** X4.  The polling timer.  [startPolling] on a handler that is already
    polling does nothing at all; on an idle one it arms the timer and runs
    one tick at once, so a second [startPolling], at any time, is a
    no-op.  Ticks leave the timer as it is.  [stopPolling] disarms it
    without sending anything or touching the registry, and stopping twice
    is stopping once.  [getStats] reports the timer and the size of the
    registry. *)
Theorem polling_timer :
  forall (world : World) (now : Z) (s : Sys),
    (pollingInterval s = true -> startPolling world now s = (Returned tt, s))
    /\ (pollingInterval s = false ->
        startPolling world now s
        = broadcastUpdates world now (with_pollingInterval true s))
    /\ pollingInterval (snd (startPolling world now s)) = true
    /\ (forall t, startPolling world t (snd (startPolling world now s))
                  = (Returned tt, snd (startPolling world now s)))
    /\ pollingInterval (snd (broadcastUpdates world now s)) = pollingInterval s
    /\ pollingInterval (snd (stopPolling s)) = false
    /\ emitted (snd (stopPolling s)) = emitted s
    /\ activeCallsMap (snd (stopPolling s)) = activeCallsMap s
    /\ stopPolling (snd (stopPolling s)) = (Returned tt, snd (stopPolling s))
    /\ (forall clients interval t,
          hs_isPolling (getStats clients interval t
                          (snd (startPolling world now s))) = true
          /\ hs_isPolling (getStats clients interval t (snd (stopPolling s)))
             = false
          /\ hs_activeCalls (getStats clients interval t s)
             = Z.of_nat (length (Registry.keys (activeCallsMap s)))).
Proof.
  intros world now s.
  assert (Htick : forall t s0, pollingInterval (snd (broadcastUpdates world t s0))
                               = pollingInterval s0).
  { intros t s0. as_keeps. eapply keeps_broadcastUpdates; try reflexivity.
    intros s1. repeat split. }
  assert (Hon : pollingInterval (snd (startPolling world now s)) = true).
  { unfold startPolling, bind, get, modify. cbn [fst snd].
    destruct (pollingInterval s) eqn:Hp; [exact Hp|].
    cbn [fst snd]. rewrite Htick. reflexivity. }
  assert (Hoff : pollingInterval (snd (stopPolling s)) = false).
  { unfold stopPolling, bind, get, modify. cbn [fst snd].
    destruct (pollingInterval s) eqn:Hp; [reflexivity|exact Hp]. }
  assert (Hnoop : forall t s0, pollingInterval s0 = true ->
                               startPolling world t s0 = (Returned tt, s0)).
  { intros t s0 Hp. unfold startPolling, bind, get. cbn [fst snd].
    rewrite Hp. reflexivity. }
  split; [apply Hnoop|]. split.
  { intros Hp. unfold startPolling, bind, get, modify. cbn [fst snd].
    rewrite Hp. reflexivity. }
  split; [exact Hon|]. split; [intros t; apply Hnoop, Hon|].
  split; [apply Htick|]. split; [exact Hoff|].
  split; [|split; [|split]].
  - unfold stopPolling, bind, get, modify. cbn [fst snd].
    destruct (pollingInterval s); reflexivity.
  - unfold stopPolling, bind, get, modify. cbn [fst snd].
    destruct (pollingInterval s); reflexivity.
  - unfold stopPolling at 1. unfold bind, get. cbn [fst snd].
    rewrite Hoff. reflexivity.
  - intros clients interval t. unfold getStats. cbn.
    split; [exact Hon|]. split; [exact Hoff|].
    unfold Registry.keys. rewrite length_map. reflexivity.
Qed.

(** ** Normalised statuses *)

Section Statuses.

Lemma lower_ascii_idem c : JS.lower_ascii (JS.lower_ascii c) = JS.lower_ascii c.
Proof. destruct c as [[] [] [] [] [] [] [] []]; reflexivity. Qed.

Lemma toLowerCase_idem s : JS.toLowerCase (JS.toLowerCase s) = JS.toLowerCase s.
Proof.
  induction s as [|c s IH]; simpl; [reflexivity|].
  rewrite lower_ascii_idem, IH. reflexivity.
Qed.

Lemma mapped_status_cases status :
  mapAsteriskStatusToStandard status = "available"
  \/ mapAsteriskStatusToStandard status = "busy"
  \/ mapAsteriskStatusToStandard status = "away"
  \/ mapAsteriskStatusToStandard status = "offline".
Proof.
  unfold mapAsteriskStatusToStandard.
  destruct (negb (JS.truthy status)); [auto|].
  repeat (destruct (existsb _ _); [auto|]). auto.
Qed.

Lemma mapped_status_canonical status :
  In (mapAsteriskStatusToStandard status) statuses.
Proof.
  destruct (mapped_status_cases status) as [->|[->|[->| ->]]]; simpl; auto.
Qed.

End Statuses.

(** X5.  [mapAsteriskStatusToStandard] always answers one of available,
    busy, away, offline, and never "paused".  A missing or empty status is
    offline.  The answer does not depend on the case of the letters.  The
    function is not the identity on its own answers: given "away" it
    answers offline, because "away" is not among the names it knows. *)
Theorem status_normalisation :
  (forall status, In (mapAsteriskStatusToStandard status) statuses)
  /\ (forall status, mapAsteriskStatusToStandard status <> "paused")
  /\ mapAsteriskStatusToStandard None = "offline"
  /\ mapAsteriskStatusToStandard (Some "") = "offline"
  /\ (forall s, mapAsteriskStatusToStandard (Some (JS.toLowerCase s))
                = mapAsteriskStatusToStandard (Some s))
  /\ In "away" statuses
  /\ mapAsteriskStatusToStandard (Some "away") = "offline".
Proof.
  split; [exact mapped_status_canonical|]. split.
  { intros status.
    destruct (mapped_status_cases status) as [->|[->|[->| ->]]]; discriminate. }
  split; [reflexivity|]. split; [reflexivity|]. split.
  { intros s. unfold mapAsteriskStatusToStandard. simpl.
    rewrite toLowerCase_idem.
    destruct s as [|c s]; reflexivity. }
  split; [simpl; auto|reflexivity].
Qed.

(** ** The fetches never come back empty-handed *)

Section NonEmpty.

Variable world : World.
Variable now : Z.

Lemma mapM_each {A C} (f : A -> M C) (P : A -> C -> Prop) :
  (forall x s, exists b s', f x s = (Returned b, s') /\ P x b) ->
  forall l s,
    exists bs s', mapM f l s = (Returned bs, s') /\ Forall2 P l bs.
Proof.
  intros Hf. induction l as [|x l IH]; intros s; simpl.
  - exists [], s. split; [reflexivity|constructor].
  - destruct (Hf x s) as (b & s1 & Hb & HP).
    destruct (IH s1) as (bs & s2 & Hbs & HF).
    exists (b :: bs), s2. unfold bind. rewrite Hb, Hbs.
    split; [reflexivity|constructor; assumption].
Qed.

(** What [mapAgent] copies or normalises whatever the registry holds. *)
Lemma mapAgent_fields agent s :
  exists a s',
    mapAgent now agent s = (Returned a, s')
    /\ ag_status a = mapAsteriskStatusToStandard (ad_status agent)
       /\ ag_extension a = ad_extension agent
       /\ ag_id a = JS.or_opt (ad_id agent) (ad_extension agent).
Proof.
  unfold mapAgent, bind, get. cbn [fst snd].
  destruct (_ && _).
  - unfold getActiveCallForUser.
    destruct (Registry.first _ _) as [[k c]|];
      destruct (ad_currentCall agent); do 2 eexists; repeat split.
  - do 2 eexists. repeat split.
Qed.

(** With a real endpoint and a payload that is not empty, one agent per
    entry of the payload. *)
Lemma getAgents_live s data :
  useMockData s = false ->
  agentsApi world (apos s) = Resolved (Some data) ->
  data <> [] ->
  exists agents s',
    getAgents world now s = (Returned agents, s')
    /\ Forall2 (fun d a =>
                  ag_status a = mapAsteriskStatusToStandard (ad_status d)
                  /\ ag_extension a = ad_extension d
                  /\ ag_id a = JS.or_opt (ad_id d) (ad_extension d))
         data agents.
Proof.
  intros Hm Hr Hne. unfold getAgents, bind, get. cbn [fst snd].
  rewrite Hm. unfold try_catch, bind, client_get_agents. rewrite Hr.
  cbn [fst snd default from_option id].
  destruct data as [|d ds]; [congruence|]. cbn [length Nat.eqb].
  destruct (mapM_each (mapAgent now) _ mapAgent_fields (d :: ds) (askedAgents s))
    as (bs & s' & Hrun & HF).
  exists bs, s'. rewrite Hrun. split; [reflexivity|exact HF].
Qed.

(** In every other case, the synthetic roster. *)
Lemma getAgents_fallback s :
  (useMockData s = true
   \/ agentsApi world (apos s) = Rejected
   \/ agentsApi world (apos s) = Resolved None
   \/ agentsApi world (apos s) = Resolved (Some [])) ->
  exists s0, getAgents world now s = getMockAgents world now s0.
Proof.
  intros Hcase. unfold getAgents, bind, get. cbn [fst snd].
  destruct (useMockData s) eqn:Hm; [exists s; reflexivity|].
  destruct Hcase as [Hc|Hc]; [discriminate|].
  exists (askedAgents s).
  destruct (quiet_run now _ (askedAgents s) (quiet_getMockAgents world now now))
    as (a & s' & Hrun & _).
  unfold try_catch, bind, client_get_agents.
  destruct Hc as [->|[->| ->]]; cbn [fst snd default from_option id length Nat.eqb];
    rewrite ?Hrun; reflexivity.
Qed.

Lemma reply_cases {A} (r : reply A) :
  r = Rejected \/ r = Resolved None \/ r = Resolved (Some [])
  \/ exists data, r = Resolved (Some data) /\ data <> [].
Proof.
  destruct r as [|[[|d ds]|]]; auto.
  right. right. right. eexists. split; [reflexivity|discriminate].
Qed.

Lemma getAgents_nonempty_canonical s agents s' :
  random_ok world ->
  getAgents world now s = (Returned agents, s') ->
  agents <> [] /\ Forall (fun a => In (ag_status a) statuses) agents.
Proof.
  intros Hw Ha.
  assert (Hmock : forall s0 l s1, getMockAgents world now s0 = (Returned l, s1) ->
                   l <> [] /\ Forall (fun a => In (ag_status a) statuses) l).
  { intros s0 l s1 Hrun.
    destruct (getMockAgents_fixed world Hw now s0) as (l' & s'' & Hrun' & Hid & Hst).
    rewrite Hrun in Hrun'. injection Hrun' as <- <-.
    split; [|exact Hst]. intros ->. discriminate. }
  destruct (useMockData s) eqn:Hm.
  - destruct (getAgents_fallback s (or_introl Hm)) as (s0 & Heq).
    rewrite Heq in Ha. eapply Hmock, Ha.
  - destruct (reply_cases (agentsApi world (apos s)))
      as [Hr|[Hr|[Hr|(data & Hr & Hne)]]].
    1-3: (destruct (getAgents_fallback s) as (s0 & Heq); [tauto|];
          rewrite Heq in Ha; eapply Hmock, Ha).
    destruct (getAgents_live s data Hm Hr Hne) as (l & s1 & Hrun & HF).
    rewrite Hrun in Ha. injection Ha as <- <-. split.
    + intros ->. inversion HF. subst. congruence.
    + clear - HF. induction HF as [|d a ds l (Hs & _) _ IH]; constructor; auto.
      rewrite Hs. apply mapped_status_canonical.
Qed.

End NonEmpty.

(** X6.  [getAgents] and [getQueues] always return and never return an
    empty list: in mock mode, on a rejected request and on an empty or
    missing payload they answer the twelve synthetic agents and the four
    synthetic queues, otherwise one entry per entry of the payload.  Every
    agent they return has one of the four canonical statuses.
    [getActiveCalls] always returns too, with 2 to 9 synthetic calls in
    mock mode or on a rejected request. *)
Theorem fetches_never_come_back_empty :
  forall (world : World) (now : Z) (s : Sys),
    random_ok world ->
    exists agents sa queues sq calls sc,
      getAgents world now s = (Returned agents, sa)
      /\ getQueues world s = (Returned queues, sq)
      /\ getActiveCalls world now s = (Returned calls, sc)
      /\ agents <> [] /\ queues <> []
      /\ Forall (fun a => In (ag_status a) statuses) agents
      /\ (useMockData s = true \/ callsApi world (cpos s) = Rejected ->
          (2 <= length calls <= 9)%nat)
      /\ (useMockData s = false ->
          forall data, agentsApi world (apos s) = Resolved (Some data) ->
                       data <> [] -> length agents = length data)
      /\ (useMockData s = false ->
          forall data, queuesApi world (qpos s) = Resolved (Some data) ->
                       data <> [] -> queues = map mapQueue data)
      /\ (useMockData s = true
          \/ agentsApi world (apos s) = Rejected
          \/ agentsApi world (apos s) = Resolved None
          \/ agentsApi world (apos s) = Resolved (Some []) ->
          length agents = 12%nat)
      /\ (useMockData s = true
          \/ queuesApi world (qpos s) = Rejected
          \/ queuesApi world (qpos s) = Resolved None
          \/ queuesApi world (qpos s) = Resolved (Some []) ->
          length queues = 4%nat).
Proof.
  intros world now s Hw.
  destruct (quiet_run now _ s (quiet_getAgents world now)) as (agents & sa & Ha & _).
  destruct (quiet_run now _ s (quiet_getQueues world now)) as (queues & sq & Hq & _).
  destruct (quiet_run now _ s (quiet_getActiveCalls world now))
    as (calls & sc & Hc & _).
  exists agents, sa, queues, sq, calls, sc.
  repeat (split; [assumption|]).
  assert (Hmq : forall s0 l s', getMockQueues world s0 = (Returned l, s') -> l <> []).
  { intros s0 l s' Hrun.
    destruct (getMockQueues_fixed world world s0 s0)
      as (l1 & s1 & _ & _ & Hrun1 & _ & _ & Hn).
    rewrite Hrun in Hrun1. injection Hrun1 as <- <-.
    intros ->. discriminate. }
  pose proof (getAgents_nonempty_canonical world now s agents sa Hw Ha) as Hagents.
  split; [apply Hagents|]. split.
  { revert Hq. unfold getQueues, bind, get. cbn [fst snd].
    destruct (useMockData s); [apply Hmq|].
    unfold try_catch, bind, client_get_queues.
    destruct (queuesApi world (qpos s)) as [|data]; cbn [fst snd]; [apply Hmq|].
    destruct (default [] data) as [|d ds] eqn:Hd; cbn [length Nat.eqb].
    - destruct (getMockQueues world _) as [[l|e] s'] eqn:Hrun.
      + intros [= <- <-]. eapply Hmq, Hrun.
      + apply Hmq.
    - unfold ret. intros [= <- <-]. discriminate. }
  split; [apply Hagents|]. split.
  { intros Hor. revert Hc. unfold getActiveCalls, bind, get. cbn [fst snd].
    assert (Hmc : forall s0 l s', getMockCalls world now s0 = (Returned l, s') ->
                    (2 <= length l <= 9)%nat).
    { intros s0 l s' Hrun.
      destruct (getMockCalls_length world Hw now s0) as (l' & s'' & Hrun' & Hlen).
      rewrite Hrun in Hrun'. injection Hrun' as <- <-. exact Hlen. }
    destruct (useMockData s); [apply Hmc|].
    destruct Hor as [Hor|Hor]; [discriminate|].
    unfold try_catch, bind, client_get_calls. rewrite Hor. cbn [fst snd].
    apply Hmc. }
  split.
  { intros Hlive data Hr Hne.
    destruct (getAgents_live world now s data Hlive Hr Hne) as (l & s' & Hrun & HF).
    rewrite Hrun in Ha. injection Ha as <- <-.
    symmetry. eapply Forall2_length, HF. }
  split.
  { intros Hlive data Hr Hne. revert Hq.
    unfold getQueues, bind, get. cbn [fst snd].
    rewrite Hlive. unfold try_catch, bind, client_get_queues. rewrite Hr.
    cbn [fst snd default from_option id].
    destruct data as [|d ds]; [congruence|]. cbn [length Nat.eqb].
    unfold ret. intros [= <- <-]. reflexivity. }
  split.
  { intros Hcase.
    destruct (getAgents_fallback world now s Hcase) as (s0 & Heq).
    rewrite Heq in Ha.
    destruct (getMockAgents_fixed world Hw now s0) as (l & s' & Hrun & Hid & _).
    rewrite Ha in Hrun. injection Hrun as <- <-.
    apply (f_equal (@length _)) in Hid. rewrite length_map in Hid. exact Hid. }
  intros Hcase.
  assert (Hfour : forall s0 l s', getMockQueues world s0 = (Returned l, s') ->
                                  length l = 4%nat).
  { intros s0 l s' Hrun.
    destruct (getMockQueues_fixed world world s0 s0)
      as (l1 & s1 & _ & _ & Hrun1 & _ & _ & Hn).
    rewrite Hrun in Hrun1. injection Hrun1 as <- <-.
    apply (f_equal (@length _)) in Hn. rewrite length_map in Hn. exact Hn. }
  revert Hq. unfold getQueues, bind, get. cbn [fst snd].
  destruct (useMockData s) eqn:Hm; [apply Hfour|].
  destruct Hcase as [Hc0|Hc0]; [discriminate|].
  unfold try_catch, bind, client_get_queues.
  destruct (quiet_run now _ (askedQueues s) (quiet_getMockQueues world now))
    as (l & s' & Hrun & _).
  destruct Hc0 as [->|[->| ->]];
    cbn [fst snd default from_option id length Nat.eqb];
    rewrite Hrun; intros [= <- <-]; eapply Hfour, Hrun.
Qed.

Lemma fetches_never_come_back_empty_witness :
  random_ok downWorld
  /\ exists agents sa,
       getAgents downWorld 1000 liveSys = (Returned agents, sa)
       /\ agents <> [].
Proof.
  split; [exact downWorld_ok|].
  destruct (fetches_never_come_back_empty downWorld 1000 liveSys downWorld_ok)
    as (agents & sa & _ & _ & _ & _ & Ha & _ & _ & Hne & _).
  exists agents, sa. split; [exact Ha|exact Hne].
Defined.

(** ** Counting agents by status *)

Section StatusCounts.

Lemma or_num_zero o : JS.or_num o 0 = default 0 o.
Proof.
  destruct o as [n|]; [|reflexivity]. simpl.
  destruct (Z.eqb_spec n 0); congruence.
Qed.

Lemma agentStatuses_fold agents k :
  forall acc : gmap string Z,
    JS.or_num (fold_left
                 (fun acc agent =>
                    <[ag_status agent := JS.or_num (acc !! ag_status agent) 0 + 1]> acc)
                 agents acc !! k) 0
    = JS.or_num (acc !! k) 0 + count (hasStatus k) agents.
Proof.
  induction agents as [|a agents IH]; intros acc; simpl.
  - unfold count. simpl. lia.
  - rewrite IH. unfold count, hasStatus at 2. simpl.
    destruct (String.eqb_spec (ag_status a) k) as [->|Hne].
    + rewrite lookup_insert_eq. rewrite !or_num_zero. simpl.
      rewrite Nat2Z.inj_succ. fold (hasStatus k). lia.
    + rewrite lookup_insert_ne by exact Hne. reflexivity.
Qed.

Lemma agentStatuses_count agents k :
  JS.or_num (agentStatuses agents !! k) 0 = count (hasStatus k) agents.
Proof.
  unfold agentStatuses. rewrite agentStatuses_fold, lookup_empty. reflexivity.
Qed.

Lemma canonical_partition agents :
  Forall (fun a => In (ag_status a) statuses) agents ->
  count (hasStatus "available") agents + count (hasStatus "busy") agents
  + count (hasStatus "offline") agents + count (hasStatus "away") agents
  = Z.of_nat (length agents)
  /\ count (hasStatus "paused") agents = 0.
Proof.
  unfold count. induction 1 as [|a agents Ha _ IH]; [split; reflexivity|].
  destruct IH as [IH1 IH2]. unfold hasStatus in *. cbn [List.filter length].
  simpl in Ha. destruct Ha as [<-|[<-|[<-|[<-|[]]]]]; cbn [String.eqb Ascii.eqb Bool.eqb length];
    simpl; split; try exact IH2; lia.
Qed.

End StatusCounts.

(** X7.  The agent figures of the statistics.  The total is the number
    of agents and each status figure is the number of agents with that
    status.  For agents whose statuses are canonical, available + busy +
    offline + away is the total and paused is 0; this is so for every
    answer of [getCallCenterStats], since normalisation and the synthetic
    roster only produce canonical statuses. *)
Theorem stats_count_agents_by_status :
  forall (now : Z) (agents : list Agent) (queues : list Queue)
         (calls : list Call),
    let st := stats_agents (statsOf now agents queues calls) in
    st_total st = Z.of_nat (length agents)
    /\ st_available st = count (hasStatus "available") agents
    /\ st_busy st = count (hasStatus "busy") agents
    /\ st_offline st = count (hasStatus "offline") agents
    /\ st_away st = count (hasStatus "away") agents
    /\ st_paused st = count (hasStatus "paused") agents
    /\ (Forall (fun a => In (ag_status a) statuses) agents ->
        st_available st + st_busy st + st_offline st + st_away st = st_total st
        /\ st_paused st = 0)
    /\ (forall world s,
          random_ok world ->
          exists stats,
            fst (getCallCenterStats world now s) = Returned stats
            /\ st_available (stats_agents stats) + st_busy (stats_agents stats)
               + st_offline (stats_agents stats) + st_away (stats_agents stats)
               = st_total (stats_agents stats)
            /\ st_paused (stats_agents stats) = 0
            /\ 0 < st_total (stats_agents stats)).
Proof.
  intros now agents queues calls st.
  assert (Hst : forall l q c,
             let st := stats_agents (statsOf now l q c) in
             st_total st = Z.of_nat (length l)
             /\ st_available st = count (hasStatus "available") l
             /\ st_busy st = count (hasStatus "busy") l
             /\ st_offline st = count (hasStatus "offline") l
             /\ st_away st = count (hasStatus "away") l
             /\ st_paused st = count (hasStatus "paused") l).
  { intros l q c. unfold statsOf. cbn [stats_agents st_total st_available st_busy
      st_offline st_away st_paused]. rewrite !agentStatuses_count.
    repeat split. }
  destruct (Hst agents queues calls) as (H0 & H1 & H2 & H3 & H4 & H5).
  repeat (split; [assumption|]). split.
  - intros Hcan. subst st. rewrite H0, H1, H2, H3, H4, H5.
    apply canonical_partition, Hcan.
  - intros world s Hw. unfold getCallCenterStats, bind.
    destruct (quiet_run now _ s (quiet_getAgents world now)) as (l & s1 & Ha & _).
    rewrite Ha. cbn [fst snd].
    destruct (quiet_run now _ s1 (quiet_getQueues world now)) as (q & s2 & Hq & _).
    rewrite Hq. cbn [fst snd].
    destruct (quiet_run now _ s2 (quiet_getActiveCalls world now))
      as (c & s3 & Hc & _).
    rewrite Hc. cbn [fst snd ret]. eexists. split; [reflexivity|].
    destruct (getAgents_nonempty_canonical world now s l s1 Hw Ha) as [Hne Hcan].
    destruct (Hst l (map (recountQueue l) q) c) as (G0 & G1 & G2 & G3 & G4 & G5).
    rewrite G0, G1, G2, G3, G4, G5.
    destruct (canonical_partition l Hcan) as [P1 P2].
    repeat split; try assumption.
    destruct l; [congruence|simpl; lia].
Qed.

(** ** Recounting the agents of a queue *)

Section Recount.

Lemma inQueue_recount agents q a :
  inQueue (recountQueue agents q) a = inQueue q a.
Proof. reflexivity. Qed.

Lemma filter_ext_in_queue agents q :
  List.filter (inQueue (recountQueue agents q)) agents
  = List.filter (inQueue q) agents.
Proof. apply List.filter_ext. intros a. apply inQueue_recount. Qed.

Lemma count_le_length {A} (p : A -> bool) l : 0 <= count p l <= Z.of_nat (length l).
Proof.
  unfold count. pose proof (List.filter_length_le p l). lia.
Qed.

Lemma recountQueue_kept agents q :
  qu_agents q <> 0 -> qu_agentsAvailable q <> 0 -> qu_agentsOnCall q <> 0 ->
  recountQueue agents q = q.
Proof.
  intros H1 H2 H3. unfold recountQueue.
  apply Z.eqb_neq in H1, H2, H3. rewrite H1, H2, H3.
  destruct q; reflexivity.
Qed.

End Recount.

(** X8.  The recount of a queue's agents.  It only writes the three
    agent counts, and each of them only when it is 0: a count that the
    connector gave is kept.  A count that was 0 becomes the number of
    agents of the list that belong to the queue (by department list,
    department id or department name), respectively of those that are
    available or have a current call, so when all three were 0 the
    available and on-call figures do not exceed the new total.  Recounting
    twice changes nothing more.  The synthetic queues have three non-zero
    counts, so no recount ever changes them. *)
Theorem recount_fills_missing_counts :
  forall (agents : list Agent) (q : Queue),
    let q' := recountQueue agents q in
    let members := List.filter (inQueue q) agents in
    (qu_id q', qu_name q', qu_waitingCalls q', qu_longestWait q',
     qu_averageWait q', qu_answeredCalls q', qu_abandonedCalls q')
    = (qu_id q, qu_name q, qu_waitingCalls q, qu_longestWait q,
       qu_averageWait q, qu_answeredCalls q, qu_abandonedCalls q)
    /\ (qu_agents q <> 0 -> qu_agents q' = qu_agents q)
    /\ (qu_agentsAvailable q <> 0 -> qu_agentsAvailable q' = qu_agentsAvailable q)
    /\ (qu_agentsOnCall q <> 0 -> qu_agentsOnCall q' = qu_agentsOnCall q)
    /\ (qu_agents q = 0 -> qu_agents q' = Z.of_nat (length members))
    /\ (qu_agentsAvailable q = 0 ->
        qu_agentsAvailable q' = count isAvailable members)
    /\ (qu_agentsOnCall q = 0 ->
        qu_agentsOnCall q' = count hasCurrentCall members)
    /\ (qu_agents q = 0 -> qu_agentsAvailable q = 0 -> qu_agentsOnCall q = 0 ->
        0 <= qu_agentsAvailable q' <= qu_agents q'
        /\ 0 <= qu_agentsOnCall q' <= qu_agents q'
        /\ qu_agents q' <= Z.of_nat (length agents))
    /\ recountQueue agents q' = q'
    /\ (forall world s queues s',
          getMockQueues world s = (Returned queues, s') ->
          map (recountQueue agents) queues = queues).
Proof.
  intros agents q q' members. split; [reflexivity|].
  assert (E1 : forall b, (qu_agents q =? 0) = b ->
               qu_agents q' = if b then Z.of_nat (length members) else qu_agents q).
  { intros b <-. reflexivity. }
  assert (E2 : forall b, (qu_agentsAvailable q =? 0) = b ->
               qu_agentsAvailable q'
               = if b then count isAvailable members else qu_agentsAvailable q).
  { intros b <-. reflexivity. }
  assert (E3 : forall b, (qu_agentsOnCall q =? 0) = b ->
               qu_agentsOnCall q'
               = if b then count hasCurrentCall members else qu_agentsOnCall q).
  { intros b <-. reflexivity. }
  split; [intros H; apply (E1 false), Z.eqb_neq, H|].
  split; [intros H; apply (E2 false), Z.eqb_neq, H|].
  split; [intros H; apply (E3 false), Z.eqb_neq, H|].
  split; [intros H; apply (E1 true), Z.eqb_eq, H|].
  split; [intros H; apply (E2 true), Z.eqb_eq, H|].
  split; [intros H; apply (E3 true), Z.eqb_eq, H|].
  split.
  { intros H1 H2 H3.
    rewrite (E1 true), (E2 true), (E3 true) by (apply Z.eqb_eq; assumption).
    pose proof (count_le_length isAvailable members).
    pose proof (count_le_length hasCurrentCall members).
    pose proof (List.filter_length_le (inQueue q) agents).
    fold members in H4. lia. }
  split.
  { clear E1 E2 E3. subst q'. unfold recountQueue at 1.
    rewrite filter_ext_in_queue. fold members.
    unfold recountQueue. fold members.
    cbn [qu_agents qu_agentsAvailable qu_agentsOnCall set_agent_counts].
    destruct (qu_agents q =? 0) eqn:Ha, (qu_agentsAvailable q =? 0) eqn:Hb,
      (qu_agentsOnCall q =? 0) eqn:Hc;
      rewrite ?Ha, ?Hb, ?Hc;
      repeat match goal with
             | |- context [?x =? 0] => destruct (Z.eqb_spec x 0) as [->|?]
             end; reflexivity. }
  intros world s queues s'. unfold getMockQueues, bind.
  do 4 run_mockQueue. unfold ret. intros [= <- <-]. cbn [map].
  repeat match goal with
         | H : queueIdentity ?x = _ |- _ =>
             unfold queueIdentity in H; injection H; clear H; intros
         end.
  rewrite !recountQueue_kept by congruence. reflexivity.
Qed.

(** ** Calls that start without an identifier *)

Section Anonymous.

Lemma set_fresh_app k v m :
  ~ In k (Registry.keys m) -> Registry.set k v m = (m ++ [(k, v)])%list.
Proof.
  induction m as [|[k' v'] m IH]; simpl; [reflexivity|].
  intros Hn. destruct (String.eqb_spec k' k) as [->|Hne]; [tauto|].
  f_equal. apply IH. tauto.
Qed.

Lemma delete_app_fresh k m l :
  ~ In k (Registry.keys m) ->
  Registry.delete k (m ++ l)%list = (m ++ Registry.delete k l)%list.
Proof.
  induction m as [|[k' v'] m IH]; simpl; [reflexivity|].
  intros Hn. destruct (String.eqb_spec k' k) as [->|Hne]; [tauto|].
  f_equal. apply IH. tauto.
Qed.

Lemma keys_delete_same_keys k m m' :
  Registry.keys m = Registry.keys m' ->
  Registry.keys (Registry.delete k m) = Registry.keys (Registry.delete k m').
Proof.
  revert m'. induction m as [|[k1 v1] m IH]; intros [|[k2 v2] m']; simpl;
    try discriminate; [reflexivity|].
  intros [= -> H]. destruct (String.eqb k2 k); simpl; [exact H|].
  f_equal. apply IH, H.
Qed.

Lemma keys_app m l :
  Registry.keys (m ++ l)%list = (Registry.keys m ++ Registry.keys l)%list.
Proof. unfold Registry.keys. apply map_app. Qed.

Lemma first_app_none p m l :
  Registry.first p m = None -> Registry.first p (m ++ l)%list = Registry.first p l.
Proof.
  induction m as [|[k c] m IH]; simpl; [reflexivity|].
  destruct (p c); [discriminate|exact IH].
Qed.

Lemma first_app_some p m l x :
  Registry.first p m = Some x -> Registry.first p (m ++ l)%list = Some x.
Proof.
  induction m as [|[k c] m IH]; simpl; [discriminate|].
  destruct (p c); [auto|exact IH].
Qed.

(** A test that does not read the duration selects the same entry in
    two registries that differ by refreshed durations. *)
Lemma touched_first now p m m' k c :
  (forall x, p (refresh now x) = p x) ->
  touched now m m' ->
  Registry.first p m = Some (k, c) ->
  exists c', Registry.first p m' = Some (k, c')
             /\ (c' = c \/ c' = refresh now c).
Proof.
  intros Hp. induction 1 as [|[k1 c1] [k2 c2] m m' H _ IH]; simpl;
    [discriminate|].
  assert (Hk : k2 = k1) by (destruct H as [H|H]; injection H; auto).
  subst k2.
  assert (Hc : p c2 = p c1).
  { destruct H as [H|H]; injection H as ->; auto. }
  rewrite Hc. destruct (p c1); [|exact IH].
  intros [= <- <-]. exists c2. split; [reflexivity|].
  destruct H as [H|H]; injection H as ->; auto.
Qed.

Lemma generated_key_inj t1 t2 :
  "call_" +:+ JS.show_num t1 = "call_" +:+ JS.show_num t2 -> t1 = t2.
Proof.
  simpl. intros [= H]. unfold JS.show_num in H.
  exact (pretty_Z_inj _ _ H).
Qed.

(** A duration-blind test that selects nothing selects nothing after
    durations have been refreshed. *)
Lemma touched_first_none now p m m' :
  (forall x, p (refresh now x) = p x) ->
  touched now m m' ->
  Registry.first p m = None -> Registry.first p m' = None.
Proof.
  intros Hp. induction 1 as [|[k1 c1] [k2 c2] m m' H _ IH]; simpl;
    [reflexivity|].
  assert (Hc : p c2 = p c1).
  { destruct H as [H|H]; injection H as _ ->; auto. }
  rewrite Hc. destruct (p c1); [discriminate|exact IH].
Qed.

(** A falsy uniqueid ([undefined], [null] or the empty string) gives
    the call a generated id, which no falsy uniqueid names: such a call
    is ended by identity of the two uniqueids alone. *)
Lemma generated_id now cd u :
  JS.truthy (cd_uniqueid cd) = false ->
  JS.truthy u = false ->
  ci_id (callInfoOf now cd) = "call_" +:+ JS.show_num now
  /\ ends u (callInfoOf now cd) = JS.seq (cd_uniqueid cd) u.
Proof.
  intros Hcd Hu. unfold ends, callInfoOf. simpl.
  assert (Hid : JS.or_str (cd_uniqueid cd) ("call_" +:+ JS.show_num now)
                = "call_" +:+ JS.show_num now).
  { destruct (cd_uniqueid cd) as [| |x]; try reflexivity. simpl in *.
    destruct (String.eqb x ""); [reflexivity|discriminate]. }
  rewrite Hid. split; [reflexivity|].
  destruct u as [| |x]; simpl; try apply orb_false_r.
  simpl in Hu. destruct (String.eqb_spec x "") as [->|]; [|discriminate].
  apply orb_false_r.
Qed.

End Anonymous.

(** X9.  Calls that start without a usable uniqueid (the key is not
    there, or it is [null] or the empty string) are stored under the
    generated key [call_<time in ms>].  Two such calls with the same
    missing uniqueid, started at different milliseconds, get two
    entries.  A call-ended event whose uniqueid is missing in the same
    way ([===]: both not there, or both [null]) does not say which one
    it ends: it removes the older one, whatever call was meant, and
    reports that one as ended.  When it is missing in another way, as
    [null] against a key that is not there, it removes nothing and sends
    no [call:ended]: both calls stay in the registry.  Two such calls
    that start in the same millisecond share the key, and the second
    replaces the first. *)
Theorem calls_without_uniqueid :
  forall (world : World) (t1 t2 t3 : Z) (a b e : CallData) (s : Sys),
    JS.truthy (cd_uniqueid a) = false ->
    cd_uniqueid b = cd_uniqueid a ->
    JS.truthy (cd_uniqueid e) = false ->
    Forall (fun kc => ends (cd_uniqueid e) (snd kc) = false) (activeCallsMap s) ->
    ~ In ("call_" +:+ JS.show_num t1) (Registry.keys (activeCallsMap s)) ->
    ~ In ("call_" +:+ JS.show_num t2) (Registry.keys (activeCallsMap s)) ->
    t1 <> t2 ->
    let k1 := "call_" +:+ JS.show_num t1 in
    let k2 := "call_" +:+ JS.show_num t2 in
    let s1 := snd (handleCallStarted world t1 (Some a) s) in
    let s2 := snd (handleCallStarted world t2 (Some b) s1) in
    let s3 := snd (handleCallEnded world t3 (Some e) s2) in
    let same := snd (handleCallStarted world t1 (Some b) s1) in
    Registry.keys (activeCallsMap s2)
    = (Registry.keys (activeCallsMap s) ++ [k1; k2])%list
    /\ (JS.seq (cd_uniqueid a) (cd_uniqueid e) = true ->
        Registry.keys (activeCallsMap s3)
        = (Registry.keys (activeCallsMap s) ++ [k2])%list
        /\ callsEnded (emitted s3)
           = (callsEnded (emitted s2)
              ++ [(refresh t3 (callInfoOf t1 a), t3,
                   JS.or_str (cd_disposition e) "ANSWERED")])%list)
    /\ (JS.seq (cd_uniqueid a) (cd_uniqueid e) = false ->
        handleCallEnded world t3 (Some e) s2 = (Returned tt, s2))
    /\ (cd_uniqueid a = JS.Undefined -> cd_uniqueid e = JS.Null ->
        handleCallEnded world t3 (Some e) s2 = (Returned tt, s2))
    /\ Registry.keys (activeCallsMap same)
       = (Registry.keys (activeCallsMap s) ++ [k1])%list
    /\ Registry.get k1 (activeCallsMap same) = Some (callInfoOf t1 b).
Proof.
  intros world t1 t2 t3 a b e s Ha Hb He Hall Hk1 Hk2 Hne k1 k2 s1 s2 s3 same.
  set (m := activeCallsMap s) in *.
  assert (Hbf : JS.truthy (cd_uniqueid b) = false) by (rewrite Hb; exact Ha).
  destruct (generated_id t1 a _ Ha He) as [Ida Enda].
  destruct (generated_id t2 b _ Hbf He) as [Idb Endb].
  destruct (generated_id t1 b _ Hbf He) as [Idb1 _].
  rewrite Hb in Endb.
  assert (Hp : forall t x, ends (cd_uniqueid e) (refresh t x)
                           = ends (cd_uniqueid e) x) by reflexivity.
  apply first_none_iff in Hall. rename Hall into Hnone.
  (* first start *)
  destruct (handleCallStarted_run world t1 a s) as (s1' & tl1 & Hrun1 & Ht1 & _).
  assert (Es1 : s1 = s1') by (subst s1; rewrite Hrun1; reflexivity).
  rewrite Ida in Ht1. fold m in Ht1. fold k1 in Ht1.
  rewrite set_fresh_app in Ht1 by exact Hk1.
  assert (Hkeys1 : Registry.keys (activeCallsMap s1') = (Registry.keys m ++ [k1])%list).
  { rewrite (touched_keys _ _ _ Ht1), keys_app. reflexivity. }
  (* second start, at another millisecond *)
  assert (Hk2' : ~ In k2 (Registry.keys (activeCallsMap s1'))).
  { rewrite Hkeys1. intros Hin. apply in_app_or in Hin as [Hin|[Hin|[]]];
      [exact (Hk2 Hin)|]. apply Hne. apply generated_key_inj. exact Hin. }
  destruct (handleCallStarted_run world t2 b s1') as (s2' & tl2 & Hrun2 & Ht2 & _).
  assert (Es2 : s2 = s2') by (subst s2; rewrite Es1, Hrun2; reflexivity).
  rewrite Idb in Ht2. fold k2 in Ht2. rewrite set_fresh_app in Ht2 by exact Hk2'.
  assert (Hkeys2 : Registry.keys (activeCallsMap s2')
                   = (Registry.keys m ++ [k1; k2])%list).
  { rewrite (touched_keys _ _ _ Ht2), keys_app, Hkeys1, <- app_assoc. reflexivity. }
  (* an end event that matches neither call *)
  assert (Hmiss : JS.seq (cd_uniqueid a) (cd_uniqueid e) = false ->
                  handleCallEnded world t3 (Some e) s2' = (Returned tt, s2')).
  { intros Hseq.
    assert (H1 : Registry.first (ends (cd_uniqueid e)) (activeCallsMap s1') = None).
    { apply (touched_first_none t1 _ _ _ (Hp t1) Ht1).
      rewrite first_app_none by exact Hnone. simpl. rewrite Enda, Hseq.
      reflexivity. }
    assert (H2 : Registry.first (ends (cd_uniqueid e)) (activeCallsMap s2') = None).
    { apply (touched_first_none t2 _ _ _ (Hp t2) Ht2).
      rewrite first_app_none by exact H1. simpl. rewrite Endb, Hseq.
      reflexivity. }
    unfold handleCallEnded, bind, get. simpl. rewrite H2. reflexivity. }
  (* the second start in the same millisecond *)
  destruct (handleCallStarted_run world t1 b s1') as (sm & tlm & Hrunm & Htm & _).
  assert (Esm : same = sm) by (subst same; rewrite Es1, Hrunm; reflexivity).
  rewrite Idb1 in Htm. fold k1 in Htm.
  assert (Hin1 : In k1 (Registry.keys (activeCallsMap s1'))).
  { rewrite Hkeys1. apply in_or_app. right. left. reflexivity. }
  subst s3. rewrite Es2, Esm. clear s1 s2 same Es1 Es2 Esm.
  split; [exact Hkeys2|]. split; [|split; [exact Hmiss|split; [|split]]].
  - (* an end event that matches both: the older call goes *)
    intros Hseq.
    destruct (touched_first t1 (ends (cd_uniqueid e)) _ _ k1 (callInfoOf t1 a)
                (Hp t1) Ht1) as (c1 & Hf1 & Hor1).
    { rewrite first_app_none by exact Hnone. simpl. rewrite Enda, Hseq.
      reflexivity. }
    destruct (touched_first t2 (ends (cd_uniqueid e)) _ _ k1 c1 (Hp t2) Ht2
                (first_app_some _ _ _ _ Hf1)) as (c2 & Hf2 & Hor2).
    assert (Hr2 : refresh t3 c2 = refresh t3 (callInfoOf t1 a)).
    { destruct Hor2 as [->| ->]; destruct Hor1 as [->| ->]; reflexivity. }
    destruct (handleCallEnded_run world t3 e s2' k1 c2 Hf2)
      as (s3' & Hrun3 & Ht3 & Hem3).
    rewrite Hrun3. cbn [snd]. split; [|rewrite Hem3, Hr2; reflexivity].
    rewrite (touched_keys _ _ _ Ht3).
    rewrite (keys_delete_same_keys k1 _
               (m ++ [(k1, callInfoOf t1 a); (k2, callInfoOf t2 b)])%list).
    + rewrite delete_app_fresh by exact Hk1. rewrite keys_app. simpl.
      rewrite String.eqb_refl. reflexivity.
    + rewrite Hkeys2, keys_app. reflexivity.
  - intros Hu Hn. apply Hmiss. rewrite Hu, Hn. reflexivity.
  - rewrite (touched_keys _ _ _ Htm), keys_set_in by exact Hin1. exact Hkeys1.
  - destruct (touched_get t1 _ _ k1 _ Htm (get_set_same _ _ _))
      as (c' & Hc' & [->| ->]); [exact Hc'|].
    rewrite refresh_started_now in Hc'. exact Hc'.
Qed.

Lemma calls_without_uniqueid_witness :
  let a := callEvent None (Some "1001") in
  let b := callEvent None (Some "1002") in
  let e := callEvent None None in
  let e' := {| cd_uniqueid := JS.Null; cd_callerid := None;
               cd_callername := None; cd_extension := JS.Undefined;
               cd_direction := None; cd_queueName := None;
               cd_queueId := None; cd_disposition := None |} in
  let s1 := snd (handleCallStarted downWorld 1000 (Some a) liveSys) in
  let s2 := snd (handleCallStarted downWorld 2000 (Some b) s1) in
  let s3 := snd (handleCallEnded downWorld 3000 (Some e) s2) in
  1000 <> 2000
  /\ Registry.keys (activeCallsMap s2) = ["call_1000"; "call_2000"]
  /\ Registry.keys (activeCallsMap s3) = ["call_2000"]
  /\ handleCallEnded downWorld 3000 (Some e') s2 = (Returned tt, s2).
Proof.
  cbv zeta.
  assert (Hne : 1000 <> 2000) by discriminate.
  split; [exact Hne|].
  destruct (calls_without_uniqueid downWorld 1000 2000 3000
              (callEvent None (Some "1001")) (callEvent None (Some "1002"))
              (callEvent None None) liveSys eq_refl eq_refl eq_refl
              ltac:(constructor) ltac:(intros []) ltac:(intros []) Hne)
    as (H2 & H3 & _).
  destruct (H3 eq_refl) as [H3k _].
  split; [rewrite H2; vm_compute; reflexivity|].
  split; [rewrite H3k; vm_compute; reflexivity|].
  destruct (calls_without_uniqueid downWorld 1000 2000 3000
              (callEvent None (Some "1001")) (callEvent None (Some "1002"))
              {| cd_uniqueid := JS.Null; cd_callerid := None;
                 cd_callername := None; cd_extension := JS.Undefined;
                 cd_direction := None; cd_queueName := None;
                 cd_queueId := None; cd_disposition := None |}
              liveSys eq_refl eq_refl eq_refl
              ltac:(constructor) ltac:(intros []) ltac:(intros []) Hne)
    as (_ & _ & _ & Hnull & _).
  exact (Hnull eq_refl eq_refl).
Defined.

(** ** The call shown on an agent *)

Section CurrentCalls.

Lemma first_set_new p k v m :
  Registry.first p m = None -> p v = true ->
  Registry.first p (Registry.set k v m) = Some (k, v).
Proof.
  intros Hm Hv. induction m as [|[k' v'] m IH]; simpl in *.
  - rewrite Hv. reflexivity.
  - destruct (p v') eqn:Hp; [discriminate|].
    destruct (String.eqb k' k) eqn:Hk; simpl.
    + rewrite Hv. apply String.eqb_eq in Hk. subst k'. reflexivity.
    + rewrite Hp. apply IH, Hm.
Qed.

(** Only the exact status [busy] together with a call reported by the
    connector fills the current call. *)
Lemma mapAgent_no_call now agent s :
  ad_status agent <> Some "busy" \/ ad_currentCall agent = None ->
  exists a s',
    mapAgent now agent s = (Returned a, s') /\ ag_currentCall a = None.
Proof.
  intros H. unfold mapAgent, bind, get. cbn [fst snd].
  assert (E : wsHandler s && JS.seq (ad_status agent) (Some "busy")
              && bool_decide (is_Some (ad_currentCall agent)) = false).
  { destruct H as [H|H].
    - destruct (ad_status agent) as [x|]; simpl.
      + destruct (String.eqb_spec x "busy") as [->|_]; [congruence|].
        rewrite andb_false_r. reflexivity.
      + rewrite andb_false_r. reflexivity.
    - rewrite H. apply andb_false_r. }
  rewrite E. do 2 eexists. split; reflexivity.
Qed.

Lemma mapAgent_tracked now agent s cc k c :
  wsHandler s = true ->
  ad_status agent = Some "busy" ->
  ad_currentCall agent = Some cc ->
  Registry.first (matches_user (ad_id agent)) (activeCallsMap s) = Some (k, c) ->
  exists a s',
    mapAgent now agent s = (Returned a, s')
    /\ ag_currentCall a
       = Some {| cc_status := "active";
                 cc_phoneNumber := ci_phoneNumber c;
                 cc_callerName := ci_callerName c;
                 cc_direction := ci_direction c;
                 cc_duration := elapsed now c;
                 cc_queueName :=
                   JS.or_opt (Some (ci_queueName c)) (ad_department agent);
                 cc_queueId :=
                   JS.or_opt (Some (ci_queueId c)) (ad_departmentId agent) |}.
Proof.
  intros Hw Hs Hc Hf.
  unfold mapAgent, bind, get, getActiveCallForUser. cbn [fst snd].
  rewrite Hw, Hs, Hc.
  rewrite bool_decide_eq_true_2 by (eexists; reflexivity).
  change (JS.seq (Some "busy") (Some "busy")) with true.
  cbn [andb]. rewrite Hf. cbn [fst snd ret]. do 2 eexists. split; reflexivity.
Qed.

Lemma mapAgent_untracked now agent s cc :
  wsHandler s = true ->
  ad_status agent = Some "busy" ->
  ad_currentCall agent = Some cc ->
  Registry.first (matches_user (ad_id agent)) (activeCallsMap s) = None ->
  exists a s',
    mapAgent now agent s = (Returned a, s')
    /\ ag_currentCall a
       = Some {| cc_status := "active";
                 cc_phoneNumber := JS.or_str (ccd_phoneNumber cc) "Unknown";
                 cc_callerName := JS.or_null (ccd_callerName cc);
                 cc_direction := JS.or_str (ccd_direction cc) "unknown";
                 cc_duration := JS.or_num (ccd_duration cc) 0;
                 cc_queueName :=
                   JS.or_opt (ccd_queueName cc) (ad_department agent);
                 cc_queueId :=
                   JS.or_opt (ccd_queueId cc) (ad_departmentId agent) |}.
Proof.
  intros Hw Hs Hc Hf.
  unfold mapAgent, bind, get, getActiveCallForUser. cbn [fst snd].
  rewrite Hw, Hs, Hc.
  rewrite bool_decide_eq_true_2 by (eexists; reflexivity).
  change (JS.seq (Some "busy") (Some "busy")) with true.
  cbn [andb]. rewrite Hf. cbn [fst snd ret]. do 2 eexists. split; reflexivity.
Qed.

Lemma or_opt_or_str o d b :
  d <> "" -> JS.or_opt (Some (JS.or_str o d)) b = Some (JS.or_str o d).
Proof.
  intros Hd. unfold JS.or_opt, JS.truthy, JS.of_option, JS.opt.
  apply (or_str_nonempty o) in Hd. apply String.eqb_neq in Hd.
  rewrite Hd. reflexivity.
Qed.

(** The call that a call-started event for the extension [x] puts in
    front of an agent with the id [x]: its own when no call was tracked
    for [x], and the older one when one was and the key is new. *)
Lemma first_after_start_new world t0 cd x s :
  cd_extension cd = Some x ->
  Registry.first (matches_user (Some x)) (activeCallsMap s) = None ->
  Registry.first (matches_user (Some x))
    (activeCallsMap (snd (handleCallStarted world t0 (Some cd) s)))
  = Some (ci_id (callInfoOf t0 cd), callInfoOf t0 cd).
Proof.
  intros Hx Hold.
  destruct (handleCallStarted_run world t0 cd s) as (s1 & tl & Hrun & Ht & _).
  rewrite Hrun. cbn [snd].
  assert (Hp : forall y, matches_user (Some x) (refresh t0 y)
                         = matches_user (Some x) y) by reflexivity.
  assert (Hnew : matches_user (Some x) (callInfoOf t0 cd) = true).
  { unfold matches_user, callInfoOf. simpl. rewrite Hx. simpl.
    rewrite String.eqb_refl. reflexivity. }
  destruct (touched_first t0 _ _ _ _ _ Hp Ht
              (first_set_new _ _ _ _ Hold Hnew)) as (c' & Hf & Hor).
  rewrite Hf. do 2 f_equal.
  destruct Hor as [->| ->]; [reflexivity|apply refresh_started_now].
Qed.

Lemma first_after_start_old world t0 cd x s k0 c0 :
  Registry.first (matches_user (Some x)) (activeCallsMap s) = Some (k0, c0) ->
  ~ In (ci_id (callInfoOf t0 cd)) (Registry.keys (activeCallsMap s)) ->
  exists c',
    Registry.first (matches_user (Some x))
      (activeCallsMap (snd (handleCallStarted world t0 (Some cd) s)))
    = Some (k0, c')
    /\ (c' = c0 \/ c' = refresh t0 c0).
Proof.
  intros Hold Hout.
  destruct (handleCallStarted_run world t0 cd s) as (s1 & tl & Hrun & Ht & _).
  rewrite Hrun. cbn [snd].
  assert (Hp : forall y, matches_user (Some x) (refresh t0 y)
                         = matches_user (Some x) y) by reflexivity.
  rewrite set_fresh_app in Ht by exact Hout.
  exact (touched_first t0 _ _ _ k0 c0 Hp Ht (first_app_some _ _ _ _ Hold)).
Qed.

End CurrentCalls.

(** X10.  The call shown on an agent.  An agent gets a current call only
    when the connector reports the exact status [busy] and a current
    call with it: a spelling that is only normalised to busy, such as
    [INUSE], or a busy agent for which the connector reports no call,
    leaves the current call empty.  For a busy agent with a reported
    call whose id is the extension of a call-started event, and as long
    as no older call is tracked for that id, the call shown after the
    event is the one of the event, not the one the connector reports:
    number, name, direction and queue come from the event (with its
    defaults, never the agent's department), and the duration is the
    whole number of seconds since the event; before the event the
    connector's own figures are shown.  When an older call is tracked
    for that id and the event brings a new key, the older call stays the
    one shown. *)
Theorem agent_current_call :
  forall (world : World) (t0 t1 : Z) (cd : CallData) (agent : AgentDTO)
         (x : string) (cc : CurrentCallDTO) (s : Sys),
    wsHandler s = true ->
    cd_extension cd = Some x ->
    ad_id agent = Some x ->
    ad_status agent = Some "busy" ->
    ad_currentCall agent = Some cc ->
    let s1 := snd (handleCallStarted world t0 (Some cd) s) in
    (Registry.first (matches_user (Some x)) (activeCallsMap s) = None ->
     (exists a s',
         mapAgent t1 agent s = (Returned a, s')
         /\ ag_currentCall a
            = Some {| cc_status := "active";
                      cc_phoneNumber := JS.or_str (ccd_phoneNumber cc) "Unknown";
                      cc_callerName := JS.or_null (ccd_callerName cc);
                      cc_direction := JS.or_str (ccd_direction cc) "unknown";
                      cc_duration := JS.or_num (ccd_duration cc) 0;
                      cc_queueName :=
                        JS.or_opt (ccd_queueName cc) (ad_department agent);
                      cc_queueId :=
                        JS.or_opt (ccd_queueId cc) (ad_departmentId agent) |})
     /\ (exists a s2,
            mapAgent t1 agent s1 = (Returned a, s2)
            /\ ag_currentCall a
               = Some {| cc_status := "active";
                         cc_phoneNumber := JS.or_str (cd_callerid cd) "Unknown";
                         cc_callerName := JS.or_null (cd_callername cd);
                         cc_direction := JS.or_str (cd_direction cd) "unknown";
                         cc_duration := JS.floor_div (t1 - t0) 1000;
                         cc_queueName :=
                           Some (JS.or_str (cd_queueName cd) "Direct Call");
                         cc_queueId :=
                           Some (JS.or_str (cd_queueId cd) "direct") |}))
    /\ (forall k0 c0,
           Registry.first (matches_user (Some x)) (activeCallsMap s)
           = Some (k0, c0) ->
           ~ In (ci_id (callInfoOf t0 cd)) (Registry.keys (activeCallsMap s)) ->
           exists a s2,
             mapAgent t1 agent s1 = (Returned a, s2)
             /\ ag_currentCall a
                = Some {| cc_status := "active";
                          cc_phoneNumber := ci_phoneNumber c0;
                          cc_callerName := ci_callerName c0;
                          cc_direction := ci_direction c0;
                          cc_duration := elapsed t1 c0;
                          cc_queueName :=
                            JS.or_opt (Some (ci_queueName c0))
                              (ad_department agent);
                          cc_queueId :=
                            JS.or_opt (Some (ci_queueId c0))
                              (ad_departmentId agent) |})
    /\ (forall other st,
           ad_status other <> Some "busy" \/ ad_currentCall other = None ->
           exists a s',
             mapAgent t1 other st = (Returned a, s')
             /\ ag_currentCall a = None
             /\ (ad_status other = Some "INUSE" -> ag_status a = "busy")).
Proof.
  intros world t0 t1 cd agent x cc s Hw Hx Hid Hs Hc s1.
  assert (Hw1 : wsHandler s1 = true).
  { rewrite <- Hw. subst s1. as_keeps.
    eapply keeps_handleCallStarted; try reflexivity. intros s0. repeat split. }
  split; [|split].
  - intros Hnone. split.
    + apply mapAgent_untracked; try assumption. rewrite Hid. exact Hnone.
    + pose proof (first_after_start_new world t0 cd x s Hx Hnone) as Hf.
      fold s1 in Hf. rewrite <- Hid in Hf.
      destruct (mapAgent_tracked t1 agent s1 cc _ _ Hw1 Hs Hc Hf)
        as (a & s2 & Hrun & Hcur).
      exists a, s2. split; [exact Hrun|]. rewrite Hcur.
      unfold callInfoOf at 1 2 3 4 5 6.
      cbn [ci_phoneNumber ci_callerName ci_direction ci_queueName ci_queueId].
      rewrite !or_opt_or_str by discriminate.
      unfold elapsed, callInfoOf. cbn [ci_startTime]. reflexivity.
  - intros k0 c0 Hfirst Hfresh.
    destruct (first_after_start_old world t0 cd x s k0 c0 Hfirst Hfresh)
      as (c' & Hf & Hor).
    fold s1 in Hf. rewrite <- Hid in Hf.
    destruct (mapAgent_tracked t1 agent s1 cc _ _ Hw1 Hs Hc Hf)
      as (a & s2 & Hrun & Hcur).
    exists a, s2. split; [exact Hrun|]. rewrite Hcur.
    destruct Hor as [->| ->]; reflexivity.
  - intros other st Hno.
    destruct (mapAgent_fields t1 other st) as (a' & s' & Hrun' & Hstat & _).
    destruct (mapAgent_no_call t1 other st Hno) as (a'' & s'' & Hrun'' & Hnone).
    rewrite Hrun' in Hrun''. injection Hrun'' as <- <-.
    exists a', s'. split; [exact Hrun'|]. split; [exact Hnone|].
    intros Hst. rewrite Hstat, Hst. reflexivity.
Qed.

Lemma agent_current_call_witness :
  let agent := busyAgentDTO "2001" "2001" "555-0100" in
  let s1 := snd (handleCallStarted downWorld 0 (Some (callEvent (Some "42") (Some "2001"))) liveSys) in
  exists a s2,
    mapAgent 65000 agent s1 = (Returned a, s2)
    /\ option_map cc_duration (ag_currentCall a) = Some 65
    /\ option_map cc_phoneNumber (ag_currentCall a) = Some "Unknown".
Proof.
  cbv zeta.
  destruct (agent_current_call downWorld 0 65000
              (callEvent (Some "42") (Some "2001"))
              (busyAgentDTO "2001" "2001" "555-0100") "2001"
              {| ccd_phoneNumber := Some "555-0100"; ccd_callerName := None;
                 ccd_direction := None; ccd_duration := Some 3;
                 ccd_queueName := None; ccd_queueId := None |}
              liveSys eq_refl eq_refl eq_refl eq_refl eq_refl)
    as (Hnew & _).
  destruct (Hnew eq_refl) as (_ & a & s2 & Hrun & Hcur).
  exists a, s2. split; [exact Hrun|]. rewrite Hcur. split; reflexivity.
Defined.

(** ** The alert about the connector *)

Section Connectivity.

Variable world : World.

(** The configuration in a state the server reaches. *)
Lemma reachable_config s :
  reachable world s ->
  connectorUrl s <> "" /\ wsHandler s = true
  /\ useMockData s = String.eqb (connectorUrl s) localhost.
Proof.
  induction 1 as [now endpoint|now event s _ IH|now s _ IH|now s _ IH
                  |s _ IH|now s _ IH|now s _ IH|now s _ IH|now s _ IH].
  1: { simpl. pose proof (or_str_nonempty endpoint localhost ltac:(discriminate)) as Hne.
       fold localhost. split; [exact Hne|]. split; [reflexivity|].
       apply String.eqb_neq in Hne. rewrite Hne. reflexivity. }
  all: match goal with
       | |- context [snd (?op ?st)] =>
           let H := fresh in
           assert (H : config (snd (op st)) = config st)
             by (apply (reachable_step_config world); eauto 12);
           unfold config in H; injection H as -> -> ->; exact IH
       end.
Qed.

Lemma queueAlerts_not_offline now queues :
  List.filter isConnectorOffline (flat_map (queueAlerts now) queues) = [].
Proof.
  induction queues as [|q queues IH]; simpl; [reflexivity|].
  rewrite List.filter_app, IH, app_nil_r. unfold queueAlerts.
  destruct (_ >? 300); destruct (_ >? 10); reflexivity.
Qed.

Lemma availabilityAlerts_not_offline now agents :
  List.filter isConnectorOffline (availabilityAlerts now agents) = [].
Proof. unfold availabilityAlerts. destruct (_ && _); reflexivity. Qed.

Lemma offline_alerts now s queues agents :
  connectorUrl s <> "" ->
  length (List.filter isConnectorOffline (alertsOf now s queues agents))
  = if useMockData s then 1%nat else 0%nat.
Proof.
  intros Hurl. unfold alertsOf.
  rewrite !List.filter_app, queueAlerts_not_offline,
    availabilityAlerts_not_offline. simpl.
  unfold connectivityAlerts, JS.truthy, JS.of_option.
  apply String.eqb_neq in Hurl. rewrite Hurl. simpl.
  destruct (useMockData s); reflexivity.
Qed.

(** What a tick adds to the alert sets sent so far. *)
Lemma broadcastUpdates_alertSets now s :
  exists agents queues sB,
    connectorUrl sB = connectorUrl s
    /\ useMockData sB = useMockData s
    /\ lastAlertCheck sB = lastAlertCheck s
    /\ alertSets (emitted sB) = alertSets (emitted s)
    /\ broadcastUpdates world now s = checkAndEmitAlerts now queues agents sB.
Proof.
  destruct (broadcastUpdates_run world now s)
    as (agents & s1 & queues & s2 & calls & s3 & stats & s4
        & _ & _ & _ & _ & F & Hrun).
  exists agents, queues, (afterBroadcasts now agents queues calls stats s4).
  destruct F as [Fe Fl _ Fu Fm _ _].
  unfold afterBroadcasts. cbn.
  repeat (split; [assumption|]). split; [|exact Hrun].
  rewrite alertSets_app, Fe. cbn. apply app_nil_r.
Qed.

End Connectivity.

(** X11.  The alert [Connector Offline] follows the configuration, not
    the connector.  A tick adds at most one alert set, never an empty
    one, and none inside the 30-second window.  With the default
    endpoint every tick outside the window sends a set, and it holds
    the alert exactly once; with a real endpoint no tick ever sends the
    alert, whatever the connector answers, so also when every request
    is rejected and the lists broadcast are synthetic. *)
Theorem connector_offline_alert :
  forall (world : World) (s : Sys) (now : Z),
    reachable world s ->
    let s' := snd (broadcastUpdates world now s) in
    exists sets,
      alertSets (emitted s') = (alertSets (emitted s) ++ sets)%list
      /\ (length sets <= 1)%nat
      /\ Forall (fun alerts =>
                   alerts <> []
                   /\ length (List.filter isConnectorOffline alerts)
                      = (if useMockData s then 1%nat else 0%nat)
                   /\ Forall (fun a => isConnectorOffline a = true ->
                                       al_type a = "error"
                                       /\ al_queueId a = None
                                       /\ al_timestamp a = now) alerts) sets
      /\ (now - lastAlertCheck s < 30000 -> sets = [])
      /\ (useMockData s = true -> 30000 <= now - lastAlertCheck s ->
          length sets = 1%nat).
Proof.
  intros world s now Hr s'.
  destruct (reachable_config world s Hr) as (Hurl & _ & _).
  destruct (broadcastUpdates_alertSets world now s)
    as (agents & queues & sB & Eu & Em & El & Ea & Hrun).
  subst s'. rewrite Hrun.
  destruct (Z.lt_ge_cases (now - lastAlertCheck s) 30000) as [Hin|Hout].
  - exists []. rewrite checkAndEmitAlerts_skip by (rewrite El; exact Hin).
    cbn [snd]. rewrite Ea, app_nil_r.
    repeat split; auto. intros _ H. lia.
  - rewrite checkAndEmitAlerts_run by (rewrite El; exact Hout).
    pose proof (offline_alerts now sB queues agents) as Hoff.
    rewrite Eu, Em in Hoff. specialize (Hoff Hurl).
    assert (Hall : Forall (fun a => isConnectorOffline a = true ->
                                    al_type a = "error" /\ al_queueId a = None
                                    /\ al_timestamp a = now)
                     (alertsOf now sB queues agents)).
    { unfold alertsOf. rewrite !Forall_app. repeat split.
      - apply List.Forall_forall. intros a Ha Hoffl.
        assert (Hin : In a (List.filter isConnectorOffline
                              (flat_map (queueAlerts now) queues)))
          by (apply filter_In; auto).
        rewrite queueAlerts_not_offline in Hin. destruct Hin.
      - apply List.Forall_forall. intros a Ha Hoffl.
        assert (Hin : In a (List.filter isConnectorOffline
                              (availabilityAlerts now agents)))
          by (apply filter_In; auto).
        rewrite availabilityAlerts_not_offline in Hin. destruct Hin.
      - unfold connectivityAlerts. destruct (_ || _); repeat constructor. }
    destruct (alertsOf now sB queues agents) as [|a l] eqn:Halerts.
    + exists []. cbn [snd emitted with_lastAlertCheck]. rewrite Ea, app_nil_r.
      repeat split; auto. intros Hm _. rewrite Hm in Hoff. discriminate.
    + exists [a :: l]. cbn [snd emitted with_lastAlertCheck with_emitted].
      rewrite alertSets_app, Ea. cbn.
      split; [reflexivity|]. split; [lia|]. split.
      * constructor; [|constructor].
        split; [discriminate|]. split; [exact Hoff|exact Hall].
      * split; [lia|reflexivity].
Qed.

Lemma connector_offline_alert_witness :
  reachable downWorld liveSys
  /\ useMockData liveSys = false
  /\ exists sets,
       alertSets (emitted (snd (broadcastUpdates downWorld 40000 liveSys)))
       = sets
       /\ Forall (fun alerts => List.filter isConnectorOffline alerts = []) sets.
Proof.
  assert (H : reachable downWorld liveSys) by apply reach_initial.
  split; [exact H|]. split; [reflexivity|].
  destruct (connector_offline_alert downWorld liveSys 40000 H)
    as (sets & Hsets & _ & Hall & _).
  exists sets. split; [exact Hsets|].
  eapply List.Forall_impl; [|exact Hall].
  intros alerts (_ & Hlen & _). simpl in Hlen.
  destruct (List.filter isConnectorOffline alerts); [reflexivity|discriminate].
Defined.

(** ** The alert about the agents *)

Section Availability.

(** The comparison [available < total * 0.2] on whole numbers. *)
Lemma lt_fifth k n :
  JS.lt (inject_Z k) (inject_Z n * (2 # 10)) = (5 * k <? n).
Proof.
  unfold JS.lt.
  destruct (Qle_bool (inject_Z n * (2 # 10)) (inject_Z k)) eqn:H; simpl.
  - apply Qle_bool_iff in H. unfold Qle in H. simpl in H.
    symmetry. apply Z.ltb_ge. lia.
  - symmetry. apply Z.ltb_lt.
    destruct (Z.lt_ge_cases (5 * k) n) as [Hlt|Hge]; [exact Hlt|].
    assert (Hle : (inject_Z n * (2 # 10) <= inject_Z k)%Q)
      by (unfold Qle; simpl; lia).
    apply Qle_bool_iff in Hle. congruence.
Qed.

Lemma queueAlerts_not_availability now queues :
  List.filter isLowAvailability (flat_map (queueAlerts now) queues) = [].
Proof.
  induction queues as [|q queues IH]; simpl; [reflexivity|].
  rewrite List.filter_app, IH, app_nil_r. unfold queueAlerts.
  destruct (_ >? 300); destruct (_ >? 10); reflexivity.
Qed.

Lemma connectivityAlerts_not_availability now s :
  List.filter isLowAvailability (connectivityAlerts now s) = [].
Proof. unfold connectivityAlerts. destruct (_ || _); reflexivity. Qed.

End Availability.

(** X12.  The alert [Low Agent Availability].  Among the alerts of one
    evaluation it occurs at most once, and it occurs exactly when the
    roster is not empty and fewer than one agent in five has the status
    [available]: with exactly one in five available there is no alert,
    and an empty roster raises none.  The alert is an error without a
    queue, and its message gives both counts.  On a roster of twelve, as
    the synthetic one, it is raised exactly when at most two agents are
    available. *)
Theorem low_availability_threshold :
  forall (now : Z) (s : Sys) (queues : list Queue) (agents : list Agent),
    let total := Z.of_nat (length agents) in
    let available := count isAvailable agents in
    let found := List.filter isLowAvailability (alertsOf now s queues agents) in
    (found <> [] <-> 0 < total /\ 5 * available < total)
    /\ (length found <= 1)%nat
    /\ Forall (fun a =>
                 al_type a = "error"
                 /\ al_queueId a = None
                 /\ al_message a
                    = "Only " +:+ JS.show_num available +:+ " of "
                      +:+ JS.show_num total +:+ " agents are available") found
    /\ (total = 5 * available -> found = [])
    /\ (total = 12 -> (found <> [] <-> available <= 2)).
Proof.
  intros now s queues agents total available found.
  assert (E : found
              = if (total >? 0) && (5 * available <? total)
                then availabilityAlerts now agents else []).
  { subst found. unfold alertsOf.
    rewrite !List.filter_app, queueAlerts_not_availability,
      connectivityAlerts_not_availability, app_nil_r. simpl.
    unfold availabilityAlerts. cbv zeta. fold total. fold available.
    rewrite lt_fifth.
    destruct ((total >? 0) && (5 * available <? total)); reflexivity. }
  assert (Hiff : found <> [] <-> 0 < total /\ 5 * available < total).
  { rewrite E. destruct (total >? 0) eqn:H1; destruct (5 * available <? total) eqn:H2;
      simpl; try (split; [congruence|lia]).
    unfold availabilityAlerts. cbv zeta. fold total. fold available.
    rewrite lt_fifth, H1, H2. simpl. split; [lia|discriminate]. }
  split; [exact Hiff|]. split; [|split; [|split]].
  - rewrite E. unfold availabilityAlerts.
    destruct (_ && _); [destruct (_ && _)|]; simpl; lia.
  - rewrite E. unfold availabilityAlerts. cbv zeta. fold total. fold available.
    destruct (_ && _); [destruct (_ && _)|]; repeat constructor.
  - intros Ht. destruct found as [|a l] eqn:Hf; [reflexivity|].
    assert (Hne : a :: l <> []) by discriminate.
    apply Hiff in Hne. lia.
  - intros Ht. rewrite Hiff. lia.
Qed.

(** ** The route of the connector events *)

Section Route.

Variable world : World.

Lemma echoes_app l1 l2 : echoes (l1 ++ l2) = (echoes l1 ++ echoes l2)%list.
Proof. unfold echoes. apply flat_map_app. Qed.

Lemma first_in_keys p m k c :
  Registry.first p m = Some (k, c) -> In k (Registry.keys m).
Proof.
  induction m as [|[k' c'] m IH]; simpl; [discriminate|].
  destruct (p c'); [intros [= -> _]; auto|auto].
Qed.

Lemma agentUpdates_app l1 l2 :
  agentUpdates (l1 ++ l2) = (agentUpdates l1 ++ agentUpdates l2)%list.
Proof. unfold agentUpdates. apply flat_map_app. Qed.

(** [broadcastCallUpdate] sends at most one message, an [agent:updated]
    for an agent with the extension asked for. *)
Lemma broadcastCallUpdate_sends now ext s :
  exists s' sent,
    broadcastCallUpdate world now ext s = (Returned tt, s')
    /\ touched now (activeCallsMap s) (activeCallsMap s')
    /\ emitted s' = (emitted s ++ sent)%list
    /\ echoes sent = []
    /\ (length (agentUpdates sent) <= 1)%nat
    /\ Forall (fun a => ag_extension a = ext) (agentUpdates sent).
Proof.
  unfold broadcastCallUpdate, try_catch, bind.
  destruct (quiet_run now (getAgents world now) s
              (quiet_getAgents world now)) as (agents & s1 & Hrun & Hf).
  rewrite Hrun. destruct (List.find _ agents) as [agent|] eqn:Hfind.
  - exists (with_emitted (emitted s1 ++ [AgentUpdated agent]) s1),
      [AgentUpdated agent].
    split; [reflexivity|]. split; [apply Hf|].
    split; [simpl; rewrite (fr_emitted _ _ _ Hf); reflexivity|].
    split; [reflexivity|]. split; [simpl; lia|].
    constructor; [|constructor].
    apply find_some in Hfind as [_ Heq]. unfold JS.seq in Heq.
    destruct (ag_extension agent) as [| |x], ext as [| |y]; try discriminate;
      try reflexivity.
    apply String.eqb_eq in Heq. congruence.
  - exists s1, []. split; [reflexivity|]. split; [apply Hf|].
    split; [rewrite (fr_emitted _ _ _ Hf), app_nil_r; reflexivity|].
    split; [reflexivity|]. split; [simpl; lia|constructor].
Qed.

(** What the handler of an event with its data does: it returns, leaves
    the registry of [registryAfter], and sends no echo and at most one
    [agent:updated]. *)
Lemma handler_sends now event s :
  lacksData event = false ->
  exists s' sent,
    match event with
    | ReqCallStarted data => handleCallStarted world now data
    | ReqCallEnded data => handleCallEnded world now data
    | ReqAgentStatus data => handleAgentStatus data
    | ReqOther _ => ret tt
    end s = (Returned tt, s')
    /\ touched now (registryAfter now event (activeCallsMap s))
         (activeCallsMap s')
    /\ emitted s' = (emitted s ++ sent)%list
    /\ echoes sent = []
    /\ (length (agentUpdates sent) <= 1)%nat
    /\ match event with
       | ReqCallStarted _ | ReqCallEnded _ => True
       | _ => agentUpdates sent = []
       end.
Proof.
  intros Hdata. destruct event as [[cd|]|[cd|]|[d|]|t]; try discriminate.
  - unfold handleCallStarted, bind, modify, emit. simpl.
    destruct (JS.truthy (cd_extension cd)).
    + match goal with |- context [broadcastCallUpdate world now ?e ?s0] =>
        destruct (broadcastCallUpdate_sends now e s0)
          as (s' & sent & Hrun & Ht & He & Hec & Hup & _)
      end.
      exists s', (CallStarted (callInfoOf now cd) :: sent).
      rewrite Hrun. cbn in Ht, He.
      split; [reflexivity|]. split; [exact Ht|].
      split; [rewrite He, <- app_assoc; reflexivity|].
      split; [exact Hec|]. split; [exact Hup|exact I].
    + eexists _, [CallStarted (callInfoOf now cd)]. unfold ret.
      split; [reflexivity|]. split; [apply touched_refl|].
      split; [reflexivity|]. split; [reflexivity|]. split; [simpl; lia|exact I].
  - unfold handleCallEnded, bind, get, modify, emit. simpl.
    destruct (Registry.first _ _) as [[k c]|].
    + simpl. destruct (JS.truthy (ci_extension c)).
      * match goal with |- context [broadcastCallUpdate world now ?e ?s0] =>
          destruct (broadcastCallUpdate_sends now e s0)
            as (s' & sent & Hrun & Ht & He & Hec & Hup & _)
        end.
        eexists s', (CallEnded (refresh now c) now _ :: sent).
        rewrite Hrun. cbn in Ht, He.
        split; [reflexivity|]. split; [exact Ht|].
        split; [rewrite He, <- app_assoc; reflexivity|].
        split; [exact Hec|]. split; [exact Hup|exact I].
      * eexists _, [CallEnded (refresh now c) now _]. unfold ret.
        split; [reflexivity|]. split; [apply touched_refl|].
        split; [reflexivity|]. split; [reflexivity|].
        split; [simpl; lia|exact I].
    + exists s, []. unfold ret. split; [reflexivity|].
      split; [apply touched_refl|]. split; [symmetry; apply app_nil_r|].
      split; [reflexivity|]. split; [simpl; lia|exact I].
  - exists (with_emitted (emitted s ++ [AgentStatus d]) s), [AgentStatus d].
    split; [reflexivity|]. split; [apply touched_refl|].
    repeat split. simpl. lia.
  - exists s, []. split; [reflexivity|]. split; [apply touched_refl|].
    split; [symmetry; apply app_nil_r|]. repeat split. simpl. lia.
Qed.

End Route.

(** X13.  The route [POST /api/connector/event].  It answers 500 exactly
    when the request has one of the three handled types and no data, and
    then nothing at all has happened: no message, no echo, no change of
    the registry.  Otherwise it answers 200 and echoes the request once
    as [connector:event], also for types it does not handle; the event
    has sent at most one [agent:updated], none for an agent-status or
    unhandled event; and the registry is the one [registryAfter]
    describes, durations apart, so that an event adds or removes at most
    one call. *)
Theorem connector_event_route :
  forall (world : World) (now : Z) (event : ConnectorRequest) (s : Sys),
    let r := postConnectorEvent world now event s in
    let m := activeCallsMap s in
    let m' := activeCallsMap (snd r) in
    fst r = Returned (if lacksData event then 500 else 200)
    /\ (lacksData event = true -> snd r = s)
    /\ echoes (emitted (snd r))
       = (echoes (emitted s) ++ if lacksData event then [] else [event])%list
    /\ (exists updates,
           agentUpdates (emitted (snd r))
           = (agentUpdates (emitted s) ++ updates)%list
           /\ (length updates <= 1)%nat
           /\ match event with
              | ReqCallStarted _ | ReqCallEnded _ => True
              | _ => updates = []
              end)
    /\ touched now (registryAfter now event m) m'
    /\ (length m <= S (length m'))%nat /\ (length m' <= S (length m))%nat.
Proof.
  intros world now event s r m m'.
  destruct (lacksData event) eqn:Hdata.
  - assert (Hr : r = (Returned 500, s)).
    { subst r. destruct event as [[cd|]|[cd|]|[d|]|t]; try discriminate;
        reflexivity. }
    subst m'. rewrite Hr. cbn [fst snd].
    split; [reflexivity|]. split; [reflexivity|].
    split; [symmetry; apply app_nil_r|]. split.
    { exists []. split; [symmetry; apply app_nil_r|]. split; [simpl; lia|].
      destruct event as [[cd|]|[cd|]|[d|]|t]; try discriminate; auto. }
    split; [|fold m; lia].
    destruct event as [[cd|]|[cd|]|[d|]|t]; try discriminate;
      apply touched_refl.
  - destruct (handler_sends world now event s Hdata)
      as (s' & sent & Hrun & Ht & He & Hec & Hup & Hno).
    assert (Hr : r = (Returned 200,
                      with_emitted (emitted s' ++ [ConnectorEvent event]) s')).
    { subst r. unfold postConnectorEvent, try_catch, bind. rewrite Hrun.
      reflexivity. }
    subst m'. rewrite Hr. cbn [fst snd emitted with_emitted activeCallsMap].
    split; [reflexivity|]. split; [discriminate|].
    split; [rewrite He, !echoes_app, Hec, app_nil_r; reflexivity|]. split.
    { exists (agentUpdates sent). rewrite He, !agentUpdates_app. cbn.
      rewrite app_nil_r. split; [reflexivity|]. split; [exact Hup|].
      destruct event as [[cd|]|[cd|]|[d|]|t]; auto. }
    split; [exact Ht|].
    apply touched_length in Ht. rewrite Ht. fold m.
    destruct event as [[cd|]|[cd|]|[d|]|t]; cbn [registryAfter]; try lia.
    + destruct (in_dec string_dec (ci_id (callInfoOf now cd)) (Registry.keys m))
        as [Hin|Hout].
      * pose proof (keys_set_in (ci_id (callInfoOf now cd)) (callInfoOf now cd) m Hin) as Hk.
        apply (f_equal (@length string)) in Hk. unfold Registry.keys in Hk.
        rewrite !length_map in Hk. lia.
      * rewrite set_fresh_app by exact Hout. rewrite length_app. simpl. lia.
    + destruct (Registry.first _ m) as [[k c]|] eqn:Hfirst; [|lia].
      pose proof (length_delete_present k m (first_in_keys _ _ _ _ Hfirst)) as Hlen.
      lia.
Qed.

(** ** The synthetic queues *)

Section SyntheticQueues.

Variable world : World.
Hypothesis draws : random_ok world.

Lemma mockQueue_bounds id name ext b1 b2 b3 t a ab sl n na no st to re s :
  0 < b1 -> 0 < b2 -> 0 < b3 ->
  exists q s',
    mockQueue world id name ext b1 b2 b3 t a ab sl n na no st to re s
    = (Returned q, s')
    /\ qu_id q = Some id
    /\ 0 <= qu_waitingCalls q < b1
    /\ 0 <= qu_longestWait q < b2
    /\ 0 <= qu_averageWait q < b3.
Proof.
  intros H1 H2 H3. cbv [mockQueue bind ret Math_random]. do 2 eexists.
  split; [reflexivity|]. cbn [qu_id qu_waitingCalls qu_longestWait qu_averageWait].
  split; [reflexivity|].
  repeat split; apply floor_scaled_range; try assumption; apply draws.
Qed.

Lemma queueAlerts_below now q :
  qu_waitingCalls q <= 10 ->
  List.filter isHighVolume (queueAlerts now q) = []
  /\ Forall (fun a => isLongWait a = true /\ al_queueId a = qu_id q)
       (queueAlerts now q)
  /\ (qu_longestWait q <= 300 -> queueAlerts now q = []).
Proof.
  intros Hw. unfold queueAlerts.
  assert (Hv : (qu_waitingCalls q >? 10) = false) by lia. rewrite Hv.
  destruct (qu_longestWait q >? 300) eqn:Hl; simpl.
  - split; [reflexivity|]. split; [repeat constructor|lia].
  - repeat split. constructor.
Qed.

End SyntheticQueues.

(** Run the next [mockQueue] of the goal, keeping its bounds. *)
Ltac bound_mockQueue w Hw :=
  match goal with
  | |- context [mockQueue w ?id ?name ?ext ?b1 ?b2 ?b3 ?t ?a ?ab ?sl ?n ?na
                  ?no ?st ?to ?re ?s] =>
      let q := fresh "q" in
      let s' := fresh "s" in
      let Hrun := fresh "Hrun" in
      let Hid := fresh "Hid" in
      let Hwait := fresh "Hwait" in
      let Hlong := fresh "Hlong" in
      let Havg := fresh "Havg" in
      destruct (mockQueue_bounds w Hw id name ext b1 b2 b3 t a ab sl n na no st
                  to re s ltac:(lia) ltac:(lia) ltac:(lia))
        as (q & s' & Hrun & Hid & Hwait & Hlong & Havg);
      rewrite Hrun; clear Hrun; cbv beta iota
  end.

(** X14.  The synthetic queues and the alerts.  While every draw lies in
    [0, 1), the four synthetic queues have between 0 and 4, 7, 2 and 9
    waiting calls and a longest wait below 300, 400, 200 and 600
    seconds.  So synthetic queues never raise [High Queue Volume], and
    the only queue alerts they can raise are [Long Wait Time] for
    [queue_2] and [queue_4]. *)
Theorem synthetic_queues_and_alerts :
  forall (world : World) (now : Z) (s : Sys),
    random_ok world ->
    exists queues s',
      getMockQueues world s = (Returned queues, s')
      /\ Forall2 (fun q b =>
                    qu_id q = Some (fst b)
                    /\ 0 <= qu_waitingCalls q < fst (snd b)
                    /\ 0 <= qu_longestWait q < snd (snd b))
           queues
           [("queue_1", (5, 300)); ("queue_2", (8, 400));
            ("queue_3", (3, 200)); ("queue_4", (10, 600))]
      /\ List.filter isHighVolume (flat_map (queueAlerts now) queues) = []
      /\ Forall (fun a =>
                   isLongWait a = true
                   /\ (al_queueId a = Some "queue_2"
                       \/ al_queueId a = Some "queue_4"))
           (flat_map (queueAlerts now) queues).
Proof.
  intros world now s Hw. unfold getMockQueues, bind.
  do 4 bound_mockQueue world Hw. unfold ret. do 2 eexists.
  split; [reflexivity|]. split.
  { repeat (apply List.Forall2_cons; [cbn [fst snd]; auto|]).
    apply List.Forall2_nil. }
  destruct (queueAlerts_below now q ltac:(lia)) as (V1 & _ & Q1).
  destruct (queueAlerts_below now q0 ltac:(lia)) as (V2 & L2 & _).
  destruct (queueAlerts_below now q1 ltac:(lia)) as (V3 & _ & Q3).
  destruct (queueAlerts_below now q2 ltac:(lia)) as (V4 & L4 & _).
  specialize (Q1 ltac:(lia)). specialize (Q3 ltac:(lia)).
  cbn [flat_map]. rewrite Q1, Q3, app_nil_r. cbn [app].
  split.
  - rewrite List.filter_app, V2, V4. reflexivity.
  - apply Forall_app. split.
    + eapply List.Forall_impl; [|exact L2]. intros a [Ha Hq].
      split; [exact Ha|]. left. congruence.
    + eapply List.Forall_impl; [|exact L4]. intros a [Ha Hq].
      split; [exact Ha|]. right. congruence.
Qed.

Lemma synthetic_queues_and_alerts_witness :
  random_ok cyclingWorld
  /\ exists queues s',
       getMockQueues cyclingWorld demoSys = (Returned queues, s')
       /\ List.filter isHighVolume (flat_map (queueAlerts 40000) queues) = [].
Proof.
  split; [exact cyclingWorld_ok|].
  destruct (synthetic_queues_and_alerts cyclingWorld 40000 demoSys cyclingWorld_ok)
    as (queues & s' & Hrun & _ & Hv & _).
  exists queues, s'. split; [exact Hrun|exact Hv].
Defined.

(** ** The synthetic calls *)

Section SyntheticCalls.

Lemma append_inj_l p a b : p +:+ a = p +:+ b -> a = b.
Proof.
  induction p as [|c p IH]; simpl; [auto|]. intros [= H]. auto.
Qed.

Lemma show_num_inj a b : JS.show_num a = JS.show_num b -> a = b.
Proof. unfold JS.show_num. apply pretty_Z_inj. Qed.

Lemma imapZ_in {A B} (g : Z -> B) (l : list A) :
  forall i0 x, In x (imapZ (fun i _ => g i) i0 l) -> exists i, i0 <= i /\ x = g i.
Proof.
  induction l as [|y l IH]; intros i0 x; simpl; [tauto|].
  intros [<-|Hin]; [exists i0; split; [lia|reflexivity]|].
  destruct (IH _ _ Hin) as (i & Hi & ->). exists i. split; [lia|reflexivity].
Qed.

Lemma imapZ_NoDup {A B} (g : Z -> B) (l : list A) :
  (forall i j, g i = g j -> i = j) ->
  forall i0, List.NoDup (imapZ (fun i _ => g i) i0 l).
Proof.
  intros Hg. induction l as [|y l IH]; intros i0; simpl; constructor.
  - intros Hin. apply imapZ_in in Hin as (i & Hi & Heq).
    apply Hg in Heq. lia.
  - apply IH.
Qed.

Lemma imapZ_nth {A B} (g : Z -> A -> B) d (l : list A) :
  forall i0 k, (k < length l)%nat ->
               In (g (i0 + Z.of_nat k) (nth k l d)) (imapZ g i0 l).
Proof.
  induction l as [|y l IH]; intros i0 k Hk; simpl in *; [lia|].
  destruct k as [|k].
  - left. f_equal. lia.
  - right. replace (i0 + Z.of_nat (S k)) with (i0 + 1 + Z.of_nat k) by lia.
    apply IH. lia.
Qed.

Variable world : World.
Hypothesis draws : random_ok world.

(** The synthetic roster has an agent for each of the twelve
    extensions from 1000. *)
Lemma roster_has t s agents s' k :
  getMockAgents world t s = (Returned agents, s') ->
  0 <= k < 12 ->
  exists a,
    In a agents
    /\ ag_id a = Some ("agent_" +:+ JS.show_num (1000 + k - 999))
    /\ ag_extension a = Some (JS.show_num (1000 + k)).
Proof.
  intros Hrun Hk.
  destruct (getMockAgents_fixed world draws t s) as (agents' & s1 & Hrun' & Hmap & _).
  rewrite Hrun in Hrun'. injection Hrun' as <- <-.
  pose proof (imapZ_nth rosterEntry "" names 0 (Z.to_nat k)) as Hin.
  rewrite <- Hmap in Hin. apply in_map_iff in Hin; [|simpl; lia].
  destruct Hin as (a & Hid & Hin). exists a. split; [exact Hin|].
  unfold agentIdentity, rosterEntry in Hid.
  injection Hid; intros; subst.
  replace (1000 + k - 999) with (0 + Z.of_nat (Z.to_nat k) + 1) by lia.
  replace (1000 + k) with (1000 + (0 + Z.of_nat (Z.to_nat k))) by lia.
  split; assumption.
Qed.

Lemma mockCall_fields now i s :
  exists c s',
    mockCall world now i s = (Returned c, s')
    /\ ca_id c = Some ("call_" +:+ JS.show_num now +:+ "_" +:+ JS.show_num i)
    /\ In (ca_direction c) directions
    /\ 0 <= ca_duration c < 600
    /\ (if String.eqb (ca_direction c) "internal"
        then ca_queueId c = "direct" /\ ca_queueName c = "Direct Call"
             /\ ca_bridgedChannel c = None
        else In (ca_queueId c, ca_queueName c) mockCallQueues)
    /\ (exists k, 0 <= k < 12
                  /\ ca_agentId c = Some ("agent_" +:+ JS.show_num (1000 + k - 999))
                  /\ ca_agentExtension c = Some (JS.show_num (1000 + k))).
Proof.
  assert (Hd : In (JS.pick directions (random world (rpos s))) directions).
  { apply pick_in; [discriminate| |]; apply draws. }
  pose proof (floor_scaled_range (random world (rpos (drawn s))) 4
                (proj1 (draws _)) (proj2 (draws _)) ltac:(lia)) as Hq.
  assert (Hqueue : In (nth (Z.to_nat (JS.floor_scaled
                                        (random world (rpos (drawn s))) 4))
                         mockCallQueues ("", "")) mockCallQueues).
  { apply nth_In. change (length mockCallQueues) with 4%nat. lia. }
  pose proof (floor_scaled_range (random world (rpos (drawn (drawn s)))) 12
                (proj1 (draws _)) (proj2 (draws _)) ltac:(lia)) as Hk.
  assert (Hdur : forall r, (0 <= r)%Q /\ (r < 1)%Q -> 0 <= JS.floor_scaled r 600 < 600).
  { intros r [H0 H1]. apply floor_scaled_range; [assumption|assumption|lia]. }
  cbv [mockCall bind ret Math_random].
  destruct Hd as [Hd|[Hd|[Hd|[]]]]; rewrite <- Hd;
    cbn [String.eqb Ascii.eqb Bool.eqb andb fst snd];
    do 2 eexists; (split; [reflexivity|]);
    cbn [ca_id ca_direction ca_duration ca_queueId ca_queueName
         ca_bridgedChannel ca_agentId ca_agentExtension
         String.eqb Ascii.eqb Bool.eqb andb];
    (split; [reflexivity|]);
    (split; [simpl; tauto|]);
    (split; [apply Hdur, draws|]);
    (split; [first [solve [repeat split]
                   |destruct (nth _ mockCallQueues _); exact Hqueue]|]);
    eexists; (split; [exact Hk|split; reflexivity]).
Qed.

Lemma mockCalls_loop_fields now (P : Call -> Prop) :
  (forall i s, exists c s',
      mockCall world now i s = (Returned c, s')
      /\ ca_id c = Some ("call_" +:+ JS.show_num now +:+ "_" +:+ JS.show_num i)
      /\ P c) ->
  forall n i s,
    exists calls s',
      mockCalls_loop world now n i s = (Returned calls, s')
      /\ length calls = n
      /\ map ca_id calls
         = imapZ (fun j _ => Some ("call_" +:+ JS.show_num now +:+ "_"
                                   +:+ JS.show_num j)) i calls
      /\ Forall P calls.
Proof.
  intros Hone. induction n as [|n IH]; intros i s; simpl.
  - exists [], s. repeat split. constructor.
  - destruct (Hone i s) as (c & s1 & Hc & Hid & HP).
    destruct (IH (i + 1) s1) as (cs & s2 & Hcs & Hlen & Hids & HF).
    exists (c :: cs), s2. unfold bind. rewrite Hc, Hcs. simpl.
    split; [reflexivity|]. split; [congruence|].
    split; [congruence|constructor; assumption].
Qed.

End SyntheticCalls.

(** X15.  The synthetic calls.  While every draw lies in [0, 1), a
    synthetic call list has between 2 and 9 calls; their ids are
    [call_<time>_<index>] and so pairwise distinct; each call has one of
    the three directions and a duration below 600 s; an internal call
    has the queue [direct] and no bridged channel, and any other call
    has one of the four synthetic queues, id and name together; and the
    agent id and extension of each call are those of one agent of the
    synthetic roster. *)
Theorem synthetic_calls_consistent :
  forall (world : World) (now : Z) (s : Sys),
    random_ok world ->
    exists calls s',
      getMockCalls world now s = (Returned calls, s')
      /\ (2 <= length calls <= 9)%nat
      /\ map ca_id calls
         = imapZ (fun j _ => Some ("call_" +:+ JS.show_num now +:+ "_"
                                   +:+ JS.show_num j)) 0 calls
      /\ List.NoDup (map ca_id calls)
      /\ Forall (fun c =>
                   In (ca_direction c) directions
                   /\ 0 <= ca_duration c < 600
                   /\ (if String.eqb (ca_direction c) "internal"
                       then ca_queueId c = "direct"
                            /\ ca_queueName c = "Direct Call"
                            /\ ca_bridgedChannel c = None
                       else In (ca_queueId c, ca_queueName c) mockCallQueues)
                   /\ (forall t s0 agents s1,
                          getMockAgents world t s0 = (Returned agents, s1) ->
                          exists a,
                            In a agents
                            /\ ag_id a = ca_agentId c
                            /\ ag_extension a = ca_agentExtension c)) calls.
Proof.
  intros world now s Hw.
  pose proof (floor_scaled_range (random world (rpos s)) 8
                (proj1 (Hw _)) (proj2 (Hw _)) ltac:(lia)) as Hr.
  cbv [getMockCalls bind Math_random].
  match goal with |- context [mockCalls_loop world now ?n ?i ?s0] =>
    destruct (mockCalls_loop_fields world now _ (mockCall_fields world Hw now) n i s0)
      as (calls & s' & Hrun & Hlen & Hids & Hall)
  end.
  exists calls, s'. split; [exact Hrun|]. split; [rewrite Hlen; lia|].
  split; [exact Hids|]. split.
  - rewrite Hids. apply imapZ_NoDup. intros i j [= H].
    apply append_inj_l in H. apply append_inj_l in H.
    apply append_inj_l in H. apply show_num_inj, H.
  - eapply List.Forall_impl; [|exact Hall].
    intros c (Hd & Hdur & Hq & k & Hk & Hid & Hext).
    repeat (split; [assumption|]).
    intros t s0 agents s1 Hagents.
    destruct (roster_has world Hw t s0 agents s1 k Hagents Hk) as (a & Hin & Ha & He).
    exists a. split; [exact Hin|]. split; congruence.
Qed.

Lemma synthetic_calls_consistent_witness :
  random_ok cyclingWorld
  /\ exists calls s',
       getMockCalls cyclingWorld 1000 demoSys = (Returned calls, s')
       /\ List.NoDup (map ca_id calls).
Proof.
  split; [exact cyclingWorld_ok|].
  destruct (synthetic_calls_consistent cyclingWorld 1000 demoSys cyclingWorld_ok)
    as (calls & s' & Hrun & _ & _ & Hnd & _).
  exists calls, s'. split; [exact Hrun|exact Hnd].
Defined.

(** ** A call between its start and its end *)

Section Ageing.

Lemma aged_refl m : aged m m.
Proof. induction m; constructor; auto. Qed.

Lemma aged_trans m1 m2 m3 : aged m1 m2 -> aged m2 m3 -> aged m1 m3.
Proof.
  intros H. revert m3. induction H as [|a b m1 m2 [Hk Hc] _ IH]; intros m3 H';
    inversion H' as [|? c ? m3' [Hk' Hc'] Hr]; subst; constructor.
  - split; congruence.
  - apply IH, Hr.
Qed.

Lemma touched_aged now m m' : touched now m m' -> aged m m'.
Proof.
  induction 1 as [|kc kc' m m' H _ IH]; constructor; [|exact IH].
  destruct H as [->| ->]; split; reflexivity.
Qed.

Lemma aged_keys m m' : aged m m' -> Registry.keys m' = Registry.keys m.
Proof.
  induction 1 as [|kc kc' m m' [Hk _] _ IH]; simpl; [reflexivity|].
  f_equal; assumption.
Qed.

(** Recomputing the duration forgets the one that was there. *)
Lemma aged_refresh now c c' :
  set_duration c' 0 = set_duration c 0 -> refresh now c' = refresh now c.
Proof.
  destruct c, c'. unfold set_duration, refresh, elapsed. simpl.
  intros [= -> -> -> -> -> -> -> -> ->]. reflexivity.
Qed.

Lemma aged_first p m m' k c :
  (forall x, p (set_duration x 0) = p x) ->
  aged m m' ->
  Registry.first p m = Some (k, c) ->
  exists c', Registry.first p m' = Some (k, c')
             /\ set_duration c' 0 = set_duration c 0.
Proof.
  intros Hp. induction 1 as [|[k1 c1] [k2 c2] m m' [Hk Hc] _ IH]; simpl;
    [discriminate|].
  simpl in Hk, Hc. subst k2.
  assert (E : p c2 = p c1) by (rewrite <- (Hp c2), <- (Hp c1), Hc; reflexivity).
  rewrite E. destruct (p c1); [|exact IH].
  intros [= <- <-]. exists c2. split; [reflexivity|exact Hc].
Qed.

Variable world : World.

Lemma broadcastUpdates_registry now s :
  activeCallsMap (snd (broadcastUpdates world now s))
  = Registry.update_all (refresh now) (activeCallsMap s).
Proof.
  destruct (broadcastUpdates_run world now s)
    as (agents & s1 & queues & s2 & calls & s3 & stats & s4
        & _ & _ & _ & _ & F & Hrun).
  rewrite Hrun.
  destruct (checkAndEmitAlerts_keeps now queues agents
              (afterBroadcasts now agents queues calls stats s4))
    as (_ & Hm & _).
  rewrite Hm. unfold afterBroadcasts.
  cbn [activeCallsMap with_emitted with_activeCallsMap].
  apply touched_refresh_all, F.
Qed.

Lemma quiet_aged now {A} (c : M A) s :
  quiet now c -> aged (activeCallsMap s) (activeCallsMap (snd (c s))).
Proof.
  intros H. destruct (H s) as [F _]. eapply touched_aged, F.
Qed.

(** Without a call event the registry only ages. *)
Lemma idle_aged s s' :
  idle world s s' -> aged (activeCallsMap s) (activeCallsMap s').
Proof.
  induction 1 as [s|now s s' _ IH|now s s' _ IH|s s' _ IH|now s s' _ IH
                  |now s s' _ IH|now s s' _ IH|now s s' _ IH
                  |now data s s' _ IH|now type s s' _ IH];
    [apply aged_refl|eapply aged_trans; [exact IH|]..].
  - rewrite broadcastUpdates_registry.
    eapply touched_aged, touched_update_all.
  - unfold startPolling, bind, get. cbn [fst snd].
    destruct (pollingInterval s'); [apply aged_refl|].
    unfold modify. cbn [fst snd].
    rewrite broadcastUpdates_registry.
    eapply touched_aged, (touched_update_all now).
  - unfold stopPolling, bind, get. cbn [fst snd].
    destruct (pollingInterval s'); apply aged_refl.
  - apply (quiet_aged now), quiet_getAgents.
  - apply (quiet_aged now), quiet_apiQueues.
  - apply (quiet_aged now), quiet_getActiveCalls.
  - apply (quiet_aged now), quiet_getCallCenterStats.
  - destruct data; apply aged_refl.
  - apply aged_refl.
Qed.

Lemma aged_ok m m' : aged m m' -> Registry.ok m -> Registry.ok m'.
Proof.
  intros H [Hnd Hall]. split.
  - rewrite (aged_keys _ _ H). exact Hnd.
  - clear Hnd. induction H as [|[k c] [k' c'] m m' [Hk Hc] _ IH]; [constructor|].
    inversion Hall as [|? ? [Hid Hun] Hall']; subst. simpl in *. subst k'.
    constructor; [|apply IH, Hall'].
    assert (E1 : ci_id c' = ci_id c)
      by exact (f_equal ci_id Hc).
    assert (E2 : ci_uniqueid c' = ci_uniqueid c)
      by exact (f_equal ci_uniqueid Hc).
    split; simpl; rewrite ?E1, ?E2; assumption.
Qed.

End Ageing.

(** X16.  A call between its start and its end.  While the server
    handles no call event (ticks, timer operations, reads of the
    listings, agent-status and unhandled events, in any number and
    order), the registry keeps the same calls under the same keys; only
    durations are recomputed.  So when a call started at [t0] with a
    uniqueid is ended at [t2] after any such activity, the [call:ended]
    message carries the call as it was started, with the duration
    [floor((t2 - t0) / 1000)], and the key is gone. *)
Theorem call_survives_until_ended :
  forall (world : World) (t0 t2 : Z) (started ended : CallData) (u : string)
         (s s' : Sys),
    reachable world s ->
    u <> "" ->
    cd_uniqueid started = Some u ->
    cd_uniqueid ended = Some u ->
    idle world (snd (handleCallStarted world t0 (Some started) s)) s' ->
    let s1 := snd (handleCallStarted world t0 (Some started) s) in
    let s2 := snd (handleCallEnded world t2 (Some ended) s') in
    let removed := refresh t2 (callInfoOf t0 started) in
    Registry.keys (activeCallsMap s') = Registry.keys (activeCallsMap s1)
    /\ aged (activeCallsMap s1) (activeCallsMap s')
    /\ callsEnded (emitted s2)
       = (callsEnded (emitted s')
          ++ [(removed, t2, JS.or_str (cd_disposition ended) "ANSWERED")])%list
    /\ ci_duration removed = (t2 - t0) / 1000
    /\ Registry.get u (activeCallsMap s2) = None.
Proof.
  intros world t0 t2 started ended u s s' Hr Hu Hs He Hidle s1 s2 removed.
  pose proof (idle_aged world _ _ Hidle) as Haged. fold s1 in Haged.
  pose proof (handleCallStarted_ok world t0 started s (reachable_ok world _ Hr))
    as Hok1. fold s1 in Hok1.
  pose proof (aged_ok _ _ Haged Hok1) as Hok'.
  assert (Hid : ci_id (callInfoOf t0 started) = u).
  { unfold callInfoOf. simpl. rewrite Hs. simpl.
    apply String.eqb_neq in Hu. rewrite Hu. reflexivity. }
  assert (Hget : Registry.get u (activeCallsMap s1) = Some (callInfoOf t0 started)).
  { destruct (handleCallStarted_run world t0 started s) as (x & tl & Hrun & Ht & _).
    subst s1. rewrite Hrun. cbn [snd]. rewrite Hid in Ht.
    destruct (touched_get t0 _ _ u _ Ht (get_set_same _ _ _))
      as (c' & Hc' & [->| ->]); [exact Hc'|].
    rewrite refresh_started_now in Hc'. exact Hc'. }
  assert (Hfirst : Registry.first (ends (Some u)) (activeCallsMap s1)
                   = Some (u, callInfoOf t0 started)).
  { apply first_selects_key; try assumption.
    unfold ends, callInfoOf. simpl. rewrite Hs. simpl.
    rewrite String.eqb_refl. reflexivity. }
  destruct (aged_first (ends (Some u)) _ _ u _ ltac:(reflexivity) Haged Hfirst)
    as (c' & Hfirst' & Hc').
  rewrite <- He in Hfirst'.
  destruct (handleCallEnded_run world t2 ended s' u c' Hfirst')
    as (x & Hrun & Ht & Hem).
  split; [apply aged_keys, Haged|]. split; [exact Haged|].
  subst s2. rewrite Hrun. cbn [snd]. split.
  { rewrite Hem. subst removed. rewrite (aged_refresh t2 _ _ Hc'). reflexivity. }
  split.
  { subst removed. unfold refresh, elapsed, JS.floor_div, callInfoOf. reflexivity. }
  destruct (Registry.get u (activeCallsMap x)) as [c|] eqn:Hg; [|reflexivity].
  apply get_key in Hg. rewrite (touched_keys _ _ _ Ht) in Hg.
  exfalso.
  pose proof (get_delete_same u (activeCallsMap s') (proj1 Hok')) as Hnone.
  unfold Registry.keys in Hg. apply in_map_iff in Hg as ([k c0] & Hk & Hin).
  simpl in Hk. subst k.
  assert (Hnd : List.NoDup (Registry.keys (Registry.delete u (activeCallsMap s'))))
    by (apply NoDup_keys_delete, Hok').
  clear - Hnone Hin.
  induction (Registry.delete u (activeCallsMap s')) as [|[k1 c1] m IH];
    simpl in *; [tauto|].
  destruct (String.eqb_spec k1 u) as [->|Hne]; [discriminate|].
  destruct Hin as [[= -> _]|Hin]; [congruence|auto].
Qed.

Lemma call_survives_until_ended_witness :
  let started := callEvent (Some "42") (Some "2001") in
  let s1 := snd (handleCallStarted liveWorld 0 (Some started) liveSys) in
  let s' := snd (broadcastUpdates liveWorld 30000 s1) in
  let s2 := snd (handleCallEnded liveWorld 65000 (Some started) s') in
  idle liveWorld s1 s'
  /\ map (fun e => ci_duration (fst (fst e))) (callsEnded (emitted s2)) = [65].
Proof.
  cbv zeta.
  assert (Hidle : idle liveWorld
                    (snd (handleCallStarted liveWorld 0
                            (Some (callEvent (Some "42") (Some "2001"))) liveSys))
                    (snd (broadcastUpdates liveWorld 30000
                            (snd (handleCallStarted liveWorld 0
                                    (Some (callEvent (Some "42") (Some "2001")))
                                    liveSys)))))
    by (apply idle_tick, idle_refl).
  split; [exact Hidle|].
  destruct (call_survives_until_ended liveWorld 0 65000
              (callEvent (Some "42") (Some "2001"))
              (callEvent (Some "42") (Some "2001")) "42" liveSys _
              (reach_initial liveWorld 0 (Some "http://pbx.example:8080"))
              ltac:(discriminate) eq_refl eq_refl Hidle)
    as (_ & _ & Hem & _).
  rewrite Hem. rewrite map_app. vm_compute. reflexivity.
Defined.

(** ** The longest wait, in the statistics and in the alerts *)

Section LongWait.

Lemma max_with_zero_le xs b :
  0 <= b -> (JS.max_with_zero xs <= b <-> Forall (fun x => x <= b) xs).
Proof.
  intros Hb. unfold JS.max_with_zero.
  induction xs as [|x xs IH]; simpl.
  - split; [constructor|lia].
  - split.
    + intros H. constructor; [lia|]. apply IH. lia.
    + intros H. inversion H; subst. apply Z.max_lub; [assumption|].
      apply IH. assumption.
Qed.

Lemma long_wait_alerts now queues :
  map al_queueId (List.filter isLongWait (flat_map (queueAlerts now) queues))
  = map qu_id (List.filter (fun q => qu_longestWait q >? 300) queues).
Proof.
  induction queues as [|q queues IH]; simpl; [reflexivity|].
  rewrite List.filter_app, map_app, IH. unfold queueAlerts.
  destruct (qu_longestWait q >? 300); destruct (qu_waitingCalls q >? 10);
    reflexivity.
Qed.

Lemma other_alerts_not_long_wait now s agents :
  List.filter isLongWait (availabilityAlerts now agents ++ connectivityAlerts now s)
  = [].
Proof.
  unfold availabilityAlerts, connectivityAlerts.
  destruct (_ && _); destruct (_ || _); reflexivity.
Qed.

End LongWait.

(** X17.  The longest wait, in the statistics and in the alerts.  Among
    the alerts of one evaluation the [Long Wait Time] alerts are those
    of the queues that have waited more than 300 seconds, one each and
    in the order of the queues; a queue at exactly 300 raises none.  The
    statistics computed from the same queues agree with them: their
    longest wait is at most 300 exactly when there is no such alert. *)
Theorem long_wait_in_stats_and_alerts :
  forall (now now' : Z) (s : Sys) (agents : list Agent) (queues : list Queue)
         (calls : list Call),
    let found := List.filter isLongWait (alertsOf now s queues agents) in
    let longest :=
      st_longestWaitTime (stats_queues (statsOf now' agents queues calls)) in
    map al_queueId found
    = map qu_id (List.filter (fun q => qu_longestWait q >? 300) queues)
    /\ (found = [] <-> longest <= 300)
    /\ (found = [] <-> Forall (fun q => qu_longestWait q <= 300) queues)
    /\ Forall (fun a => al_type a = "warning" /\ al_timestamp a = now) found.
Proof.
  intros now now' s agents queues calls found longest.
  assert (E : found = List.filter isLongWait (flat_map (queueAlerts now) queues)).
  { subst found. unfold alertsOf.
    rewrite List.filter_app, other_alerts_not_long_wait, app_nil_r. reflexivity. }
  assert (Hmap : map al_queueId found
                 = map qu_id (List.filter (fun q => qu_longestWait q >? 300) queues))
    by (rewrite E; apply long_wait_alerts).
  assert (Hall : found = [] <-> Forall (fun q => qu_longestWait q <= 300) queues).
  { split.
    - intros Hnil. rewrite Hnil in Hmap. simpl in Hmap.
      symmetry in Hmap. apply map_eq_nil in Hmap.
      apply List.Forall_forall. intros q Hin.
      destruct (Z.gtb_spec (qu_longestWait q) 300) as [Hgt|Hle]; [|exact Hle].
      assert (Hq : In q (List.filter (fun q => qu_longestWait q >? 300) queues)).
      { apply filter_In. split; [exact Hin|]. apply Z.gtb_lt. lia. }
      rewrite Hmap in Hq. destruct Hq.
    - intros Hf. destruct found as [|a l]; [reflexivity|].
      simpl in Hmap.
      destruct (List.filter (fun q => qu_longestWait q >? 300) queues) as [|q l']
        eqn:Hfil; [discriminate|].
      assert (Hq : In q (List.filter (fun q => qu_longestWait q >? 300) queues))
        by (rewrite Hfil; left; reflexivity).
      apply filter_In in Hq as [Hin Hgt].
      eapply List.Forall_forall in Hf; [|exact Hin]. lia. }
  split; [exact Hmap|]. split; [|split; [exact Hall|]].
  - rewrite Hall. subst longest. simpl.
    rewrite max_with_zero_le by lia. rewrite Forall_map. reflexivity.
  - rewrite E. clear. induction queues as [|q queues IH]; simpl; [constructor|].
    rewrite List.filter_app. apply Forall_app. split; [|exact IH].
    unfold queueAlerts.
    destruct (qu_longestWait q >? 300); destruct (qu_waitingCalls q >? 10);
      repeat constructor.
Qed.

(** ** What a tick sends in mock mode *)

Section MockTick.

Variable world : World.
Hypothesis draws : random_ok world.

(** In mock mode the three reads answer the synthetic data: twelve
    agents, four queues, two to nine calls. *)
Lemma mock_reads now s agents s1 queues s2 calls s3 :
  useMockData s = true ->
  getAgents world now s = (Returned agents, s1) ->
  getQueues world s1 = (Returned queues, s2) ->
  getActiveCalls world now s2 = (Returned calls, s3) ->
  length agents = 12%nat /\ length queues = 4%nat
  /\ (2 <= length calls <= 9)%nat.
Proof.
  intros Hm Ha Hq Hc.
  assert (Hm1 : useMockData s1 = true).
  { rewrite <- Hm. replace s1 with (snd (getAgents world now s))
      by (rewrite Ha; reflexivity). apply useMockData_getAgents. }
  assert (Hm2 : useMockData s2 = true).
  { rewrite <- Hm1. replace s2 with (snd (getQueues world s1))
      by (rewrite Hq; reflexivity). apply useMockData_getQueues. }
  revert Ha Hq Hc. unfold getAgents, getQueues, getActiveCalls, bind, get.
  cbn [fst snd]. rewrite Hm, Hm1, Hm2. intros Ha Hq Hc.
  destruct (getMockAgents_fixed world draws now s) as (l & x & Hrun & Hid & _).
  rewrite Ha in Hrun. injection Hrun as <- <-.
  apply (f_equal (@length _)) in Hid. rewrite length_map in Hid.
  destruct (getMockQueues_fixed world world s1 s1)
    as (l1 & x1 & _ & _ & Hrun1 & _ & _ & Hn).
  rewrite Hq in Hrun1. injection Hrun1 as <- <-.
  apply (f_equal (@length _)) in Hn. rewrite length_map in Hn.
  destruct (getMockCalls_length world draws now s2) as (l2 & x2 & Hrun2 & Hlen).
  rewrite Hc in Hrun2. injection Hrun2 as <- <-.
  split; [exact Hid|]. split; [exact Hn|exact Hlen].
Qed.

End MockTick.

(** X3.  A tick in mock mode, that is with the default endpoint, and
    with every draw in [0, 1).  It returns and does not send
    [dashboard:error]: nothing that it calls throws on the synthetic
    data.  It sends [dashboard:agents] with the twelve agents,
    [dashboard:queues] with the four queues, [dashboard:calls] with two
    to nine calls and [dashboard:stats], in this order.  Inside the
    alert window nothing follows and the alert clock stays; outside it
    exactly one [dashboard:alerts] follows, whose set is not empty, and
    the alert clock is set to the time of the tick. *)
Theorem tick_sends_four_lists_then_alerts :
  forall (world : World) (now : Z) (s : Sys),
    random_ok world ->
    useMockData s = true ->
    exists agents queues calls stats tail,
      fst (broadcastUpdates world now s) = Returned tt
      /\ emitted (snd (broadcastUpdates world now s))
         = (emitted s
            ++ [DashboardAgents agents; DashboardQueues queues;
                DashboardCalls calls; DashboardStats stats]
            ++ tail)%list
      /\ length agents = 12%nat /\ length queues = 4%nat
      /\ (2 <= length calls <= 9)%nat
      /\ (now - lastAlertCheck s < 30000 ->
          tail = []
          /\ lastAlertCheck (snd (broadcastUpdates world now s))
             = lastAlertCheck s)
      /\ (30000 <= now - lastAlertCheck s ->
          (exists alerts, alerts <> [] /\ tail = [DashboardAlerts alerts])
          /\ lastAlertCheck (snd (broadcastUpdates world now s)) = now).
Proof.
  intros world now s Hw Hm.
  destruct (broadcastUpdates_run world now s)
    as (agents & s1 & queues & s2 & calls & s3 & stats & s4
        & Ha & Hq & Hcalls & _ & F & Hrun).
  destruct (mock_reads world Hw now s agents s1 queues s2 calls s3 Hm Ha Hq Hcalls)
    as (Hla & Hlq & Hlc).
  assert (He : emitted (afterBroadcasts now agents queues calls stats s4)
               = (emitted s ++ [DashboardAgents agents; DashboardQueues queues;
                                DashboardCalls calls; DashboardStats stats])%list).
  { unfold afterBroadcasts. cbn. rewrite (fr_emitted _ _ _ F). reflexivity. }
  assert (Hc : lastAlertCheck (afterBroadcasts now agents queues calls stats s4)
               = lastAlertCheck s).
  { unfold afterBroadcasts. cbn. apply F. }
  assert (Hm5 : useMockData (afterBroadcasts now agents queues calls stats s4)
                = true).
  { unfold afterBroadcasts. cbn. rewrite (fr_useMockData _ _ _ F). exact Hm. }
  remember (afterBroadcasts now agents queues calls stats s4) as s5 eqn:Hs5.
  clear Hs5.
  exists agents, queues, calls, stats.
  destruct (Z.lt_ge_cases (now - lastAlertCheck s) 30000) as [Hin|Hout].
  - exists []. rewrite Hrun, checkAndEmitAlerts_skip by (rewrite Hc; exact Hin).
    cbn [fst snd]. rewrite He, Hc.
    repeat split; auto; lia.
  - rewrite Hrun, checkAndEmitAlerts_run by (rewrite Hc; exact Hout).
    destruct (alertsOf now s5 queues agents) as [|a l] eqn:Halerts.
    + exfalso. unfold alertsOf, connectivityAlerts in Halerts.
      rewrite Hm5, orb_true_r in Halerts.
      apply app_eq_nil in Halerts as [_ Halerts].
      apply app_eq_nil in Halerts as [_ Halerts]. discriminate.
    + exists [DashboardAlerts (a :: l)]. cbn. rewrite He, <- app_assoc.
      repeat split; auto; try lia.
      exists (a :: l). split; [discriminate|reflexivity].
Qed.

Lemma tick_sends_four_lists_then_alerts_witness :
  random_ok downWorld
  /\ useMockData demoSys = true
  /\ length (emitted (snd (broadcastUpdates downWorld 40000 demoSys))) = 5%nat.
Proof.
  split; [exact downWorld_ok|]. split; [reflexivity|].
  destruct (tick_sends_four_lists_then_alerts downWorld 40000 demoSys
              downWorld_ok eq_refl)
    as (agents & queues & calls & stats & tail & _ & He & _ & _ & _ & _ & Hout).
  rewrite He. destruct Hout as [(alerts & _ & ->) _]; [vm_compute; discriminate|].
  reflexivity.
Defined.
